(** * PgProxy: the PostgreSQL wire-protocol proxy of decryptor/postgresql

    A shallow embedding of [decryptor/postgresql/pg_decryptor.go]: the
    synthesized error packet, the client-to-database loop with AcraCensor,
    the prepared-statement and portal bookkeeping, the database-to-client
    state machine with its TLS upgrade, and the DataRow column loop.

    Bytes are integers in [0, 256); byte strings are lists of them.  Go
    strings are byte strings too and are written here as [string].  The
    mutable objects of a session (both sockets, the registry, the protocol
    state, the session data) live in one record, [PgProxy]; every method is
    a function in a small state monad whose state survives an error return,
    as the fields of a Go struct do. *)

From Stdlib Require Import ZArith Lia String Ascii.
From stdpp Require Import base option list strings gmap.

Local Open Scope Z_scope.

(** ** Bytes, big-endian words and Go strings *)

Abbreviation byte := Z (only parsing).
Abbreviation bytes := (list Z) (only parsing).

(** [byte(c)] for a character literal. *)
Definition char (c : ascii) : byte := Z.of_N (N_of_ascii c).

(** [[]byte(s)] *)
Definition bytes_of (s : string) : bytes := char <$> list_ascii_of_string s.

(** [len(x)] as a Go [int]. *)
Definition len {A} (l : list A) : Z := Z.of_nat (length l).

(** [uint32(n)]: conversion of an [int] wraps modulo 2^32. *)
Definition uint32 (n : Z) : Z := n mod 2 ^ 32.

(** [binary.BigEndian.PutUint32]: the four bytes of [v], most significant
    first; each [byte(v >> k)] keeps the low eight bits. *)
Definition PutUint32 (v : Z) : bytes :=
  [ Z.land (Z.shiftr v 24) 255; Z.land (Z.shiftr v 16) 255;
    Z.land (Z.shiftr v 8) 255; Z.land v 255 ].

Arguments PutUint32 : simpl never.

(** [binary.BigEndian.Uint32] on a four byte slice. *)
Definition Uint32 (b : bytes) : Z :=
  match b with
  | [b0; b1; b2; b3] =>
      Z.lor (Z.lor (Z.lor (Z.shiftl b0 24) (Z.shiftl b1 16)) (Z.shiftl b2 8)) b3
  | _ => 0
  end.

(** Writing through the sub-slice [output[lo : lo+4]] overwrites those four
    cells of the backing array. *)
Definition put_at (lo : nat) (word : bytes) (output : bytes) : bytes :=
  take lo output ++ word ++ drop (lo + length word) output.

(** ** Errors *)

(** The error values the proxy tells apart: [*base.EncodingError] (by type
    assertion), key read errors (by [filesystem.IsKeyReadError]) and all the
    rest, made with [errors.New] or returned by a collaborator. *)
Inductive error : Type :=
| EncodingError (msg : string)
| KeyReadError (msg : string)
| ErrorString (msg : string).

#[global] Instance error_eq_dec : EqDecision error.
Proof. solve_decision. Defined.

(** [err.Error()] *)
Definition Error (e : error) : string :=
  match e with EncodingError m | KeyReadError m | ErrorString m => m end.

(** [filesystem.IsKeyReadError] *)
Definition IsKeyReadError (e : error) : bool :=
  match e with KeyReadError _ => true | _ => false end.

(** The type assertion of [err] to [base.EncodingError]. *)
Definition asEncodingError (e : error) : option error :=
  match e with EncodingError _ => Some e | _ => None end.

(** The named errors of this and other packages; the proxy hands them on and
    never looks at their text. *)
Definition ErrNilPendingPacket : error := ErrorString "nil pending packet".
Definition ErrUnsupportedPacketType : error := ErrorString "unsupported postgresql message type".
Definition ErrEmptyTLSConfig : error := ErrorString "empty TLS config".
Definition ErrStatementNotFound : error := ErrorString "no prepared statement with given name".
Definition ErrCursorNotFound : error := ErrorString "no cursor with given name".
Definition ErrStatementAlreadyInRegistry : error := ErrorString "prepared statement already stored in registry".
Definition ErrCursorAlreadyInRegistry : error := ErrorString "cursor already stored in registry".
Definition ErrNoPendingPacket : error := ErrorString "no pending packet".
Definition ErrShortRead : error := ErrorString "unexpected EOF".

(** ** Protocol constants *)

(** ['Z' 0 0 0 5 'I']: ReadyForQuery, length 5, idle status. *)
Definition ReadyForQuery : bytes := [char "Z"; 0; 0; 0; 5; char "I"].

Definition TerminatePacket : bytes := [char "X"; 0; 0; 0; 4].

Definition DataRowLengthBufSize : Z := 4.
Definition DataRowMessageType : byte := char "D".
Definition QueryMessageType : byte := char "Q".
Definition ParseMessageType : byte := char "P".
Definition BindMessageType : byte := char "B".
Definition ExecuteMessageType : byte := char "E".
Definition ErrorResponseType : byte := char "E".
Definition ReadyForQueryMessageType : byte := char "Z".
Definition RowDescriptionType : byte := char "T".
Definition ParameterDescriptionType : byte := char "t".

(** [time.Duration] counts nanoseconds. *)
Definition Second : Z := 1000000000.
Definition ClientStopTimeout : Z := Second * 2.

Definition dataFormatText : Z := 0.
Definition dataFormatBinary : Z := 1.

Inductive databaseHandlerState : Type :=
| stateFirstPacket
| stateServe
| stateSkipResponse.

#[global] Instance databaseHandlerState_eq_dec : EqDecision databaseHandlerState.
Proof. solve_decision. Defined.

(** ** NewPgError *)

(** The packed error: the slice is allocated, cut back to its first five
    cells, grown by the three fields and the two closing zero bytes, and
    the length is stored last into cells 1 to 4. *)
Definition NewPgError (message : string) : bytes * option error :=
  let output := replicate (5 + 7 + 7 + String.length message + 2) 0 in
  let output := <[0%nat := char "E"]> output in
  let output := take 5 output in
  let output := output ++ [char "S"; char "E"; char "R"; char "R"; char "O"; char "R"; 0] in
  let output := output ++ bytes_of "C42000" in
  let output := output ++ [0] in
  let output := output ++ ([char "M"] ++ bytes_of message) in
  let output := output ++ [0; 0] in
  let output := put_at 1 (PutUint32 (uint32 (len output - 1))) output in
  (output, None).

(** The packet as §6 words it: type ['E'], the length, the fields [S=ERROR],
    [C=42000] and [M=<message>], each a code byte, a value and a zero byte,
    and a closing zero byte. *)
Definition field (code : ascii) (value : string) : bytes :=
  [char code] ++ bytes_of value ++ [0].

Definition ErrorResponse (message : string) : bytes :=
  let body := field "S" "ERROR" ++ field "C" "42000" ++ field "M" message ++ [0] in
  [char "E"] ++ PutUint32 (len body + 4) ++ body.

(** ** Connections *)

(** How one call of [Write] on a [net.Conn] ends: everything is written, or
    only the first [n] bytes are, with or without an error. *)
Inductive WriteOutcome : Type :=
| WriteAll
| WriteCut (n : nat) (err : option error).

Inductive Deadline : Type :=
| NoDeadline
| DeadlineNow.

(** A [net.Conn] as the proxy sees it: the bytes the peer has sent and that
    are not read yet, the bytes written to the peer so far, how the coming
    writes end (none listed: they succeed), and what [SetDeadline] answers. *)
Record Conn : Type := {
  incoming : bytes;
  sent : bytes;
  writes : list WriteOutcome;
  deadline : Deadline;
  deadlineError : option error;
}.

Definition Conn_Write (c : Conn) (p : bytes) : Conn * (Z * option error) :=
  match writes c with
  | [] =>
      ({| incoming := incoming c; sent := sent c ++ p; writes := [];
          deadline := deadline c; deadlineError := deadlineError c |},
       (len p, None))
  | WriteAll :: rest =>
      ({| incoming := incoming c; sent := sent c ++ p; writes := rest;
          deadline := deadline c; deadlineError := deadlineError c |},
       (len p, None))
  | WriteCut n err :: rest =>
      ({| incoming := incoming c; sent := sent c ++ take n p; writes := rest;
          deadline := deadline c; deadlineError := deadlineError c |},
       (len (take n p), err))
  end.

(** [c] after a write that took all of [p]. *)
Definition wrote (p : bytes) (c : Conn) : Conn :=
  {| incoming := incoming c; sent := sent c ++ p; writes := tail (writes c);
     deadline := deadline c; deadlineError := deadlineError c |}.

Definition Conn_SetDeadline (c : Conn) (d : Deadline) : Conn * option error :=
  match deadlineError c with
  | Some e => (c, Some e)
  | None =>
      ({| incoming := incoming c; sent := sent c; writes := writes c;
          deadline := d; deadlineError := None |}, None)
  end.

Definition Conn_Read (c : Conn) (n : nat) : Conn * bytes :=
  ({| incoming := drop n (incoming c); sent := sent c; writes := writes c;
      deadline := deadline c; deadlineError := deadlineError c |},
   take n (incoming c)).

(** The next [n] writes on [c] write everything they are given. *)
Definition accepts (n : nat) (c : Conn) : Prop :=
  Forall (fun o => o = WriteAll) (take n (writes c)).

(** Modelled from the spec: [base.CheckReadWrite] is not part of this file;
    §7 makes a failed or short network write fatal.  It hands back the
    error of the call, and reports a count that differs from the expected
    one. *)
Definition CheckReadWrite (n expectedN : Z) (err : option error) : option error :=
  match err with
  | Some e => Some e
  | None => if decide (n = expectedN) then None
            else Some (ErrorString "incorrect read/write count")
  end.

(** ** Results *)

(** A Go call ends with a value, with a non-nil [error], or in a run-time
    panic (index out of range, nil dereference). *)
Inductive result (A : Type) : Type :=
| Ok (a : A)
| Err (e : error)
| Panic (why : string).
Arguments Ok {A} a.
Arguments Err {A} e.
Arguments Panic {A} why.

(** ** Packets *)

Record ParsePacket : Type := {
  Name : string;
  QueryString : string;
  params : list bytes;
}.

Record BindPacket : Type := {
  PortalName : string;
  StatementName : string;
  paramFormats : list Z;
  paramValues : list (option bytes);
  resultFormats : list Z;
}.

#[global] Instance BindPacket_eq_dec : EqDecision BindPacket.
Proof. solve_decision. Defined.

Record ExecutePacket : Type := {
  portal : string;
  maxRows : Z;
}.

Record BoundValue : Type := {
  Format : Z;
  GetData : option bytes;
}.

Record FieldDescription : Type := {
  FieldName : bytes;
  DataTypeOID : Z;
  FieldFormat : Z;
}.

Record RowDescription : Type := { Fields : list FieldDescription }.

Record ParameterDescription : Type := { ParameterOIDs : list Z }.

(** Modelled from the spec: [ColumnData] is declared in the packet handler,
    which is not part of this file.  A column of a DataRow is its four
    length bytes and its data; §8 gives NULL the wire length -1. *)
Record ColumnData : Type := {
  LengthBuf : bytes;
  data : bytes;
}.

Definition NullColumnValue : bytes := [255; 255; 255; 255].

Definition IsNull (column : ColumnData) : bool :=
  bool_decide (LengthBuf column = NullColumnValue).

Definition ColumnData_GetData (column : ColumnData) : bytes := data column.

Definition SetData (column : ColumnData) (newData : bytes) : ColumnData :=
  {| LengthBuf := PutUint32 (uint32 (len newData)); data := newData |}.

(** The fields of [PacketHandler] this file reads and writes.  The message
    type is a buffer of one byte, empty for a startup message. *)
Record PacketHandler : Type := {
  messageType : bytes;
  descriptionBuf : bytes;
  terminatePacket : bool;
  columnCount : nat;
  Columns : list ColumnData;
}.

(** [packet.Reset()] *)
Definition Reset : PacketHandler :=
  {| messageType := []; descriptionBuf := []; terminatePacket := false;
     columnCount := 0; Columns := [] |}.

Definition set_descriptionBuf (buf : bytes) (packet : PacketHandler) : PacketHandler :=
  {| messageType := messageType packet; descriptionBuf := buf;
     terminatePacket := terminatePacket packet;
     columnCount := columnCount packet; Columns := Columns packet |}.

Definition set_Columns (cols : list ColumnData) (packet : PacketHandler) : PacketHandler :=
  {| messageType := messageType packet; descriptionBuf := descriptionBuf packet;
     terminatePacket := terminatePacket packet;
     columnCount := columnCount packet; Columns := cols |}.

Definition set_parsedColumns (cols : list ColumnData) (packet : PacketHandler) : PacketHandler :=
  {| messageType := messageType packet; descriptionBuf := descriptionBuf packet;
     terminatePacket := terminatePacket packet;
     columnCount := length cols; Columns := cols |}.

Definition hasType (t : byte) (packet : PacketHandler) : bool :=
  bool_decide (messageType packet = [t]).

(** Modelled from the spec: the tests on the message type are methods of the
    packet handler, which is not part of this file; §3 lists the type
    bytes, and ['S'] and ['N'] as the two answers to an SSLRequest. *)
Definition IsSimpleQuery : PacketHandler -> bool := hasType QueryMessageType.
Definition IsParse : PacketHandler -> bool := hasType ParseMessageType.
Definition IsBind : PacketHandler -> bool := hasType BindMessageType.
Definition IsExecute : PacketHandler -> bool := hasType ExecuteMessageType.
Definition IsDataRow : PacketHandler -> bool := hasType DataRowMessageType.
Definition IsRowDescription : PacketHandler -> bool := hasType RowDescriptionType.
Definition IsParameterDescription : PacketHandler -> bool := hasType ParameterDescriptionType.
Definition IsReadyForQuery : PacketHandler -> bool := hasType ReadyForQueryMessageType.
Definition IsSSLRequestAllowed : PacketHandler -> bool := hasType (char "S").
Definition IsSSLRequestDeny : PacketHandler -> bool := hasType (char "N").

(** Modelled from the spec: [sendPacket] is a method of the packet handler;
    §4.1 has it write the type byte, the length recomputed from the
    payload (the four length bytes included) and the payload. *)
Definition Marshal (packet : PacketHandler) : bytes :=
  messageType packet ++ PutUint32 (uint32 (len (descriptionBuf packet) + 4))
    ++ descriptionBuf packet.

(** ** Encryption settings *)

(** What the proxy asks of a [config.ColumnEncryptionSetting]. *)
Record ColumnEncryptionSetting : Type := {
  ColumnName : string;
  HasTypeAwareSupport : bool;
  GetDBDataTypeID : Z;
}.

Record QueryDataItem : Type := { Setting : ColumnEncryptionSetting }.

Definition ByteaOID : Z := 17.

(** ** Collaborators

    The proxy calls into other packages through interfaces.  Each interface
    is a class here and every statement below holds for all instances; an
    answer is a function of the arguments of the call. *)

(** [sqlparser.Parser] *)
Class SQLParser : Type := {
  Statement : Type;
  Parse : string -> result Statement;
  HandleRawSQLQuery : string -> string * option error;
  ErrQuerySyntaxError : error;
}.

(** [acracensor.AcraCensorInterface] *)
Class AcraCensorInterface : Type := {
  HandleQuery : string -> option error;
}.

(** [base.QueryObserverManager]: the new query or parameters, whether they
    changed, and the error. *)
Class QueryObserverManager `{SQLParser} : Type := {
  OnQuery : string -> string * bool * option error;
  OnBind : Statement -> list BoundValue -> list BoundValue * bool * option error;
}.

(** [base.ColumnDecryptionObserver], called with the column index, its
    data, whether the format is binary, and the setting put in the context. *)
Class ColumnDecryptionObserver : Type := {
  OnColumnDecryption :
    nat -> bytes -> bool -> option ColumnEncryptionSetting -> bytes * option error;
}.

(** [encryptor.QueryDataEncryptor], as [EncryptionSettingExtractor] uses it:
    [OnQuery] looks at a query, and [GetQueryEncryptionSettings] returns
    what it found there, a slice that may be nil. *)
Class QueryDataEncryptor : Type := {
  encryptor_OnQuery : string -> option error;
  GetQueryEncryptionSettings : string -> option (list (option QueryDataItem));
}.

(** [network.TLSConnectionWrapper] *)
Record TLSWrapper : Type := {
  WrapClientConnection : Conn -> result (Conn * bytes);
  WrapDBConnection : Conn -> result Conn;
  UseConnectionClientID : bool;
}.

(** [base.ProxySetting], the log level and the constants of other packages. *)
Class ProxySetting : Type := {
  TLSConnectionWrapper : option TLSWrapper;
  LogDebug : bool;
  AcraCensorBlockedThisQuery : string;
  mapEncryptedTypeToOID : Z -> Z * bool;
}.

(** The methods of [PacketHandler], [BindPacket] and the description
    packets that decode and encode payloads; their wire layouts are defined
    in files that are not part of this one. *)
Class PacketCodec : Type := {
  GetSimpleQuery : PacketHandler -> result string;
  GetParseData : PacketHandler -> result (option ParsePacket);
  GetBindData : PacketHandler -> result (option BindPacket);
  GetExecuteData : PacketHandler -> result ExecutePacket;
  GetRowDescriptionData : PacketHandler -> result RowDescription;
  GetParameterDescriptionData : PacketHandler -> result ParameterDescription;
  ReplaceQuery : PacketHandler -> string -> PacketHandler;
  ReplaceBind : PacketHandler -> BindPacket -> PacketHandler * option error;
  SetParsePacket : PacketHandler -> ParsePacket -> PacketHandler * option error;
  parseColumns : bytes -> list Z -> result (list ColumnData);
  updateDataFromColumns :
    list ColumnData -> option (list (option QueryDataItem)) -> bytes;
  GetParameters : BindPacket -> result (list BoundValue);
  SetParameters : BindPacket -> list BoundValue -> BindPacket;
  GetResultFormats : BindPacket -> result (list Z);
  GetParameterFormatByIndex : nat -> list Z -> result Z;
  RowDescription_Encode : RowDescription -> bytes -> bytes;
  ParameterDescription_Encode : ParameterDescription -> bytes -> bytes;
}.

(** How an iteration of a proxy loop ends: with [continue] (or by falling
    through to the next iteration), by sending an error, possibly nil, to
    [errCh] and returning, by confirming a stop request and returning, or
    in a panic. *)
Inductive LoopResult (S : Type) : Type :=
| Continue (s : S)
| Exit (err : option error)
| Parked
| Crashed (why : string).
Arguments Continue {S} s.
Arguments Exit {S} err.
Arguments Parked {S}.
Arguments Crashed {S} why.

Section Proxy.

Context `{parser : SQLParser} {censor : AcraCensorInterface}
  `{queryObserverManager : !QueryObserverManager}
  {decryptionObserver : ColumnDecryptionObserver}
  {encryptor : QueryDataEncryptor} {setting : ProxySetting} {codec : PacketCodec}.

(** ** Prepared statements, portals and pending queries *)

Record PgPreparedStatement : Type := {
  statementName : string;
  QueryText : string;
  Query : Statement;
}.

Definition NewPreparedStatement (name text : string) (sql : Statement) : PgPreparedStatement :=
  {| statementName := name; QueryText := text; Query := sql |}.

Record PgPortal : Type := {
  bind : BindPacket;
  PreparedStatement : PgPreparedStatement;
}.

Definition NewPortal (bindPacket : BindPacket) (statement : PgPreparedStatement) : PgPortal :=
  {| bind := bindPacket; PreparedStatement := statement |}.

Definition PgPortal_Name (cursor : PgPortal) : string := PortalName (bind cursor).

Record PgPreparedStatementRegistry : Type := {
  statements : gmap string PgPreparedStatement;
  cursors : gmap string PgPortal;
}.

Definition NewPreparedStatementRegistry : PgPreparedStatementRegistry :=
  {| statements := ∅; cursors := ∅ |}.

(** Modelled from the spec: the registry is defined in a file that is not
    part of this one.  §4.3: a mapping from name to entity, where lookup
    returns the entity, and insertion fails if the name is already present
    and non-empty, the unnamed entity being always replaceable; the same
    rules hold for portals. *)
Definition StatementByName (registry : PgPreparedStatementRegistry) (name : string)
  : result PgPreparedStatement :=
  match statements registry !! name with
  | Some s => Ok s
  | None => Err ErrStatementNotFound
  end.

Definition CursorByName (registry : PgPreparedStatementRegistry) (name : string)
  : result PgPortal :=
  match cursors registry !! name with
  | Some c => Ok c
  | None => Err ErrCursorNotFound
  end.

Definition AddStatement (registry : PgPreparedStatementRegistry) (statement : PgPreparedStatement)
  : PgPreparedStatementRegistry * option error :=
  let name := statementName statement in
  if bool_decide (name ≠ "" ∧ is_Some (statements registry !! name))
  then (registry, Some ErrStatementAlreadyInRegistry)
  else ({| statements := <[name := statement]> (statements registry);
           cursors := cursors registry |}, None).

Definition AddCursor (registry : PgPreparedStatementRegistry) (cursor : PgPortal)
  : PgPreparedStatementRegistry * option error :=
  let name := PgPortal_Name cursor in
  if bool_decide (name ≠ "" ∧ is_Some (cursors registry !! name))
  then (registry, Some ErrCursorAlreadyInRegistry)
  else ({| statements := statements registry;
           cursors := <[name := cursor]> (cursors registry) |}, None).

(** A bind packet is held by pointer: the portal registered for it sees a
    later [SetParameters] on it. *)
Definition rebind (old new : BindPacket) (registry : PgPreparedStatementRegistry)
  : PgPreparedStatementRegistry :=
  match cursors registry !! PortalName old with
  | Some cursor =>
      if bool_decide (bind cursor = old)
      then {| statements := statements registry;
              cursors := <[PortalName old :=
                             NewPortal new (PreparedStatement cursor)]> (cursors registry) |}
      else registry
  | None => registry
  end.

Record queryPacket : Type := {
  bindPacket : option BindPacket;
  executePacket : option ExecutePacket;
  preparedStatement : option PgPreparedStatement;
  simpleQuery : string;
}.

Definition newQueryPacket (query : string) : queryPacket :=
  {| bindPacket := None; executePacket := None; preparedStatement := None;
     simpleQuery := query |}.

Definition newExtendedQueryPacket (prepared : PgPreparedStatement)
  (bindPacket : BindPacket) (execute : ExecutePacket) : queryPacket :=
  {| bindPacket := Some bindPacket; executePacket := Some execute;
     preparedStatement := Some prepared; simpleQuery := "" |}.

(** Modelled from the spec: the pending packets are defined in a file that
    is not part of this one.  §3 and §4.4: a first-in first-out queue of
    simple or extended queries, each with its SQL text, filled at request
    time; the head is what incoming rows are attributed to, and a response
    without a head entry is a protocol violation. *)
Definition GetSQLQuery (packet : queryPacket) : string :=
  match executePacket packet, preparedStatement packet with
  | Some _, Some prepared => QueryText prepared
  | _, _ => simpleQuery packet
  end.

Definition pendingQueryPackets_Add (queue : list queryPacket) (packet : queryPacket)
  : list queryPacket * option error :=
  (queue ++ [packet], None).

Definition GetPendingPacket (queue : list queryPacket) : result queryPacket :=
  match queue with
  | packet :: _ => Ok packet
  | [] => Err ErrNoPendingPacket
  end.

Inductive PacketType : Type :=
| SimpleQueryPacket
| ParseStatementPacket
| BindStatementPacket
| ExecutePacketType
| DataPacket
| RowDescriptionPacket
| ParameterDescriptionPacket
| ReadyForQueryPacket
| OtherPacket.

#[global] Instance PacketType_eq_dec : EqDecision PacketType.
Proof. solve_decision. Defined.

Record PgProtocolState : Type := {
  lastPacketType : PacketType;
  pendingQueryPackets : list queryPacket;
}.

(** ** The session and the proxy *)

(** [base.ClientSession]: the registry and the data the encryptor leaves for
    the proxy, the settings of placeholders (a map from index to setting)
    and of result columns (a slice); both may be absent. *)
Record ClientSession : Type := {
  PreparedStatementRegistry : PgPreparedStatementRegistry;
  PlaceholderSettings : option (gmap nat ColumnEncryptionSetting);
  QueryDataItems : option (list (option QueryDataItem));
}.

(** What the proxy does besides reading and writing packets, in order. *)
Inductive Event : Type :=
| EvStopFlag
| EvSetDeadline (d : Deadline)
| EvClientStopped (after : Z)
| EvTimerFired (after : Z)
| EvSpawnClient
| EvWrapClient
| EvWrapDB
| EvNewClientID (clientID : bytes)
| EvClientWrite (p : bytes)
| EvDbWrite (p : bytes)
| EvColumnDecryption (i : nat) (data : bytes) (binaryFormat : bool)
    (encryptionSetting : option ColumnEncryptionSetting).

(** [PgProxy] with the objects it points to.  [protocolState.registry] and
    the registry of the session are one object, kept in the session.
    [sessionInContext] tells whether the context of a packet carries the
    session.  [clientStopAfter] is how long the goroutine that runs
    [ProxyClientConnection] takes to answer a stop request on
    [ClientStopResponse], if it ever does. *)
Record PgProxy : Type := {
  session : ClientSession;
  clientConnection : Conn;
  dbConnection : Conn;
  stopClient : bool;
  clientStopAfter : option Z;
  protocolState : PgProtocolState;
  sessionInContext : bool;
  trace : list Event;
}.

Definition set_session (s : ClientSession) (proxy : PgProxy) : PgProxy :=
  {| session := s; clientConnection := clientConnection proxy;
     dbConnection := dbConnection proxy; stopClient := stopClient proxy;
     clientStopAfter := clientStopAfter proxy; protocolState := protocolState proxy;
     sessionInContext := sessionInContext proxy; trace := trace proxy |}.

Definition set_clientConnection (c : Conn) (proxy : PgProxy) : PgProxy :=
  {| session := session proxy; clientConnection := c;
     dbConnection := dbConnection proxy; stopClient := stopClient proxy;
     clientStopAfter := clientStopAfter proxy; protocolState := protocolState proxy;
     sessionInContext := sessionInContext proxy; trace := trace proxy |}.

Definition set_dbConnection (c : Conn) (proxy : PgProxy) : PgProxy :=
  {| session := session proxy; clientConnection := clientConnection proxy;
     dbConnection := c; stopClient := stopClient proxy;
     clientStopAfter := clientStopAfter proxy; protocolState := protocolState proxy;
     sessionInContext := sessionInContext proxy; trace := trace proxy |}.

Definition set_stopClient (b : bool) (proxy : PgProxy) : PgProxy :=
  {| session := session proxy; clientConnection := clientConnection proxy;
     dbConnection := dbConnection proxy; stopClient := b;
     clientStopAfter := clientStopAfter proxy; protocolState := protocolState proxy;
     sessionInContext := sessionInContext proxy; trace := trace proxy |}.

Definition set_protocolState (s : PgProtocolState) (proxy : PgProxy) : PgProxy :=
  {| session := session proxy; clientConnection := clientConnection proxy;
     dbConnection := dbConnection proxy; stopClient := stopClient proxy;
     clientStopAfter := clientStopAfter proxy; protocolState := s;
     sessionInContext := sessionInContext proxy; trace := trace proxy |}.

Definition log (ev : Event) (proxy : PgProxy) : PgProxy :=
  {| session := session proxy; clientConnection := clientConnection proxy;
     dbConnection := dbConnection proxy; stopClient := stopClient proxy;
     clientStopAfter := clientStopAfter proxy; protocolState := protocolState proxy;
     sessionInContext := sessionInContext proxy; trace := trace proxy ++ [ev] |}.

Definition set_registry (r : PgPreparedStatementRegistry) (proxy : PgProxy) : PgProxy :=
  set_session {| PreparedStatementRegistry := r;
                 PlaceholderSettings := PlaceholderSettings (session proxy);
                 QueryDataItems := QueryDataItems (session proxy) |} proxy.

Definition set_lastPacketType (t : PacketType) (proxy : PgProxy) : PgProxy :=
  set_protocolState {| lastPacketType := t;
                       pendingQueryPackets := pendingQueryPackets (protocolState proxy) |} proxy.

Definition set_pendingQueryPackets (q : list queryPacket) (proxy : PgProxy) : PgProxy :=
  set_protocolState {| lastPacketType := lastPacketType (protocolState proxy);
                       pendingQueryPackets := q |} proxy.

Definition sessionRegistry (proxy : PgProxy) : PgPreparedStatementRegistry :=
  PreparedStatementRegistry (session proxy).

Definition LastPacketType (proxy : PgProxy) : PacketType :=
  lastPacketType (protocolState proxy).

(** ** The proxy monad *)

Definition M (A : Type) : Type := PgProxy -> result A * PgProxy.

Definition ret {A} (a : A) : M A := fun proxy => (Ok a, proxy).

Definition bind_M {A B} (c : M A) (k : A -> M B) : M B :=
  fun proxy =>
    match c proxy with
    | (Ok a, proxy') => k a proxy'
    | (Err e, proxy') => (Err e, proxy')
    | (Panic why, proxy') => (Panic why, proxy')
    end.

Definition fail {A} (e : error) : M A := fun proxy => (Err e, proxy).

Definition panic {A} (why : string) : M A := fun proxy => (Panic why, proxy).

Definition gets {A} (f : PgProxy -> A) : M A := fun proxy => (Ok (f proxy), proxy).

Definition modify (f : PgProxy -> PgProxy) : M unit := fun proxy => (Ok tt, f proxy).

(** A call that returns a value or an error and touches no state. *)
Definition call {A} (r : result A) : M A := fun proxy => (r, proxy).

(** [if err != nil { return err }] *)
Definition check (err : option error) : M unit :=
  match err with Some e => fail e | None => ret tt end.

Notation "'do' x <- c ; k" := (bind_M c (fun x => k))
  (at level 10, x name, c at level 100, k at level 200, only parsing).
Notation "'do' ' pat <- c ; k" := (bind_M c (fun x => match x with pat => k end))
  (at level 10, pat pattern, c at level 100, k at level 200, only parsing).

(** Runs [c] and hands its error, if any, to the caller as a value. *)
Definition try {A} (c : M A) : M (A + error) :=
  fun proxy =>
    match c proxy with
    | (Ok a, proxy') => (Ok (inl a), proxy')
    | (Err e, proxy') => (Ok (inr e), proxy')
    | (Panic why, proxy') => (Panic why, proxy')
    end.

(** ** Writing to the sockets *)

Inductive Peer : Type := Client | Database.

Definition write (to : Peer) (p : bytes) : M (Z * option error) :=
  fun proxy =>
    match to with
    | Client =>
        let '(c, (n, err)) := Conn_Write (clientConnection proxy) p in
        (Ok (n, err), log (EvClientWrite (take (Z.to_nat n) p)) (set_clientConnection c proxy))
    | Database =>
        let '(c, (n, err)) := Conn_Write (dbConnection proxy) p in
        (Ok (n, err), log (EvDbWrite (take (Z.to_nat n) p)) (set_dbConnection c proxy))
    end.

(** The proxy after a write to a peer that took all of [p]. *)
Definition sentTo (to : Peer) (p : bytes) (proxy : PgProxy) : PgProxy :=
  match to with
  | Client =>
      log (EvClientWrite p) (set_clientConnection (wrote p (clientConnection proxy)) proxy)
  | Database =>
      log (EvDbWrite p) (set_dbConnection (wrote p (dbConnection proxy)) proxy)
  end.

(** Modelled from the spec: [sendPacket] and [sendMessageType] are methods of
    the packet handler.  A handler writes to the peer of the socket it
    reads from; the write of a packet is all or an error (§4.1, §7). *)
Definition sendPacket (to : Peer) (packet : PacketHandler) : M unit :=
  do '(n, err) <- write to (Marshal packet);
  check (CheckReadWrite n (len (Marshal packet)) err).

Definition sendMessageType (to : Peer) (packet : PacketHandler) : M unit :=
  do '(n, err) <- write to (messageType packet);
  check (CheckReadWrite n (len (messageType packet)) err).

Definition sendClientError (msg : string) : M unit :=
  let '(errorMessage, err) := NewPgError msg in
  do _ <- check err;
  do '(n, err) <- write Client errorMessage;
  do _ <- check (CheckReadWrite n (len errorMessage) err);
  do '(n, err) <- write Client ReadyForQuery;
  do _ <- check (CheckReadWrite n (len ReadyForQuery) err);
  ret tt.

(** ** The client side *)

(** Modelled from the spec: [HandleClientPacket] of the protocol state is
    defined in a file that is not part of this one.  §4.2: it classifies
    the packet by its type byte and keeps the class as the last packet type. *)
Definition HandleClientPacket (packet : PacketHandler) : M unit :=
  modify (set_lastPacketType
    (if IsSimpleQuery packet then SimpleQueryPacket
     else if IsParse packet then ParseStatementPacket
     else if IsBind packet then BindStatementPacket
     else if IsExecute packet then ExecutePacketType
     else OtherPacket)).

Definition pendingQueryPackets_add (packet : queryPacket) : M unit :=
  do queue <- gets (fun proxy => pendingQueryPackets (protocolState proxy));
  let '(queue', err) := pendingQueryPackets_Add queue packet in
  do _ <- modify (set_pendingQueryPackets queue');
  check err.

Definition handleQueryPacket (packet : PacketHandler) : M (bool * PacketHandler) :=
  do query <-
    (if IsParse packet then
       do parsePacket <- call (GetParseData packet);
       match parsePacket with
       | Some parsePacket => ret (QueryString parsePacket)
       | None => panic "nil pointer dereference"
       end
     else if IsSimpleQuery packet then call (GetSimpleQuery packet)
     else fail ErrUnsupportedPacketType);
  do _ <-
    (if LogDebug then
       let '(queryWithHiddenValues, err) := HandleRawSQLQuery query in
       if bool_decide (err = Some ErrQuerySyntaxError) then ret tt
       else
         do last <- gets LastPacketType;
         if bool_decide (last = ParseStatementPacket)
         then do _ <- call (GetParseData packet); ret tt
         else ret tt
     else ret tt);
  match HandleQuery query with
  | Some censorErr => ret (true, packet)
  | None =>
      let '(newQuery, changed, err) := OnQuery query in
      do _ <-
        match err with
        | Some e => if IsKeyReadError e then fail e else ret tt
        | None => ret tt
        end;
      if changed then ret (false, ReplaceQuery packet newQuery)
      else ret (false, packet)
  end.

Definition registerPreparedStatement (preparedStatement : ParsePacket) : M unit :=
  let name := Name preparedStatement in
  let queryText := QueryString preparedStatement in
  do query <- call (Parse queryText);
  let statement := NewPreparedStatement name queryText query in
  do registry <- gets sessionRegistry;
  let '(registry', err) := AddStatement registry statement in
  do _ <- modify (set_registry registry');
  check err.

(** The loop of [replaceOIDsInParsePackets]: the parameters from index [i]
    on, and whether one has been changed.  [PutUint32] needs four bytes. *)
Fixpoint replaceOIDs (items : gmap nat ColumnEncryptionSetting) (i : nat)
  (params : list bytes) : result (list bytes * bool) :=
  match params with
  | [] => Ok ([], false)
  | param :: rest =>
      match items !! i with
      | None =>
          match replaceOIDs items (S i) rest with
          | Ok (rest', changed) => Ok (param :: rest', changed)
          | other => other
          end
      | Some setting =>
          if HasTypeAwareSupport setting then
            if bool_decide (length param < 4)%nat then Panic "index out of range"
            else
              match replaceOIDs items (S i) rest with
              | Ok (rest', _) => Ok (put_at 0 (PutUint32 ByteaOID) param :: rest', true)
              | other => other
              end
          else
            match replaceOIDs items (S i) rest with
            | Ok (rest', changed) => Ok (param :: rest', changed)
            | other => other
            end
      end
  end.

Definition replaceOIDsInParsePackets (packet : PacketHandler) (preparedStatement : ParsePacket)
  : M PacketHandler :=
  if bool_decide (len (params preparedStatement) = 0) then ret packet
  else
    do inContext <- gets sessionInContext;
    if negb inContext then ret packet
    else
      do items <- gets (fun proxy => PlaceholderSettings (session proxy));
      match items with
      | None => ret packet
      | Some items =>
          do '(params', changed) <- call (replaceOIDs items 0 (params preparedStatement));
          if (changed : bool) then
            let '(packet', err) :=
              SetParsePacket packet
                {| Name := Name preparedStatement;
                   QueryString := QueryString preparedStatement;
                   params := params' |} in
            do _ <- check err;
            ret packet'
          else ret packet
      end.

Definition registerCursor (bindPacket : BindPacket) : M unit :=
  do registry <- gets sessionRegistry;
  let statementName := StatementName bindPacket in
  do preparedStatement <- call (StatementByName registry statementName);
  let cursor := NewPortal bindPacket preparedStatement in
  let '(registry', err) := AddCursor registry cursor in
  do _ <- modify (set_registry registry');
  check err.

Definition handleBindPacket (packet : PacketHandler) : M (bool * PacketHandler) :=
  do bind <- call (GetBindData packet);
  match bind with
  | None => fail ErrNilPendingPacket
  | Some bind =>
      do _ <- registerCursor bind;
      do registry <- gets sessionRegistry;
      do statement <- try (call (StatementByName registry (StatementName bind)));
      match statement with
      | inr _ => ret (false, packet)
      | inl statement =>
          do parameters <- try (call (GetParameters bind));
          match parameters with
          | inr _ => ret (false, packet)
          | inl parameters =>
              let '(newParameters, changed, err) := OnBind (Query statement) parameters in
              match err with
              | Some e => if IsKeyReadError e then fail e else ret (false, packet)
              | None =>
                  if changed then
                    let bind' := SetParameters bind newParameters in
                    do _ <- modify (fun proxy =>
                              set_registry (rebind bind bind' (sessionRegistry proxy)) proxy);
                    let '(packet', _) := ReplaceBind packet bind' in
                    ret (false, packet')
                  else ret (false, packet)
              end
          end
      end
  end.

Definition handleClientPacket (packet : PacketHandler) : M (bool * PacketHandler) :=
  do _ <- HandleClientPacket packet;
  do last <- gets LastPacketType;
  match last with
  | ExecutePacketType =>
      do executePacket <- call (GetExecuteData packet);
      do registry <- gets sessionRegistry;
      do cursor <- call (CursorByName registry (portal executePacket));
      let prepared := PreparedStatement cursor in
      let queryPacket := newExtendedQueryPacket prepared (bind cursor) executePacket in
      do _ <- pendingQueryPackets_add queryPacket;
      ret (false, packet)
  | ParseStatementPacket =>
      do '(censored, packet) <- handleQueryPacket packet;
      if (censored : bool) then ret (censored, packet)
      else
        do pendingParse <- call (GetParseData packet);
        match pendingParse with
        | None => fail ErrNilPendingPacket
        | Some pendingParse =>
            do _ <- registerPreparedStatement pendingParse;
            do packet <- replaceOIDsInParsePackets packet pendingParse;
            ret (false, packet)
        end
  | SimpleQueryPacket =>
      do query <- call (GetSimpleQuery packet);
      do _ <- pendingQueryPackets_add (newQueryPacket query);
      handleQueryPacket packet
  | BindStatementPacket => handleBindPacket packet
  | _ => ret (false, packet)
  end.

(** [packet] is a SimpleQuery or a Parse that decodes, and [query] is the
    text it carries. *)
Definition carriesQuery (packet : PacketHandler) (query : string) : Prop :=
  (IsSimpleQuery packet = true /\ GetSimpleQuery packet = Ok query) \/
  (IsParse packet = true /\
   exists parsePacket, GetParseData packet = Ok (Some parsePacket) /\
                       QueryString parsePacket = query).

(** One iteration of the loop of [ProxyClientConnection], given what
    [ReadClientPacket] read: a packet or an error. *)
Definition ProxyClientConnection_step (read : PacketHandler + error) (proxy : PgProxy)
  : LoopResult unit * PgProxy :=
  match read with
  | inr err =>
      if stopClient proxy then (Parked, set_stopClient false proxy)
      else (Exit (Some err), proxy)
  | inl packet =>
      match handleClientPacket packet proxy with
      | (Err e, proxy) => (Exit (Some e), proxy)
      | (Panic why, proxy) => (Crashed why, proxy)
      | (Ok (censored, packet), proxy) =>
          if (censored : bool) then
            match sendClientError AcraCensorBlockedThisQuery proxy with
            | (Err e, proxy) => (Exit (Some e), proxy)
            | (Panic why, proxy) => (Crashed why, proxy)
            | (Ok _, proxy) => (Continue tt, proxy)
            end
          else
            match sendPacket Database packet proxy with
            | (Err e, proxy) => (Exit (Some e), proxy)
            | (Panic why, proxy) => (Crashed why, proxy)
            | (Ok _, proxy) =>
                if terminatePacket packet then (Exit None, proxy)
                else (Continue tt, proxy)
            end
      end
  end.

(** The loop, over what the successive reads return; with nothing left to
    read it is blocked in [ReadClientPacket]. *)
Fixpoint ProxyClientConnection (reads : list (PacketHandler + error)) (proxy : PgProxy)
  : LoopResult unit * PgProxy :=
  match reads with
  | [] => (Continue tt, proxy)
  | read :: reads =>
      match ProxyClientConnection_step read proxy with
      | (Continue _, proxy) => ProxyClientConnection reads proxy
      | stop => stop
      end
  end.

(** ** The database side *)

Definition set_incoming (stream : bytes) (c : Conn) : Conn :=
  {| incoming := stream; sent := sent c; writes := writes c;
     deadline := deadline c; deadlineError := deadlineError c |}.

Definition set_messageType (t : bytes) (packet : PacketHandler) : PacketHandler :=
  {| messageType := t; descriptionBuf := descriptionBuf packet;
     terminatePacket := terminatePacket packet;
     columnCount := columnCount packet; Columns := Columns packet |}.

(** Modelled from the spec: the reads are methods of the packet handler,
    which is not part of this file.  §3 and §4.1: a packet is one type
    byte, a big-endian length that counts its own four bytes, and
    [length - 4] bytes of payload; the reader takes the type byte alone
    when asked to, reads the length first and then exactly the payload,
    and a short read is an error. *)
Definition readMessageType (packet : PacketHandler) : M PacketHandler :=
  fun proxy =>
    match incoming (dbConnection proxy) with
    | [] => (Err ErrShortRead, proxy)
    | t :: rest =>
        (Ok (set_messageType [t] packet),
         set_dbConnection (set_incoming rest (dbConnection proxy)) proxy)
    end.

Definition readData (packet : PacketHandler) : M PacketHandler :=
  fun proxy =>
    let stream := incoming (dbConnection proxy) in
    if bool_decide (length stream < 4)%nat then (Err ErrShortRead, proxy)
    else
      let dataLength := Uint32 (take 4 stream) - 4 in
      if bool_decide (dataLength < 0) then (Err (ErrorString "invalid packet length"), proxy)
      else if bool_decide (len (drop 4 stream) < dataLength) then (Err ErrShortRead, proxy)
      else
        (Ok (set_descriptionBuf (take (Z.to_nat dataLength) (drop 4 stream)) packet),
         set_dbConnection
           (set_incoming (drop (Z.to_nat dataLength) (drop 4 stream)) (dbConnection proxy))
           proxy).

Definition ReadPacket (packet : PacketHandler) : M PacketHandler :=
  do packet <- readMessageType packet;
  readData packet.

(** A packet on the wire, the handler once it has read it, and the proxy
    once the database stream is down to [rest]. *)
Definition framed (t : byte) (payload : bytes) : bytes :=
  [t] ++ PutUint32 (len payload + 4) ++ payload.

Definition arrived (t : byte) (payload : bytes) : PacketHandler :=
  set_descriptionBuf payload (set_messageType [t] Reset).

Definition consumed (rest : bytes) (proxy : PgProxy) : PgProxy :=
  set_dbConnection (set_incoming rest (dbConnection proxy)) proxy.

Fixpoint framedAll (packets : list (byte * bytes)) : bytes :=
  match packets with
  | [] => []
  | (t, payload) :: packets => framed t payload ++ framedAll packets
  end.

(** Modelled from the spec: [HandleDatabasePacket] of the protocol state is
    defined in a file that is not part of this one.  §4.2: it classifies
    the packet by its type byte, and on ReadyForQuery discards the head of
    the pending queries, if any. *)
Definition HandleDatabasePacket (packet : PacketHandler) : M unit :=
  if IsDataRow packet then modify (set_lastPacketType DataPacket)
  else if IsRowDescription packet then modify (set_lastPacketType RowDescriptionPacket)
  else if IsParameterDescription packet
  then modify (set_lastPacketType ParameterDescriptionPacket)
  else if IsReadyForQuery packet then
    modify (fun proxy =>
      set_lastPacketType ReadyForQueryPacket
        (set_pendingQueryPackets (tail (pendingQueryPackets (protocolState proxy))) proxy))
  else modify (set_lastPacketType OtherPacket).

(** Modelled from the spec: a function of the encryptor package; §4.2 has
    ReadyForQuery clear the placeholder settings of the session. *)
Definition DeletePlaceholderSettingsFromClientSession : M unit :=
  modify (fun proxy =>
    set_session {| PreparedStatementRegistry := PreparedStatementRegistry (session proxy);
                   PlaceholderSettings := None;
                   QueryDataItems := QueryDataItems (session proxy) |} proxy).

Definition GetEncryptorSettingsForQuery (query : string)
  : option (list (option QueryDataItem)) * option error :=
  match encryptor_OnQuery query with
  | Some err => (None, Some err)
  | None => (GetQueryEncryptionSettings query, None)
  end.

Definition onColumnDecryption (i : nat) (data : bytes) (binaryFormat : bool)
  (encryptionSetting : option ColumnEncryptionSetting) : M bytes :=
  do _ <- modify (log (EvColumnDecryption i data binaryFormat encryptionSetting));
  let '(newData, err) := OnColumnDecryption i data binaryFormat encryptionSetting in
  do _ <- check err;
  ret newData.

(** The column loop of [handleQueryDataPacket], from index [i] with [todo]
    iterations to go ([i + todo] is the column count).  The columns are
    held by pointer, so [SetData] changes the cell of the slice. *)
Fixpoint processColumns (todo i : nat) (columns : list ColumnData)
  (bindPacket : option BindPacket)
  (encryptionSettings : option (list (option QueryDataItem))) : M (list ColumnData) :=
  match todo with
  | O => ret columns
  | S todo =>
      match columns !! i with
      | None => panic "index out of range"
      | Some column =>
          if IsNull column
          then processColumns todo (S i) columns bindPacket encryptionSettings
          else
            do format <-
              match bindPacket with
              | Some bindPacket =>
                  call (GetParameterFormatByIndex i (resultFormats bindPacket))
              | None => ret 0
              end;
            do encryptionSetting <-
              match encryptionSettings with
              | Some settings =>
                  if bool_decide (i ≤ length settings)%nat then
                    match settings !! i with
                    | None => panic "index out of range"
                    | Some None => ret None
                    | Some (Some item) => ret (Some (Setting item))
                    end
                  else ret None
              | None => ret None
              end;
            do newData <-
              onColumnDecryption i (ColumnData_GetData column)
                (bool_decide (format = dataFormatBinary)) encryptionSetting;
            processColumns todo (S i) (<[i := SetData column newData]> columns)
              bindPacket encryptionSettings
      end
  end.

(** [ev] is a call of the decryption observer on the data of a column of
    [columns] that is not NULL, at index [i] or later. *)
Definition decrypts (i : nat) (columns : list ColumnData) (ev : Event) : Prop :=
  exists j column binaryFormat encryptionSetting,
    ev = EvColumnDecryption j (ColumnData_GetData column) binaryFormat encryptionSetting /\
    (i <= j)%nat /\ columns !! j = Some column /\ IsNull column = false.

(** The proxy with [events] added to what it has done. *)
Definition logged (events : list Event) (proxy : PgProxy) : PgProxy :=
  {| session := session proxy; clientConnection := clientConnection proxy;
     dbConnection := dbConnection proxy; stopClient := stopClient proxy;
     clientStopAfter := clientStopAfter proxy; protocolState := protocolState proxy;
     sessionInContext := sessionInContext proxy; trace := trace proxy ++ events |}.

Definition handleQueryDataPacket (packet : PacketHandler) : M PacketHandler :=
  let columnFormats := [0] in
  do queue <- gets (fun proxy => pendingQueryPackets (protocolState proxy));
  do pendingPacket <- call (GetPendingPacket queue);
  do '(bindPacket, columnFormats) <-
    match executePacket pendingPacket with
    | Some _ =>
        match bindPacket pendingPacket with
        | Some bindPacket =>
            do columnFormats <- call (GetResultFormats bindPacket);
            ret (Some bindPacket, columnFormats)
        | None => panic "nil pointer dereference"
        end
    | None => ret (None, columnFormats)
    end;
  do columns <- call (parseColumns (descriptionBuf packet) columnFormats);
  let packet := set_parsedColumns columns packet in
  if bool_decide (columnCount packet = 0%nat) then ret packet
  else
    let sqlQuery := GetSQLQuery pendingPacket in
    let '(encryptionSettings, err) := GetEncryptorSettingsForQuery sqlQuery in
    let encryptionSettings :=
      match err with Some _ => None | None => encryptionSettings end in
    do columns <-
      processColumns (columnCount packet) 0 (Columns packet) bindPacket encryptionSettings;
    do inContext <- gets sessionInContext;
    do queryDataItems <-
      (if (inContext : bool) then gets (fun proxy => QueryDataItems (session proxy))
       else ret (Some (replicate (columnCount packet) None)));
    ret (set_descriptionBuf (updateDataFromColumns columns queryDataItems)
           (set_Columns columns packet)).

Definition set_DataTypeOID (oid : Z) (field : FieldDescription) : FieldDescription :=
  {| FieldName := FieldName field; DataTypeOID := oid; FieldFormat := FieldFormat field |}.

(** The loop of [handleRowDescription] from index [i]: the fields with
    their new OIDs, and whether one has been changed. *)
Fixpoint rewriteFields (items : list (option QueryDataItem)) (i : nat)
  (fields : list FieldDescription) : result (list FieldDescription * bool) :=
  match fields with
  | [] => Ok ([], false)
  | field :: rest =>
      match items !! i with
      | None => Panic "index out of range"
      | Some setting =>
          match rewriteFields items (S i) rest with
          | Ok (rest', changed) =>
              match setting with
              | None => Ok (field :: rest', changed)
              | Some setting =>
                  if HasTypeAwareSupport (Setting setting) then
                    let '(newOID, ok) :=
                      mapEncryptedTypeToOID (GetDBDataTypeID (Setting setting)) in
                    if (ok : bool) then Ok (set_DataTypeOID newOID field :: rest', true)
                    else Ok (field :: rest', changed)
                  else Ok (field :: rest', changed)
              end
          | other => other
          end
      end
  end.

Definition handleRowDescription (packet : PacketHandler) : M PacketHandler :=
  do inContext <- gets sessionInContext;
  if negb inContext then ret packet
  else
    do items <- gets (fun proxy => QueryDataItems (session proxy));
    match items with
    | None => ret packet
    | Some items =>
        do rowDescription <- try (call (GetRowDescriptionData packet));
        match rowDescription with
        | inr _ => ret packet
        | inl rowDescription =>
            if bool_decide (len items ≠ len (Fields rowDescription)) then ret packet
            else
              do '(fields, changed) <- call (rewriteFields items 0 (Fields rowDescription));
              if (changed : bool) then
                let newRowDescription :=
                  RowDescription_Encode {| Fields := fields |} [] in
                ret (set_descriptionBuf (drop 5 newRowDescription) packet)
              else ret packet
        end
    end.

(** The loop of [handleParameterDescription]; a map answers a missing key
    with nil. *)
Fixpoint rewriteParameterOIDs (items : gmap nat ColumnEncryptionSetting) (i : nat)
  (oids : list Z) : list Z * bool :=
  match oids with
  | [] => ([], false)
  | oid :: rest =>
      let '(rest', changed) := rewriteParameterOIDs items (S i) rest in
      match items !! i with
      | None => (oid :: rest', changed)
      | Some setting =>
          if HasTypeAwareSupport setting then
            let '(newOID, ok) := mapEncryptedTypeToOID (GetDBDataTypeID setting) in
            if (ok : bool) then (newOID :: rest', true) else (oid :: rest', changed)
          else (oid :: rest', changed)
      end
  end.

Definition handleParameterDescription (packet : PacketHandler) : M PacketHandler :=
  do inContext <- gets sessionInContext;
  if negb inContext then ret packet
  else
    do items <- gets (fun proxy => PlaceholderSettings (session proxy));
    match items with
    | None => ret packet
    | Some items =>
        do parameterDescription <- try (call (GetParameterDescriptionData packet));
        match parameterDescription with
        | inr _ => ret packet
        | inl parameterDescription =>
            let '(oids, changed) :=
              rewriteParameterOIDs items 0 (ParameterOIDs parameterDescription) in
            if (changed : bool) then
              let newParameterDescription :=
                ParameterDescription_Encode {| ParameterOIDs := oids |} [] in
              ret (set_descriptionBuf (drop 5 newParameterDescription) packet)
            else ret packet
        end
    end.

Definition handleDatabasePacket (packet : PacketHandler) : M PacketHandler :=
  do _ <- HandleDatabasePacket packet;
  do last <- gets LastPacketType;
  match last with
  | DataPacket => handleQueryDataPacket packet
  | RowDescriptionPacket => handleRowDescription packet
  | ParameterDescriptionPacket => handleParameterDescription packet
  | ReadyForQueryPacket =>
      do _ <- DeletePlaceholderSettingsFromClientSession;
      ret packet
  | _ => ret packet
  end.


(** What handling a ReadyForQuery leaves: the head of the queue is gone and
    so are the placeholder settings. *)
Definition afterReadyForQuery (proxy : PgProxy) : PgProxy :=
  set_session {| PreparedStatementRegistry := PreparedStatementRegistry (session proxy);
                 PlaceholderSettings := None;
                 QueryDataItems := QueryDataItems (session proxy) |}
    (set_lastPacketType ReadyForQueryPacket
       (set_pendingQueryPackets (tail (pendingQueryPackets (protocolState proxy))) proxy)).

(** ** Stopping the client goroutine and the TLS upgrade *)

Definition SetDeadline (d : Deadline) : M unit :=
  fun proxy =>
    let '(c, err) := Conn_SetDeadline (clientConnection proxy) d in
    check err (log (EvSetDeadline d) (set_clientConnection c proxy)).

(** The [select] waits for [ClientStopResponse] and for a timer of
    [ClientStopTimeout]; the answer is received if the client goroutine
    gives it before the timer fires.  That goroutine clears [stopClient]
    just before it answers. *)
Definition stopProxyClientConnection : M unit :=
  do _ <- modify (fun proxy => log EvStopFlag (set_stopClient true proxy));
  do _ <- SetDeadline DeadlineNow;
  do after <- gets clientStopAfter;
  do _ <-
    match after with
    | Some after =>
        if bool_decide (after < ClientStopTimeout)
        then modify (fun proxy => log (EvClientStopped after) (set_stopClient false proxy))
        else
          do _ <- modify (log (EvTimerFired ClientStopTimeout));
          fail (ErrorString "can't stop background goroutine")
    | None =>
        do _ <- modify (log (EvTimerFired ClientStopTimeout));
        fail (ErrorString "can't stop background goroutine")
    end;
  do _ <- SetDeadline NoDeadline;
  ret tt.

Definition handleSSLRequest (packet : PacketHandler) : M (Conn * Conn) :=
  match TLSConnectionWrapper with
  | None => fail ErrEmptyTLSConfig
  | Some wrapper =>
      do _ <- stopProxyClientConnection;
      do _ <- sendMessageType Client packet;
      do _ <- modify (log EvWrapClient);
      do clientConnection <- gets clientConnection;
      do '(tlsClientConnection, clientID) <-
        call (WrapClientConnection wrapper clientConnection);
      do _ <-
        (if UseConnectionClientID wrapper then modify (log (EvNewClientID clientID))
         else ret tt);
      do _ <- modify (log EvWrapDB);
      do dbConnection <- gets dbConnection;
      do dbTLSConnection <- call (WrapDBConnection wrapper dbConnection);
      ret (tlsClientConnection, dbTLSConnection)
  end.

(** The server side may use the client socket only once the client
    goroutine has confirmed, within the timeout, that it stopped: in
    [events], a write to the client and the two TLS handshakes come after
    such a confirmation ([stopped] tells whether one has been seen). *)
Fixpoint ownsClientSocket (stopped : bool) (events : list Event) : Prop :=
  match events with
  | [] => True
  | EvClientStopped after :: events =>
      after < ClientStopTimeout /\ ownsClientSocket true events
  | (EvClientWrite _ | EvWrapClient | EvWrapDB) :: events =>
      stopped = true /\ ownsClientSocket stopped events
  | _ :: events => ownsClientSocket stopped events
  end.

(** The events of the handshake that follows the stop. *)
Definition handshake (ev : Event) : Prop :=
  match ev with
  | EvClientWrite _ | EvWrapClient | EvWrapDB | EvNewClientID _ => True
  | _ => False
  end.

(** ** ProxyDatabaseConnection *)

(** One iteration of the loop in [state]; the value is the state of the
    next iteration, an error is sent to [errCh] and ends the loop. *)
Definition iteration (state : databaseHandlerState) : M databaseHandlerState :=
  let packetHandler := Reset in
  match state with
  | stateServe =>
      do packetHandler <- ReadPacket packetHandler;
      do handled <- try (handleDatabasePacket packetHandler);
      match handled with
      | inr err =>
          match asEncodingError err with
          | Some decryptionError =>
              do _ <- sendClientError (Error decryptionError);
              ret stateSkipResponse
          | None => fail err
          end
      | inl packetHandler =>
          do _ <- sendPacket Client packetHandler;
          ret stateServe
      end
  | stateFirstPacket =>
      let state := stateServe in
      do packetHandler <- readMessageType packetHandler;
      if IsSSLRequestDeny packetHandler then
        do _ <- stopProxyClientConnection;
        do _ <- modify (log EvSpawnClient);
        do _ <- sendMessageType Client packetHandler;
        ret state
      else if IsSSLRequestAllowed packetHandler then
        do '(tlsClientConnection, dbTLSConnection) <- handleSSLRequest packetHandler;
        do _ <- modify (set_clientConnection tlsClientConnection);
        do _ <- modify (set_dbConnection dbTLSConnection);
        do _ <- modify (log EvSpawnClient);
        ret state
      else
        do packetHandler <- readData packetHandler;
        do _ <- sendPacket Client packetHandler;
        ret state
  | stateSkipResponse =>
      do packetHandler <- ReadPacket packetHandler;
      let last := IsReadyForQuery packetHandler in
      if last then
        let state := stateServe in
        do _ <- handleDatabasePacket packetHandler;
        ret state
      else ret state
  end.

Definition ProxyDatabaseConnection_step (state : databaseHandlerState) (proxy : PgProxy)
  : LoopResult databaseHandlerState * PgProxy :=
  match iteration state proxy with
  | (Ok state, proxy) => (Continue state, proxy)
  | (Err e, proxy) => (Exit (Some e), proxy)
  | (Panic why, proxy) => (Crashed why, proxy)
  end.

(** The server side answers what it read in [stateServe] as §7 has it answer
    a decode error: the client is sent a packed error and ReadyForQuery, and
    the next state is [stateSkipResponse]. *)
Definition answersDecodeError (proxy : PgProxy) : Prop :=
  exists msg proxy',
    ProxyDatabaseConnection_step stateServe proxy = (Continue stateSkipResponse, proxy') /\
    sent (clientConnection proxy') =
      sent (clientConnection proxy) ++ (NewPgError msg).1 ++ ReadyForQuery.

(** [n] iterations of the loop from [state]. *)
Fixpoint ProxyDatabaseConnection (n : nat) (state : databaseHandlerState) (proxy : PgProxy)
  : LoopResult databaseHandlerState * PgProxy :=
  match n with
  | O => (Continue state, proxy)
  | S n =>
      match ProxyDatabaseConnection_step state proxy with
      | (Continue state, proxy) => ProxyDatabaseConnection n state proxy
      | stop => stop
      end
  end.

(** ** Packets the loops pass on *)

(** A client packet that is none of SimpleQuery, Parse, Bind and Execute. *)
Definition uninteresting (packet : PacketHandler) : Prop :=
  IsSimpleQuery packet = false /\ IsParse packet = false /\
  IsBind packet = false /\ IsExecute packet = false.

(** The packet once the query observers have seen its [query]: replaced
    when they say the query changed, whatever error they return with it. *)
Definition observed (packet : PacketHandler) (query : string) : PacketHandler :=
  let '(newQuery, changed, _) := OnQuery query in
  if (changed : bool) then ReplaceQuery packet newQuery else packet.

(** A well-framed packet of the database that the proxy has no handler
    for: not a DataRow, a RowDescription, a ParameterDescription or a
    ReadyForQuery. *)
Definition passing (packet : byte * bytes) : Prop :=
  packet.1 <> DataRowMessageType /\ packet.1 <> RowDescriptionType /\
  packet.1 <> ParameterDescriptionType /\ packet.1 <> ReadyForQueryMessageType /\
  len packet.2 + 4 < 2 ^ 32.

(** The setting the column loop hands to the observer for the column at
    index [i], where the index is within the extracted settings. *)
Definition settingAt (encryptionSettings : option (list (option QueryDataItem))) (i : nat)
  : option ColumnEncryptionSetting :=
  match encryptionSettings with
  | Some settings =>
      match settings !! i with
      | Some (Some item) => Some (Setting item)
      | _ => None
      end
  | None => None
  end.


(** The type OID a description packet announces for a column or a
    parameter with [setting]: the one mapped from the data type of a
    type-aware setting, when there is one, and else the OID [oid] that the
    database sent. *)
Definition typedOID (setting : option ColumnEncryptionSetting) (oid : Z) : Z :=
  match setting with
  | Some setting =>
      if HasTypeAwareSupport setting then
        let '(newOID, ok) := mapEncryptedTypeToOID (GetDBDataTypeID setting) in
        if (ok : bool) then newOID else oid
      else oid
  | None => oid
  end.


End Proxy.

(** ** A small instance of every collaborator

    Used to run the proxy on concrete sessions.  The codec reads C strings
    from a payload and follows the DataRow layout: a two byte column count,
    then for each column its four length bytes and its data. *)

Module Demo.

Fixpoint cstring (b : bytes) : string * bytes :=
  match b with
  | [] => (EmptyString, [])
  | 0 :: rest => (EmptyString, rest)
  | c :: rest =>
      let '(s, after) := cstring rest in
      (String (ascii_of_N (Z.to_N c)) s, after)
  end.

Fixpoint columns (count : nat) (payload : bytes) : result (list ColumnData) :=
  match count with
  | O => Ok []
  | S count =>
      let lengthBuf := take 4 payload in
      if bool_decide (length lengthBuf < 4)%nat
      then Err (EncodingError "can't read column length")
      else
        let size := if bool_decide (lengthBuf = NullColumnValue) then 0%nat
                    else Z.to_nat (Uint32 lengthBuf) in
        if bool_decide (length (drop 4 payload) < size)%nat
        then Err (EncodingError "can't read column data")
        else
          match columns count (drop size (drop 4 payload)) with
          | Ok rest =>
              Ok ({| LengthBuf := lengthBuf; data := take size (drop 4 payload) |} :: rest)
          | other => other
          end
  end.

Definition columnCountOf (payload : bytes) : nat :=
  match payload with
  | hi :: lo :: _ => Z.to_nat (hi * 256 + lo)
  | _ => 0
  end.

Definition parser : SQLParser :=
  {| Statement := string;
     Parse := fun query => Ok query;
     HandleRawSQLQuery := fun query => (query, None);
     ErrQuerySyntaxError := ErrorString "syntax error" |}.

Definition censor : AcraCensorInterface :=
  {| HandleQuery := fun query =>
       if String.eqb query "DROP TABLE users"
       then Some (ErrorString "query is denied")
       else None |}.

Definition queryObserverManager : @QueryObserverManager parser :=
  {| OnQuery := fun query => (query, false, None);
     OnBind := fun _ parameters => (parameters, false, None) |}.

Definition decryptionObserver : ColumnDecryptionObserver :=
  {| OnColumnDecryption := fun _ data _ _ => (data, None) |}.

Definition encryptor : QueryDataEncryptor :=
  {| encryptor_OnQuery := fun _ => None;
     GetQueryEncryptionSettings := fun query =>
       if String.eqb query "SELECT * FROM t" then Some [None] else None |}.

Definition wrapper : TLSWrapper :=
  {| WrapClientConnection := fun conn => Ok (conn, []);
     WrapDBConnection := fun conn => Ok conn;
     UseConnectionClientID := false |}.

Definition setting : ProxySetting :=
  {| TLSConnectionWrapper := Some wrapper;
     LogDebug := false;
     AcraCensorBlockedThisQuery := "AcraCensor blocked this query";
     mapEncryptedTypeToOID := fun oid => (oid, false) |}.

Definition codec : PacketCodec :=
  {| GetSimpleQuery := fun packet => Ok (fst (cstring (descriptionBuf packet)));
     GetParseData := fun packet =>
       let '(name, after) := cstring (descriptionBuf packet) in
       Ok (Some {| Name := name; QueryString := fst (cstring after); params := [] |});
     GetBindData := fun packet =>
       let '(portal, after) := cstring (descriptionBuf packet) in
       Ok (Some {| PortalName := portal; StatementName := fst (cstring after);
                   paramFormats := []; paramValues := []; resultFormats := [] |});
     GetExecuteData := fun packet =>
       Ok {| portal := fst (cstring (descriptionBuf packet)); maxRows := 0 |};
     GetRowDescriptionData := fun packet =>
       match descriptionBuf packet with
       | [0; 0] => Ok {| Fields := [] |}
       | _ => Err (ErrorString "can't parse RowDescription")
       end;
     GetParameterDescriptionData := fun packet =>
       match descriptionBuf packet with
       | [0; 0] => Ok {| ParameterOIDs := [] |}
       | _ => Err (ErrorString "can't parse ParameterDescription")
       end;
     ReplaceQuery := fun packet _ => packet;
     ReplaceBind := fun packet _ => (packet, None);
     SetParsePacket := fun packet _ => (packet, None);
     parseColumns := fun payload _ =>
       if bool_decide (length payload < 2)%nat
       then Err (EncodingError "can't read column count")
       else columns (columnCountOf payload) (drop 2 payload);
     updateDataFromColumns := fun cols _ =>
       [len cols / 256; len cols mod 256]
         ++ concat ((fun column => LengthBuf column ++ data column) <$> cols);
     GetParameters := fun _ => Ok [];
     SetParameters := fun bind _ => bind;
     GetResultFormats := fun bind => Ok (resultFormats bind);
     GetParameterFormatByIndex := fun i formats =>
       match formats with
       | [] => Ok 0
       | [format] => Ok format
       | _ => match formats !! i with
              | Some format => Ok format
              | None => Err (ErrorString "no format for the column")
              end
       end;
     RowDescription_Encode := fun _ dst => dst;
     ParameterDescription_Encode := fun _ dst => dst |}.

Definition conn : Conn :=
  {| incoming := []; sent := []; writes := []; deadline := NoDeadline;
     deadlineError := None |}.

Definition from (stream : bytes) : Conn := set_incoming stream conn.

(** A fresh session: empty registry, nothing pending, a client goroutine
    that answers a stop request after one millisecond. *)
Definition proxy : @PgProxy parser :=
  {| session := {| PreparedStatementRegistry := NewPreparedStatementRegistry;
                   PlaceholderSettings := None; QueryDataItems := None |};
     clientConnection := conn;
     dbConnection := conn;
     stopClient := false;
     clientStopAfter := Some 1000000;
     protocolState := {| lastPacketType := OtherPacket; pendingQueryPackets := [] |};
     sessionInContext := true;
     trace := [] |}.

Definition packet (t : ascii) (payload : bytes) : PacketHandler :=
  {| messageType := [char t]; descriptionBuf := payload; terminatePacket := false;
     columnCount := 0; Columns := [] |}.

End Demo.

(** ** Sessions to run the proxy on *)

Module Scenarios.

#[local] Existing Instances Demo.parser Demo.censor Demo.queryObserverManager
  Demo.decryptionObserver Demo.encryptor Demo.setting Demo.codec.

Definition cstr (s : string) : bytes := bytes_of s ++ [0].

(** The session once the client has sent the simple query [sql]. *)
Definition asked (sql : string) : PgProxy :=
  (ProxyClientConnection_step (inl (Demo.packet "Q" (cstr sql))) Demo.proxy).2.

(** The session with [stream] waiting on the database socket. *)
Definition answered (stream : bytes) (proxy : PgProxy) : PgProxy :=
  consumed stream proxy.

(** A row of two columns, ["a"] and ["b"]. *)
Definition twoColumns : bytes := [0; 2; 0; 0; 0; 1; 97; 0; 0; 0; 1; 98].

(** A row of two columns, ["a"] and NULL. *)
Definition withNull : bytes := [0; 2; 0; 0; 0; 1; 97; 255; 255; 255; 255].

(** A RowDescription that announces one field and ends there. *)
Definition cutDescription : bytes := [0; 1].

(** The session with settings for one result column left by the encryptor. *)
Definition withItems : PgProxy :=
  set_session {| PreparedStatementRegistry := NewPreparedStatementRegistry;
                 PlaceholderSettings := None;
                 QueryDataItems := Some [None] |} Demo.proxy.

(** The session whose client goroutine never answers a stop request. *)
Definition deaf : PgProxy :=
  {| session := session Demo.proxy; clientConnection := clientConnection Demo.proxy;
     dbConnection := dbConnection Demo.proxy; stopClient := false;
     clientStopAfter := None; protocolState := protocolState Demo.proxy;
     sessionInContext := true; trace := [] |}.


(** Parse of statement [s1], Bind of portal [p1] to it, Execute of [p1]. *)
Definition parseS1 : PacketHandler := Demo.packet "P" (cstr "s1" ++ cstr "SELECT 1").
Definition bindP1 : PacketHandler := Demo.packet "B" (cstr "p1" ++ cstr "s1").
Definition executeP1 : PacketHandler := Demo.packet "E" (cstr "p1").

Definition parsed : PgProxy := (handleClientPacket parseS1 Demo.proxy).2.
Definition bound : PgProxy := (handleClientPacket bindP1 parsed).2.

End Scenarios.

(** * The registry of key encryptor fabrics

    A shallow embedding of [keystore/keyloader/key_encryptor.go].  The
    package variable [keyEncryptorFabrics], a map from strategy name to
    fabric, is passed explicitly; flag sets, key encryptors and key store
    suites are values of types left open. *)

Module keyloader.

Section Fabrics.

Context {FlagSet KeyEncryptor KeyStoreSuite : Type}.

(** What [CreateKeyEncryptor] reads of the parsed command line. *)
Record CLIOptions : Type := { KeystoreEncryptorType : string }.

(** [ParseCLIOptionsFromFlags] is defined in another file of the package. *)
Variable ParseCLIOptionsFromFlags : FlagSet -> string -> CLIOptions.

(** [KeyEncryptorFabric], with the methods this file calls. *)
Record KeyEncryptorFabric : Type := {
  RegisterCLIParameters : FlagSet -> string -> string -> FlagSet;
  NewKeyEncryptor : FlagSet -> string -> result KeyEncryptor;
  NewKeyEncryptorSuite : FlagSet -> string -> result KeyStoreSuite;
}.

Definition ErrKeyEncryptorFabricNotFound : error :=
  ErrorString "KeyEncryptorFabric not found by strategy".

(** [var keyEncryptorFabrics = map[string]KeyEncryptorFabric{}] *)
Definition keyEncryptorFabrics : gmap string KeyEncryptorFabric := ∅.

Definition RegisterKeyEncryptorFabric (strategy : string)
  (keyEncryptorFabric : KeyEncryptorFabric) (fabrics : gmap string KeyEncryptorFabric)
  : gmap string KeyEncryptorFabric :=
  <[strategy := keyEncryptorFabric]> fabrics.

Definition CreateKeyEncryptor (fabrics : gmap string KeyEncryptorFabric)
  (flags : FlagSet) (prefix : string) : result KeyEncryptor :=
  let cliOptions := ParseCLIOptionsFromFlags flags prefix in
  match fabrics !! KeystoreEncryptorType cliOptions with
  | None => Err ErrKeyEncryptorFabricNotFound
  | Some keyEncryptorFabric => NewKeyEncryptor keyEncryptorFabric flags prefix
  end.

Definition CreateKeyEncryptorSuite (fabrics : gmap string KeyEncryptorFabric)
  (flags : FlagSet) (prefix : string) : result KeyStoreSuite :=
  let cliOptions := ParseCLIOptionsFromFlags flags prefix in
  match fabrics !! KeystoreEncryptorType cliOptions with
  | None => Err ErrKeyEncryptorFabricNotFound
  | Some keyEncryptorFabric => NewKeyEncryptorSuite keyEncryptorFabric flags prefix
  end.

(** The registry after the calls of [RegisterKeyEncryptorFabric] listed in
    [registrations], in that order, on the initial map. *)
Definition registered (registrations : list (string * KeyEncryptorFabric))
  : gmap string KeyEncryptorFabric :=
  foldl (fun fabrics registration =>
           RegisterKeyEncryptorFabric registration.1 registration.2 fabrics)
        keyEncryptorFabrics registrations.

End Fabrics.

End keyloader.

(** * The destroy subcommand of acra-keys

    A shallow embedding of [cmd/acra-keys/keys/destroy-key.go]: the parsing
    of the command line of [destroy] and the dispatch of [DestroyKey] to the
    key store. *)

Module keys.

(** The key kinds of package [keystore] that the subcommand knows, and what
    the command line parsing of other files returns: [ParseFlagsWithConfig]
    gives its error, the value it leaves in the [--index] flag, given the
    value before, and the positional arguments; [ParseKeyKind] gives the
    coarse kind, the ID and its error. *)
Class CommandLine : Type := {
  KeyPoisonKeypair : string;
  KeyPoisonSymmetric : string;
  KeySymmetric : string;
  KeyStorageKeypair : string;
  KeySearch : string;
  ParseFlagsWithConfig : Z -> list string -> option error * Z * list string;
  ParseKeyKind : string -> string * bytes * option error;
}.

Definition ErrInvalidIndex : error := ErrorString "invalid index value provided".
Definition ErrMissingKeyKind : error := ErrorString "key kind not specified".
Definition ErrMultipleKeyKinds : error := ErrorString "multiple key kinds not supported".
Definition ErrUnknownKeyKind : error := ErrorString "unknown key kind".

(** The methods of [keystore.KeyMaking] that [DestroyKey] calls, one
    constructor for each with its arguments. *)
Inductive KeyMakingCall : Type :=
| DestroyPoisonKeyPair
| DestroyRotatedPoisonKeyPair (index : Z)
| DestroyPoisonSymmetricKey
| DestroyRotatedPoisonSymmetricKey (index : Z)
| DestroyClientIDEncryptionKeyPair (clientID : bytes)
| DestroyRotatedClientIDEncryptionKeyPair (clientID : bytes) (index : Z)
| DestroyClientIDSymmetricKey (clientID : bytes)
| DestroyRotatedClientIDSymmetricKey (clientID : bytes) (index : Z)
| DestroyHmacSecretKey (clientID : bytes)
| DestroyRotatedHmacSecretKey (clientID : bytes) (index : Z).

(** A key store: its state and what a call does to it and returns. *)
Class KeyMaking : Type := {
  KeyStore : Type;
  perform : KeyMakingCall -> KeyStore -> KeyStore * option error;
}.

(** The index of the rotated key a call destroys, if it is one of those,
    and the client ID it is given, if it takes one. *)
Definition rotatedIndex (call : KeyMakingCall) : option Z :=
  match call with
  | DestroyRotatedPoisonKeyPair index | DestroyRotatedPoisonSymmetricKey index
  | DestroyRotatedClientIDEncryptionKeyPair _ index
  | DestroyRotatedClientIDSymmetricKey _ index
  | DestroyRotatedHmacSecretKey _ index => Some index
  | _ => None
  end.

Definition clientOf (call : KeyMakingCall) : option bytes :=
  match call with
  | DestroyClientIDEncryptionKeyPair clientID
  | DestroyRotatedClientIDEncryptionKeyPair clientID _
  | DestroyClientIDSymmetricKey clientID
  | DestroyRotatedClientIDSymmetricKey clientID _
  | DestroyHmacSecretKey clientID
  | DestroyRotatedHmacSecretKey clientID _ => Some clientID
  | _ => None
  end.

(** [DestroyKeySubcommand], with the fields that [Parse] sets. *)
Record DestroyKeySubcommand : Type := {
  index : Z;
  destroyKeyKind : string;
  contextID : bytes;
}.

(** [DestroyKeyParams] *)
Class DestroyKeyParams (P : Type) : Type := {
  DestroyKeyKind : P -> string;
  ClientID : P -> bytes;
  Index : P -> Z;
}.

#[global] Instance DestroyKeySubcommand_params : DestroyKeyParams DestroyKeySubcommand :=
  {| DestroyKeyKind := destroyKeyKind; ClientID := contextID; Index := index |}.

Section DestroyKey.

Context {commandLine : CommandLine} {keyMaking : KeyMaking}.

Definition Parse (p : DestroyKeySubcommand) (arguments : list string)
  : DestroyKeySubcommand * option error :=
  let '(err, index, args) := ParseFlagsWithConfig (index p) arguments in
  let p := {| index := index; destroyKeyKind := destroyKeyKind p;
              contextID := contextID p |} in
  match err with
  | Some err => (p, Some err)
  | None =>
      match args with
      | [] => (p, Some ErrMissingKeyKind)
      | _ :: _ :: _ => (p, Some ErrMultipleKeyKinds)
      | [arg] =>
          if bool_decide (index <= 0) then (p, Some ErrInvalidIndex)
          else
            let '(coarseKind, id, err) := ParseKeyKind arg in
            match err with
            | Some err => (p, Some err)
            | None =>
                if bool_decide (coarseKind = KeyPoisonKeypair \/
                                coarseKind = KeyPoisonSymmetric)
                then ({| index := index; destroyKeyKind := coarseKind;
                         contextID := contextID p |}, None)
                else if bool_decide (coarseKind = KeySymmetric \/
                                     coarseKind = KeyStorageKeypair \/
                                     coarseKind = KeySearch)
                then ({| index := index; destroyKeyKind := coarseKind;
                         contextID := id |}, None)
                else (p, Some ErrUnknownKeyKind)
            end
      end
  end.

(** Each case returns the error of the one call it makes. *)
Definition DestroyKey {P} `{DestroyKeyParams P} (params : P) (keyStore : KeyStore)
  : KeyStore * option error :=
  let kind := DestroyKeyKind params in
  if bool_decide (kind = KeyPoisonKeypair) then
    if bool_decide (Index params > 1)
    then perform (DestroyRotatedPoisonKeyPair (Index params)) keyStore
    else perform DestroyPoisonKeyPair keyStore
  else if bool_decide (kind = KeyPoisonSymmetric) then
    if bool_decide (Index params > 1)
    then perform (DestroyRotatedPoisonSymmetricKey (Index params)) keyStore
    else perform DestroyPoisonSymmetricKey keyStore
  else if bool_decide (kind = KeyStorageKeypair) then
    if bool_decide (Index params > 1)
    then perform (DestroyRotatedClientIDEncryptionKeyPair (ClientID params) (Index params))
           keyStore
    else perform (DestroyClientIDEncryptionKeyPair (ClientID params)) keyStore
  else if bool_decide (kind = KeySymmetric) then
    if bool_decide (Index params > 1)
    then perform (DestroyRotatedClientIDSymmetricKey (ClientID params) (Index params)) keyStore
    else perform (DestroyClientIDSymmetricKey (ClientID params)) keyStore
  else if bool_decide (kind = KeySearch) then
    if bool_decide (Index params > 1)
    then perform (DestroyRotatedHmacSecretKey (ClientID params) (Index params)) keyStore
    else perform (DestroyHmacSecretKey (ClientID params)) keyStore
  else (keyStore, Some ErrUnknownKeyKind).

(** How the command ends: [log.Fatal] when [DestroyKey] returns an error. *)
Inductive Outcome : Type :=
| Completed
| Fatal (err : error).

Definition DestroyKeyCommand {P} `{DestroyKeyParams P} (params : P) (keyStore : KeyStore)
  : KeyStore * Outcome :=
  match DestroyKey params keyStore with
  | (keyStore, Some err) => (keyStore, Fatal err)
  | (keyStore, None) => (keyStore, Completed)
  end.

(** The kinds [DestroyKey] has a case for. *)
Definition knownKinds : list string :=
  [KeyPoisonKeypair; KeyPoisonSymmetric; KeyStorageKeypair; KeySymmetric; KeySearch].

End DestroyKey.

End keys.

(** ** Collaborators that fail, and type-aware settings

    A second instance of the collaborators of the proxy: a parser that
    rejects a text, observers that return errors, a TLS wrapper whose
    handshake with the client fails, a mapping of encrypted types to OIDs,
    and description packets in a reduced layout, one byte for the type
    OID of each field or parameter. *)

Module Adverse.

Definition parser : SQLParser :=
  {| Statement := string;
     Parse := fun query =>
       if String.eqb query "SELEC 1" then Err (ErrorString "syntax error") else Ok query;
     HandleRawSQLQuery := fun query => (query, None);
     ErrQuerySyntaxError := ErrorString "syntax error" |}.

Definition observe {A} (query : string) (unchanged : A) : A * bool * option error :=
  if String.eqb query "SELECT secret"
  then (unchanged, false, Some (KeyReadError "can't read key"))
  else if String.eqb query "SELECT broken"
  then (unchanged, true, Some (ErrorString "can't encrypt"))
  else (unchanged, false, None).

Definition queryObserverManager : @QueryObserverManager parser :=
  @Build_QueryObserverManager parser
    (fun query => observe query query)
    (fun statement parameters => observe statement parameters).

Definition wrapper : TLSWrapper :=
  {| WrapClientConnection := fun _ => Err (ErrorString "tls: bad certificate");
     WrapDBConnection := fun conn => Ok conn;
     UseConnectionClientID := true |}.

(** The encrypted type 1 is read as int4, OID 23. *)
Definition setting : ProxySetting :=
  {| TLSConnectionWrapper := Some wrapper;
     LogDebug := true;
     AcraCensorBlockedThisQuery := "AcraCensor blocked this query";
     mapEncryptedTypeToOID := fun id => if bool_decide (id = 1) then (23, true) else (0, false) |}.

Definition fieldOf (oid : Z) : FieldDescription :=
  {| FieldName := []; DataTypeOID := oid; FieldFormat := 0 |}.

Definition codec : PacketCodec :=
  {| GetSimpleQuery := @GetSimpleQuery Demo.codec;
     GetParseData := @GetParseData Demo.codec;
     GetBindData := @GetBindData Demo.codec;
     GetExecuteData := @GetExecuteData Demo.codec;
     GetRowDescriptionData := fun packet =>
       Ok {| Fields := fieldOf <$> descriptionBuf packet |};
     GetParameterDescriptionData := fun packet =>
       Ok {| ParameterOIDs := descriptionBuf packet |};
     ReplaceQuery := fun packet query =>
       if IsParse packet
       then set_descriptionBuf
              (Scenarios.cstr (Demo.cstring (descriptionBuf packet)).1 ++ Scenarios.cstr query)
              packet
       else set_descriptionBuf (Scenarios.cstr query) packet;
     ReplaceBind := @ReplaceBind Demo.codec;
     SetParsePacket := @SetParsePacket Demo.codec;
     parseColumns := @parseColumns Demo.codec;
     updateDataFromColumns := @updateDataFromColumns Demo.codec;
     GetParameters := @GetParameters Demo.codec;
     SetParameters := @SetParameters Demo.codec;
     GetResultFormats := @GetResultFormats Demo.codec;
     GetParameterFormatByIndex := @GetParameterFormatByIndex Demo.codec;
     RowDescription_Encode := fun rowDescription dst =>
       dst ++ [char "T"] ++ PutUint32 (len (Fields rowDescription) + 4)
           ++ (DataTypeOID <$> Fields rowDescription);
     ParameterDescription_Encode := fun parameterDescription dst =>
       dst ++ [char "t"] ++ PutUint32 (len (ParameterOIDs parameterDescription) + 4)
           ++ ParameterOIDs parameterDescription |}.

(** The setting of an encrypted column that is read as int4. *)
Definition card : ColumnEncryptionSetting :=
  {| ColumnName := "card"; HasTypeAwareSupport := true; GetDBDataTypeID := 1 |}.

(** A session with the settings of two result columns, the first one
    type-aware, and of the first placeholder. *)
Definition proxy : @PgProxy parser :=
  {| session := {| PreparedStatementRegistry := NewPreparedStatementRegistry;
                   PlaceholderSettings := Some {[ 0%nat := card ]};
                   QueryDataItems := Some [Some {| Setting := card |}; None] |};
     clientConnection := Demo.conn;
     dbConnection := Demo.conn;
     stopClient := false;
     clientStopAfter := Some 1000000;
     protocolState := {| lastPacketType := OtherPacket; pendingQueryPackets := [] |};
     sessionInContext := true;
     trace := [] |}.

#[local] Existing Instances parser Demo.censor queryObserverManager
  Demo.decryptionObserver Demo.encryptor setting codec.

(** The session with statement [s2] registered, whose text the observers
    of bound values fail on. *)
Definition broken : PgPreparedStatement :=
  NewPreparedStatement "s2" "SELECT broken" ("SELECT broken"%string : Statement).

Definition prepared : PgProxy :=
  set_registry {| statements := {[ "s2"%string := broken ]}; cursors := ∅ |} proxy.

(** Bind of portal [p2] to statement [s2]. *)
Definition bindP2 : PacketHandler :=
  Demo.packet "B" (Scenarios.cstr "p2" ++ Scenarios.cstr "s2").


End Adverse.

(** ** Fabrics and a key store to run the key commands on *)

Module KeysDemo.

(** The flag set is the value of the flag that selects the strategy; a key
    encryptor and a suite are labels. *)
Definition ParseCLIOptionsFromFlags (flags : string) (prefix : string) : keyloader.CLIOptions :=
  {| keyloader.KeystoreEncryptorType := flags |}.

Definition fabric (label : string) : @keyloader.KeyEncryptorFabric string string string :=
  {| keyloader.RegisterCLIParameters := fun flags _ _ => flags;
     keyloader.NewKeyEncryptor := fun _ _ => Ok label;
     keyloader.NewKeyEncryptorSuite := fun _ _ => Ok (label ++ " suite")%string |}.

(** A command line of [destroy]: an [--index] flag first, if any, then the
    key kinds; a kind may carry a client ID after a colon. *)
Definition commandLine : keys.CommandLine :=
  {| keys.KeyPoisonKeypair := "poison-keypair";
     keys.KeyPoisonSymmetric := "poison-symmetric";
     keys.KeySymmetric := "symmetric";
     keys.KeyStorageKeypair := "storage-keypair";
     keys.KeySearch := "search";
     keys.ParseFlagsWithConfig := fun index arguments =>
       match arguments with
       | "--index=0"%string :: args => (None, 0, args)
       | "--index=2"%string :: args => (None, 2, args)
       | "--help"%string :: args => (Some (ErrorString "flag: help requested"), index, args)
       | _ => (None, index, arguments)
       end;
     keys.ParseKeyKind := fun arg =>
       if String.eqb arg "poison-keypair" then ("poison-keypair"%string, [], None)
       else if String.eqb arg "symmetric:alice"
       then ("symmetric"%string, bytes_of "alice", None)
       else if String.eqb arg "storage-public:alice"
       then ("storage-public"%string, bytes_of "alice", None)
       else (""%string, [], Some (ErrorString "unknown key kind")) |}.

(** A key store that keeps a journal of the calls and fails none. *)
Definition keyMaking : keys.KeyMaking :=
  {| keys.KeyStore := list keys.KeyMakingCall;
     keys.perform := fun call journal => (journal ++ [call], None) |}.

Definition emptyStore : @keys.KeyStore keyMaking := [].

(** The subcommand as [RegisterFlags] leaves it: index 1. *)
Definition subcommand : keys.DestroyKeySubcommand :=
  {| keys.index := 1; keys.destroyKeyKind := ""; keys.contextID := [] |}.

End KeysDemo.

(** ** More sessions to run the proxy on *)

Module Runs.

#[local] Existing Instances Demo.parser Demo.censor Demo.queryObserverManager
  Demo.decryptionObserver Demo.encryptor Demo.setting Demo.codec.

(** Sync and Flush, and the packet that ends a session. *)
Definition syncFlush : list PacketHandler := [Demo.packet "S" []; Demo.packet "H" []].

Definition terminate : PacketHandler :=
  {| messageType := [char "X"]; descriptionBuf := []; terminatePacket := true;
     columnCount := 0; Columns := [] |}.


(** A row of ["a"] and NULL. *)
Definition aAndNull : list ColumnData :=
  [ {| LengthBuf := [0; 0; 0; 1]; data := [97] |};
    {| LengthBuf := NullColumnValue; data := [] |} ].

(** The demo session with a client socket that takes three bytes of the
    next write. *)
Definition stingy : PgProxy :=
  set_clientConnection
    {| incoming := []; sent := []; writes := [WriteCut 3 None];
       deadline := NoDeadline; deadlineError := None |} Demo.proxy.

End Runs.

(** * Proofs *)

(** ** Big-endian words and the packed error *)

Lemma Uint32_PutUint32 v : 0 <= v < 2 ^ 32 -> Uint32 (PutUint32 v) = v.
Proof.
  intros Hv. unfold Uint32, PutUint32. change 255 with (Z.ones 8).
  assert (Hhigh : forall n, 32 <= n -> Z.testbit v n = false).
  { intros n Hn. rewrite <- (Z.mod_small v (2 ^ 32)) by lia.
    apply Z.mod_pow2_bits_high. lia. }
  apply Z.bits_inj'. intros n Hn.
  rewrite !Z.lor_spec, !Z.shiftl_spec, !Z.land_spec, !Z.testbit_ones by lia.
  repeat match goal with
  | |- context [Z.leb ?a ?b] => destruct (Z.leb_spec a b)
  | |- context [Z.ltb ?a ?b] => destruct (Z.ltb_spec a b)
  end; simpl; rewrite ?andb_false_r, ?andb_true_r, ?orb_false_r, ?orb_false_l;
  try lia; rewrite ?Z.shiftr_spec by lia;
  try (f_equal; lia); symmetry; apply Hhigh; lia.
Qed.

Lemma length_PutUint32 v : length (PutUint32 v) = 4%nat.
Proof. reflexivity. Qed.

Lemma length_bytes_of s : length (bytes_of s) = String.length s.
Proof.
  unfold bytes_of. rewrite length_fmap.
  induction s as [|c s IH]; simpl; congruence.
Qed.

Lemma NewPgError_wraps message :
  NewPgError message =
    ([char "E"] ++ PutUint32 (uint32 (Z.of_nat (String.length message) + 21))
       ++ field "S" "ERROR" ++ field "C" "42000" ++ field "M" message ++ [0], None).
Proof.
  unfold NewPgError. f_equal.
  assert (Hhead : take 5 (<[0%nat:=char "E"]>
            (replicate (5 + 7 + 7 + String.length message + 2) 0))
          = [char "E"; 0; 0; 0; 0]) by reflexivity.
  rewrite Hhead. clear Hhead.
  match goal with |- context [uint32 ?n] =>
    replace n with (Z.of_nat (String.length message) + 21)
  end.
  - unfold put_at, field. rewrite length_PutUint32, <- !app_assoc. reflexivity.
  - unfold len. rewrite !length_app, !length_bytes_of. cbn [length String.length]. lia.
Qed.

Lemma length_ErrorResponse message :
  len (ErrorResponse message) = Z.of_nat (String.length message) + 22.
Proof.
  unfold ErrorResponse, field, len.
  rewrite !length_app, length_PutUint32, !length_bytes_of. cbn [length String.length]. lia.
Qed.

Lemma NewPgError_ErrorResponse message :
  Z.of_nat (String.length message) + 21 < 2 ^ 32 ->
  NewPgError message = (ErrorResponse message, None).
Proof.
  intros Hlen. rewrite NewPgError_wraps. unfold ErrorResponse. cbv zeta.
  replace (uint32 (Z.of_nat (String.length message) + 21))
    with (len (field "S" "ERROR" ++ field "C" "42000" ++ field "M" message ++ [0]) + 4);
    [reflexivity|].
  unfold uint32. rewrite Z.mod_small by lia.
  unfold field, len. rewrite !length_app, !length_bytes_of. cbn [length String.length]. lia.
Qed.

(** ** Writes and the client side *)

Section ProxyProofs.

Context `{parser : SQLParser} {censor : AcraCensorInterface}
  `{queryObserverManager : !QueryObserverManager}
  {decryptionObserver : ColumnDecryptionObserver}
  {encryptor : QueryDataEncryptor} {setting : ProxySetting} {codec : PacketCodec}.

Lemma take_len {A} (p : list A) : take (Z.to_nat (len p)) p = p.
Proof. unfold len. rewrite Nat2Z.id. apply firstn_all. Qed.

Lemma Conn_Write_accepts c p :
  accepts 1 c -> Conn_Write c p = (wrote p c, (len p, None)).
Proof.
  unfold accepts, Conn_Write, wrote. destruct (writes c) as [|[|n err] rest]; simpl.
  - reflexivity.
  - reflexivity.
  - intros H. apply Forall_cons in H as [H _]. discriminate.
Qed.

Lemma accepts_wrote n c p : accepts (S n) c -> accepts n (wrote p c).
Proof.
  unfold accepts, wrote. simpl. destruct (writes c); simpl.
  - intros _. destruct n; constructor.
  - intros H. apply Forall_cons in H as [_ H]. exact H.
Qed.

Lemma accepts_le n m c : (n <= m)%nat -> accepts m c -> accepts n c.
Proof.
  unfold accepts. intros Hle H.
  replace n with (n `min` m)%nat by lia.
  rewrite <- take_take. by apply Forall_take.
Qed.

Lemma write_accepts to p proxy :
  accepts 1 (match to with Client => clientConnection proxy
                         | Database => dbConnection proxy end) ->
  write to p proxy = (Ok (len p, None), sentTo to p proxy).
Proof.
  intros H. unfold write, sentTo. destruct to;
    rewrite (Conn_Write_accepts _ _ H), take_len; reflexivity.
Qed.

Lemma CheckReadWrite_same n : CheckReadWrite n n None = None.
Proof. unfold CheckReadWrite. by rewrite decide_True. Qed.

Lemma sendClientError_accepts msg proxy :
  accepts 2 (clientConnection proxy) ->
  sendClientError msg proxy =
    (Ok tt, sentTo Client ReadyForQuery (sentTo Client (NewPgError msg).1 proxy)).
Proof.
  intros H. unfold sendClientError.
  destruct (NewPgError msg) as [errorMessage err] eqn:E.
  assert (err = None) as -> by (unfold NewPgError in E; congruence).
  unfold bind_M at 1. simpl check at 1. unfold ret at 1.
  unfold bind_M at 1.
  rewrite (write_accepts Client) by (eapply accepts_le; [|exact H]; lia).
  unfold bind_M at 1. rewrite CheckReadWrite_same. simpl check at 1. unfold ret at 1.
  unfold bind_M at 1.
  rewrite (write_accepts Client) by (simpl; by apply accepts_wrote).
  unfold bind_M at 1. rewrite CheckReadWrite_same. reflexivity.
Qed.

(** Unfolds the monad, so that a handler run on a given proxy computes. *)
Ltac run :=
  cbv beta iota zeta delta [bind_M ret call gets modify fail check try panic].

Lemma hasType_true t packet : hasType t packet = true -> messageType packet = [t].
Proof. unfold hasType. apply bool_decide_eq_true. Qed.

Lemma hasType_other t t' packet :
  hasType t packet = true -> t <> t' -> hasType t' packet = false.
Proof.
  intros H Hne. apply hasType_true in H. unfold hasType.
  apply bool_decide_eq_false. rewrite H. congruence.
Qed.

(** C1.  The answer to a censored query: for a message that fits the length
    field, on a client socket that takes the two writes, [sendClientError]
    succeeds and the client receives exactly one ErrorResponse followed at
    once by the six bytes [5A 00 00 00 05 49] of ReadyForQuery.  The
    ErrorResponse is the type byte ['E'], the big-endian length, [S] with
    [ERROR], [C] with [42000], [M] with the message, each closed by a zero
    byte, and a last zero byte; its length field decodes to the number of
    bytes of the packet less the type byte.  Nothing goes to the database. *)
Theorem sendClientError_writes_ErrorResponse message proxy :
  Z.of_nat (String.length message) + 21 < 2 ^ 32 ->
  accepts 2 (clientConnection proxy) ->
  exists proxy',
    sendClientError message proxy = (Ok tt, proxy') /\
    sent (clientConnection proxy') =
      sent (clientConnection proxy) ++ ErrorResponse message ++ [0x5A; 0; 0; 0; 5; 0x49] /\
    ErrorResponse message =
      [0x45] ++ PutUint32 (len (ErrorResponse message) - 1)
        ++ bytes_of "SERROR" ++ [0] ++ bytes_of "C42000" ++ [0]
        ++ bytes_of "M" ++ bytes_of message ++ [0] ++ [0] /\
    Uint32 (take 4 (drop 1 (ErrorResponse message))) = len (ErrorResponse message) - 1 /\
    dbConnection proxy' = dbConnection proxy.
Proof.
  intros Hlen Hacc. eexists. split; [by apply sendClientError_accepts|].
  assert (Hbody : len (field "S" "ERROR" ++ field "C" "42000" ++ field "M" message ++ [0])
                  = Z.of_nat (String.length message) + 17).
  { unfold field, len. rewrite !length_app, !length_bytes_of.
    cbn [length String.length]. lia. }
  split; [|split; [|split; [|reflexivity]]].
  - rewrite (NewPgError_ErrorResponse _ Hlen). simpl. by rewrite <- app_assoc.
  - rewrite length_ErrorResponse. unfold ErrorResponse, field. cbv zeta.
    fold (field "S" "ERROR") (field "C" "42000") (field "M" message).
    rewrite Hbody.
    replace (Z.of_nat (String.length message) + 22 - 1)
      with (Z.of_nat (String.length message) + 17 + 4) by lia.
    unfold field. by rewrite <- !app_assoc.
  - rewrite length_ErrorResponse. unfold ErrorResponse. cbv zeta. rewrite Hbody.
    change (drop 1 ([char "E"] ++ ?x)) with x.
    rewrite take_app_length' by reflexivity.
    rewrite Uint32_PutUint32; lia.
Qed.


Lemma handleClientPacket_censored packet query censorErr proxy :
  carriesQuery packet query ->
  HandleQuery query = Some censorErr ->
  exists proxy',
    handleClientPacket packet proxy = (Ok (true, packet), proxy') /\
    clientConnection proxy' = clientConnection proxy /\
    dbConnection proxy' = dbConnection proxy /\
    session proxy' = session proxy.
Proof.
  intros [[Hq Hget]|[Hp (parse & Hget & Hquery)]] Hcensor.
  - pose proof (hasType_other _ ParseMessageType _ Hq ltac:(discriminate)) as Hnp.
    unfold handleClientPacket, HandleClientPacket, handleQueryPacket, pendingQueryPackets_add,
      pendingQueryPackets_Add, LastPacketType.
    change (hasType ParseMessageType packet) with (IsParse packet) in Hnp.
    run. simpl. rewrite Hq, Hget, Hnp. simpl.
    destruct LogDebug; [destruct (HandleRawSQLQuery query) as [hidden err];
      destruct (bool_decide (err = Some ErrQuerySyntaxError))|];
      simpl; rewrite Hcensor; eauto.
  - unfold handleClientPacket, HandleClientPacket, handleQueryPacket, LastPacketType.
    pose proof (hasType_other _ QueryMessageType _ Hp ltac:(discriminate)) as Hnq.
    change (hasType QueryMessageType packet) with (IsSimpleQuery packet) in Hnq.
    run. simpl. rewrite Hp, Hnq, Hget, Hquery. simpl.
    destruct LogDebug; [destruct (HandleRawSQLQuery query) as [hidden err];
      destruct (bool_decide (err = Some ErrQuerySyntaxError))|];
      simpl; rewrite ?Hget; simpl; rewrite Hcensor; eauto.
Qed.



(** C3.  What the code does with a Bind whose statement name is not in the
    registry: [registerCursor] fails on the lookup, so [handleBindPacket]
    returns that error, the iteration sends it to [errCh] and the loop
    ends.  The packet is not written to the database, nothing is written to
    the client, and the session data, registry included, is as before. *)
Theorem bind_of_unknown_statement_ends_session packet bind proxy :
  IsBind packet = true ->
  GetBindData packet = Ok (Some bind) ->
  statements (sessionRegistry proxy) !! StatementName bind = None ->
  exists proxy',
    handleBindPacket packet proxy = (Err ErrStatementNotFound, proxy) /\
    ProxyClientConnection_step (inl packet) proxy =
      (Exit (Some ErrStatementNotFound), proxy') /\
    dbConnection proxy' = dbConnection proxy /\
    clientConnection proxy' = clientConnection proxy /\
    session proxy' = session proxy /\
    forall reads,
      ProxyClientConnection (inl packet :: reads) proxy =
        (Exit (Some ErrStatementNotFound), proxy').
Proof.
  intros Hb Hget Hnone.
  pose proof (hasType_other _ QueryMessageType _ Hb ltac:(discriminate)) as Hnq.
  pose proof (hasType_other _ ParseMessageType _ Hb ltac:(discriminate)) as Hnp.
  change (hasType QueryMessageType packet) with (IsSimpleQuery packet) in Hnq.
  change (hasType ParseMessageType packet) with (IsParse packet) in Hnp.
  assert (Hbind : handleBindPacket packet proxy = (Err ErrStatementNotFound, proxy)).
  { unfold handleBindPacket, registerCursor, StatementByName. run.
    rewrite Hget, Hnone. reflexivity. }
  assert (Hstep : ProxyClientConnection_step (inl packet) proxy =
            (Exit (Some ErrStatementNotFound),
             set_lastPacketType BindStatementPacket proxy)).
  { unfold ProxyClientConnection_step, handleClientPacket, HandleClientPacket,
      LastPacketType.
    unfold handleBindPacket, registerCursor, StatementByName. run. simpl.
    rewrite Hnq, Hnp, Hb, Hget. unfold sessionRegistry in *. simpl.
    rewrite Hnone. reflexivity. }
  eexists. split; [exact Hbind|]. split; [exact Hstep|].
  repeat split. intros reads. cbn [ProxyClientConnection]. by rewrite Hstep.
Qed.


(** [c] leaves the part [f] of the proxy as it was, however it ends. *)
Definition preserves {A B} (f : PgProxy -> B) (c : M A) : Prop :=
  forall proxy r proxy', c proxy = (r, proxy') -> f proxy' = f proxy.

Lemma preserves_ret {A B} (f : PgProxy -> B) (a : A) : preserves f (ret a).
Proof. intros proxy r proxy' H. by inversion H. Qed.

Lemma preserves_call {A B} (f : PgProxy -> B) (a : result A) : preserves f (call a).
Proof. intros proxy r proxy' H. by inversion H. Qed.

Lemma preserves_fail {A B} (f : PgProxy -> B) e : preserves f (@fail _ A e).
Proof. intros proxy r proxy' H. by inversion H. Qed.

Lemma preserves_panic {A B} (f : PgProxy -> B) why : preserves f (@panic _ A why).
Proof. intros proxy r proxy' H. by inversion H. Qed.

Lemma preserves_gets {A B} (f : PgProxy -> B) (g : PgProxy -> A) : preserves f (gets g).
Proof. intros proxy r proxy' H. by inversion H. Qed.

Lemma preserves_check {B} (f : PgProxy -> B) err : preserves f (check err).
Proof. destruct err; [apply preserves_fail | apply preserves_ret]. Qed.

Lemma preserves_modify {B} (f : PgProxy -> B) g :
  (forall proxy, f (g proxy) = f proxy) -> preserves f (modify g).
Proof. intros Hg proxy r proxy' H. inversion H. apply Hg. Qed.

Lemma preserves_bind {A A' B} (f : PgProxy -> B) (c : M A) (k : A -> M A') :
  preserves f c -> (forall a, preserves f (k a)) -> preserves f (bind_M c k).
Proof.
  intros Hc Hk proxy r proxy' H. unfold bind_M in H.
  destruct (c proxy) as [[a|e|why] proxy1] eqn:E.
  - rewrite (Hk _ _ _ _ H). eapply Hc, E.
  - inversion H; subst. eapply Hc, E.
  - inversion H; subst. eapply Hc, E.
Qed.

Lemma preserves_try {A B} (f : PgProxy -> B) (c : M A) :
  preserves f c -> preserves f (try c).
Proof.
  intros Hc proxy r proxy' H. unfold try in H.
  destruct (c proxy) as [[a|e|why] proxy1] eqn:E; inversion H; subst; eapply Hc, E.
Qed.

Ltac preserve :=
  repeat first
    [ apply preserves_ret | apply preserves_call | apply preserves_fail
    | apply preserves_panic | apply preserves_gets | apply preserves_check
    | apply preserves_modify; intros; reflexivity
    | apply preserves_try
    | apply preserves_bind; [|intros ?]
    | match goal with
      | |- preserves _ (match ?x with _ => _ end) => destruct x
      | |- preserves _ (if ?x then _ else _) => destruct x
      end ].

Lemma handleQueryPacket_pure packet : preserves id (handleQueryPacket packet).
Proof. unfold handleQueryPacket. preserve. Qed.

Lemma replaceOIDsInParsePackets_pure packet parse :
  preserves id (replaceOIDsInParsePackets packet parse).
Proof. unfold replaceOIDsInParsePackets. preserve. Qed.


Lemma classify_parse packet proxy :
  IsParse packet = true ->
  HandleClientPacket packet proxy = (Ok tt, set_lastPacketType ParseStatementPacket proxy).
Proof.
  intros Hp.
  pose proof (hasType_other _ QueryMessageType _ Hp ltac:(discriminate)) as Hnq.
  unfold HandleClientPacket, modify, IsSimpleQuery. by rewrite Hnq, Hp.
Qed.

Lemma classify_bind packet proxy :
  IsBind packet = true ->
  HandleClientPacket packet proxy = (Ok tt, set_lastPacketType BindStatementPacket proxy).
Proof.
  intros Hb.
  pose proof (hasType_other _ QueryMessageType _ Hb ltac:(discriminate)) as Hnq.
  pose proof (hasType_other _ ParseMessageType _ Hb ltac:(discriminate)) as Hnp.
  unfold HandleClientPacket, modify, IsSimpleQuery, IsParse. by rewrite Hnq, Hnp, Hb.
Qed.

Lemma classify_execute packet proxy :
  IsExecute packet = true ->
  HandleClientPacket packet proxy = (Ok tt, set_lastPacketType ExecutePacketType proxy).
Proof.
  intros He.
  pose proof (hasType_other _ QueryMessageType _ He ltac:(discriminate)) as Hnq.
  pose proof (hasType_other _ ParseMessageType _ He ltac:(discriminate)) as Hnp.
  pose proof (hasType_other _ BindMessageType _ He ltac:(discriminate)) as Hnb.
  unfold HandleClientPacket, modify, IsSimpleQuery, IsParse, IsBind.
  by rewrite Hnq, Hnp, Hnb, He.
Qed.




(** An Execute is answered from the portal registry alone. *)
Lemma handleClientPacket_execute packet execute proxy :
  IsExecute packet = true ->
  GetExecuteData packet = Ok execute ->
  handleClientPacket packet proxy =
    match cursors (sessionRegistry proxy) !! portal execute with
    | Some cursor =>
        (Ok (false, packet),
         set_pendingQueryPackets
           (pendingQueryPackets (protocolState proxy)
              ++ [newExtendedQueryPacket (PreparedStatement cursor) (bind cursor) execute])
           (set_lastPacketType ExecutePacketType proxy))
    | None => (Err ErrCursorNotFound, set_lastPacketType ExecutePacketType proxy)
    end.
Proof.
  intros He Hget. unfold handleClientPacket.
  unfold bind_M at 1. rewrite (classify_execute _ _ He).
  unfold CursorByName, pendingQueryPackets_add, pendingQueryPackets_Add. run. simpl.
  rewrite Hget. unfold sessionRegistry. simpl.
  by destruct (cursors (PreparedStatementRegistry (session proxy)) !! portal execute).
Qed.



(** ** The database side *)

Lemma readMessageType_cons packet t rest proxy :
  incoming (dbConnection proxy) = t :: rest ->
  readMessageType packet proxy = (Ok (set_messageType [t] packet), consumed rest proxy).
Proof. intros H. unfold readMessageType. by rewrite H. Qed.

Lemma readData_framed packet payload rest proxy :
  len payload + 4 < 2 ^ 32 ->
  incoming (dbConnection proxy) = PutUint32 (len payload + 4) ++ payload ++ rest ->
  readData packet proxy = (Ok (set_descriptionBuf payload packet), consumed rest proxy).
Proof.
  intros Hlen H. unfold readData. rewrite H. unfold len in *.
  rewrite bool_decide_eq_false_2
    by (rewrite length_app, length_PutUint32; lia).
  rewrite take_app_length' by reflexivity.
  rewrite Uint32_PutUint32 by lia.
  rewrite bool_decide_eq_false_2 by lia.
  rewrite drop_app_length' by reflexivity.
  rewrite bool_decide_eq_false_2 by (rewrite length_app; lia).
  replace (Z.to_nat (Z.of_nat (length payload) + 4 - 4)) with (length payload) by lia.
  by rewrite take_app_length, drop_app_length.
Qed.

Lemma ReadPacket_framed t payload rest proxy :
  len payload + 4 < 2 ^ 32 ->
  incoming (dbConnection proxy) = framed t payload ++ rest ->
  ReadPacket Reset proxy = (Ok (arrived t payload), consumed rest proxy).
Proof.
  intros Hlen H. unfold ReadPacket, bind_M.
  rewrite (readMessageType_cons _ t (PutUint32 (len payload + 4) ++ payload ++ rest))
    by (rewrite H; unfold framed; by rewrite <- !app_assoc).
  by rewrite (readData_framed _ payload rest).
Qed.

Lemma Marshal_arrived t payload :
  len payload + 4 < 2 ^ 32 -> Marshal (arrived t payload) = framed t payload.
Proof.
  intros Hlen. unfold Marshal, framed, uint32. simpl.
  rewrite Z.mod_small; [done|unfold len in *; lia].
Qed.


Lemma logged_nil proxy : logged [] proxy = proxy.
Proof. destruct proxy. unfold logged. simpl. by rewrite app_nil_r. Qed.

Lemma logged_app events1 events2 proxy :
  logged events2 (logged events1 proxy) = logged (events1 ++ events2) proxy.
Proof. unfold logged. simpl. by rewrite app_assoc. Qed.

Lemma processColumns_spec bindPacket encryptionSettings todo :
  forall i columns proxy r proxy',
    processColumns todo i columns bindPacket encryptionSettings proxy = (r, proxy') ->
    exists events,
      proxy' = logged events proxy /\
      Forall (decrypts i columns) events /\
      forall columns',
        r = Ok columns' ->
        length columns' = length columns /\
        forall j column,
          columns !! j = Some column ->
          IsNull column = true \/ (j < i)%nat ->
          columns' !! j = Some column.
Proof.
  induction todo as [|todo IH]; intros i columns proxy r proxy' H.
  - inversion H; subst. exists []. rewrite logged_nil.
    split; [done|]. split; [constructor|]. intros ? [= <-]. done.
  - cbn [processColumns] in H.
    destruct (columns !! i) as [column|] eqn:Hcolumn.
    2:{ inversion H; subst. exists []. rewrite logged_nil.
        split; [done|]. split; [constructor|]. discriminate. }
    destruct (IsNull column) eqn:Hnull.
    + destruct (IH _ _ _ _ _ H) as (events & -> & Hevents & Hcolumns).
      exists events. split; [done|]. split.
      * eapply Forall_impl; [exact Hevents|].
        intros ev (j & c & b & s & -> & Hj & Hc & Hn). exists j, c, b, s.
        repeat split; try done; lia.
      * intros columns' Hr. destruct (Hcolumns _ Hr) as [Hlen Hsame].
        split; [done|]. intros j c Hc Hor. apply Hsame; [done|].
        destruct Hor; [by left|right; lia].
    + assert (Hstop : forall (e : result (list ColumnData)) evs,
                r = e -> proxy' = logged evs proxy ->
                Forall (decrypts i columns) evs -> (forall c, e <> Ok c) ->
                exists events, proxy' = logged events proxy /\
                  Forall (decrypts i columns) events /\
                  forall columns', r = Ok columns' ->
                    length columns' = length columns /\
                    forall j column, columns !! j = Some column ->
                      IsNull column = true \/ (j < i)%nat ->
                      columns' !! j = Some column).
      { intros e evs -> -> Hevs Hne. exists evs.
        split; [done|]. split; [done|]. intros c Hc. by destruct (Hne c). }
      revert H. unfold bind_M at 1.
      assert (Hfmt : exists rf,
                match bindPacket with
                | Some bindPacket0 =>
                    call (GetParameterFormatByIndex i (resultFormats bindPacket0))
                | None => ret 0
                end proxy = (rf, proxy))
        by (destruct bindPacket; eexists; reflexivity).
      destruct Hfmt as [rf ->].
      destruct rf as [format|e|why];
        [|intros [= <- <-];
          eapply (Hstop _ []); [reflexivity|by rewrite logged_nil|constructor|done]..].
      unfold bind_M at 1.
      match goal with |- context [let (_, _) := ?c proxy in _] =>
        assert (Hset : exists rs, c proxy = (rs, proxy))
      end.
      { destruct encryptionSettings as [settings|]; [|eexists; reflexivity].
        destruct (bool_decide _); [|eexists; reflexivity].
        destruct (settings !! i) as [[item|]|]; eexists; reflexivity. }
      destruct Hset as [rs ->].
      destruct rs as [encryptionSetting|e|why];
        [|intros [= <- <-];
          eapply (Hstop _ []); [reflexivity|by rewrite logged_nil|constructor|done]..].
      set (ev := EvColumnDecryption i (ColumnData_GetData column)
                   (bool_decide (format = dataFormatBinary)) encryptionSetting).
      assert (Hev : decrypts i columns ev).
      { exists i, column, (bool_decide (format = dataFormatBinary)), encryptionSetting.
        repeat split; try done. }
      unfold bind_M at 1, onColumnDecryption. run. fold ev.
      change (log ev proxy) with (logged [ev] proxy).
      destruct (OnColumnDecryption _ _ _ _) as [newData [e|]].
      { intros [= <- <-].
        eapply (Hstop _ [ev]); [reflexivity|reflexivity|by constructor|done]. }
      intros H. destruct (IH _ _ _ _ _ H) as (events & -> & Hevents & Hcolumns).
      exists ([ev] ++ events). rewrite logged_app. split; [done|]. split.
      * apply Forall_app. split; [by constructor|].
        eapply Forall_impl; [exact Hevents|].
        intros ev' (j & c & b & s & -> & Hj & Hc & Hn). exists j, c, b, s.
        rewrite list_lookup_insert_ne in Hc by lia.
        repeat split; try done; lia.
      * intros columns' Hr. destruct (Hcolumns _ Hr) as [Hlen Hsame].
        rewrite length_insert in Hlen. split; [done|].
        intros j c Hc Hor.
        assert (j <> i) by (intros ->; rewrite Hcolumn in Hc;
                            injection Hc as <-; destruct Hor; [congruence|lia]).
        apply Hsame; [by rewrite list_lookup_insert_ne|].
        destruct Hor; [by left|right; lia].
Qed.


(** C7.  A DataRow that [handleQueryDataPacket] handles: with zero columns
    the payload is returned as it came and the observer is not called; a
    column that is NULL (length bytes [FF FF FF FF], that is -1) is the
    same after the loop as before; and every call of the column
    decryption observer is on the data of a column that is not NULL. *)
Theorem DataRow_leaves_untouchable_columns packet packet' proxy proxy' :
  handleQueryDataPacket packet proxy = (Ok packet', proxy') ->
  exists columnFormats columns events,
    parseColumns (descriptionBuf packet) columnFormats = Ok columns /\
    proxy' = logged events proxy /\
    (columns = [] -> descriptionBuf packet' = descriptionBuf packet /\ events = []) /\
    length (Columns packet') = length columns /\
    (forall i column,
       columns !! i = Some column -> IsNull column = true ->
       Columns packet' !! i = Some column) /\
    Forall (decrypts 0 columns) events.
Proof.
  unfold handleQueryDataPacket. unfold bind_M at 1, gets at 1.
  unfold bind_M at 1, call at 1.
  destruct (GetPendingPacket _) as [pendingPacket|e|why]; [|discriminate..].
  unfold bind_M at 1.
  match goal with |- context [let (_, _) := ?c proxy in _] =>
    assert (Hformats : exists rf, c proxy = (rf, proxy))
  end.
  { destruct (executePacket pendingPacket); [|eexists; reflexivity].
    destruct (bindPacket pendingPacket) as [bp|]; [|eexists; reflexivity].
    unfold bind_M, call. destruct (GetResultFormats bp); eexists; reflexivity. }
  destruct Hformats as [rf ->].
  destruct rf as [[bindPacket columnFormats]|e|why]; [|discriminate..].
  unfold bind_M at 1, call at 1.
  destruct (parseColumns (descriptionBuf packet) columnFormats) as [columns|e|why] eqn:Hparse;
    [|discriminate..].
  destruct (bool_decide _) eqn:Hzero.
  - intros [= <- <-]. exists columnFormats, columns, []. rewrite logged_nil. simpl.
    repeat split; try done.
  - apply bool_decide_eq_false in Hzero. simpl in Hzero.
    destruct (GetEncryptorSettingsForQuery _) as [encryptionSettings err].
    unfold bind_M at 1.
    destruct (processColumns _ _ _ _ _ proxy) as [r proxy1] eqn:Hloop.
    destruct (processColumns_spec _ _ _ _ _ _ _ _ Hloop) as (events & -> & Hevents & Hcolumns).
    destruct r as [columns'|e|why]; [|discriminate..].
    destruct (Hcolumns _ eq_refl) as [Hlen Hsame].
    assert (Hnonempty : columns <> []) by (by intros ->).
    run. simpl. destruct (sessionInContext proxy); intros [= <- <-]; simpl;
      exists columnFormats, columns, events;
      (split; [done|]); (split; [done|]); (split; [done|]); (split; [done|]);
      (split; [|done]); intros i column Hc Hn; apply Hsame; auto.
Qed.


(** C10.  What the code does at the index that equals the number of
    extracted settings: the guard [i <= len(encryptionSettings)] lets it
    through, so on a column that is not NULL there the loop indexes the
    slice out of range and panics, before the observer is called. *)
Lemma processColumns_panics_at_settings_length
  todo columns column bindPacket settings proxy :
  columns !! length settings = Some column ->
  IsNull column = false ->
  (forall bp, bindPacket = Some bp ->
     exists format,
       GetParameterFormatByIndex (length settings) (resultFormats bp) = Ok format) ->
  processColumns (S todo) (length settings) columns bindPacket (Some settings) proxy =
    (Panic "index out of range", proxy).
Proof.
  intros Hcolumn Hnull Hformat. cbn [processColumns]. rewrite Hcolumn, Hnull.
  unfold bind_M at 1.
  assert (Hfmt : exists format,
            match bindPacket with
            | Some bindPacket0 =>
                call (GetParameterFormatByIndex (length settings) (resultFormats bindPacket0))
            | None => ret 0
            end proxy = (Ok format, proxy)).
  { destruct bindPacket as [bp|]; [|by eexists].
    destruct (Hformat bp eq_refl) as [format Hf]. exists format.
    unfold call. by rewrite Hf. }
  destruct Hfmt as [format ->].
  rewrite bool_decide_eq_true_2 by lia.
  rewrite (lookup_ge_None_2 settings (length settings)) by lia.
  reflexivity.
Qed.


Lemma hasType_arrived t t' payload :
  hasType t' (arrived t payload) = bool_decide (t = t').
Proof.
  unfold hasType. simpl. apply bool_decide_ext. split; congruence.
Qed.

Lemma processColumns_preserves {B} (f : PgProxy -> B) todo i columns bindPacket settings :
  (forall events proxy, f (logged events proxy) = f proxy) ->
  preserves f (processColumns todo i columns bindPacket settings).
Proof.
  intros Hf proxy r proxy' H.
  destruct (processColumns_spec _ _ _ _ _ _ _ _ H) as (events & -> & _). apply Hf.
Qed.

Lemma handleDatabasePacket_preserves {B} (f : PgProxy -> B) packet :
  (forall events proxy, f (logged events proxy) = f proxy) ->
  (forall s proxy, f (set_session s proxy) = f proxy) ->
  (forall s proxy, f (set_protocolState s proxy) = f proxy) ->
  preserves f (handleDatabasePacket packet).
Proof.
  intros Hlog Hsession Hstate.
  unfold handleDatabasePacket, HandleDatabasePacket, handleQueryDataPacket,
    handleRowDescription, handleParameterDescription,
    DeletePlaceholderSettingsFromClientSession.
  repeat first
    [ apply processColumns_preserves; exact Hlog
    | apply preserves_modify; intros;
      unfold set_lastPacketType, set_pendingQueryPackets; by rewrite ?Hsession, ?Hstate
    | progress preserve ].
Qed.

Lemma handleDatabasePacket_description t payload proxy :
  (t = RowDescriptionType /\
   exists e, GetRowDescriptionData (arrived t payload) = Err e) \/
  (t = ParameterDescriptionType /\
   exists e, GetParameterDescriptionData (arrived t payload) = Err e) ->
  exists last,
    handleDatabasePacket (arrived t payload) proxy =
      (Ok (arrived t payload), set_lastPacketType last proxy).
Proof.
  intros [[-> [e He]]|[-> [e He]]].
  - exists RowDescriptionPacket.
    unfold handleDatabasePacket, HandleDatabasePacket, handleRowDescription,
      IsDataRow, IsRowDescription.
    rewrite !hasType_arrived. run. simpl.
    destruct (sessionInContext proxy); [|done]. simpl.
    destruct (QueryDataItems (session proxy)); [|done]. by rewrite He.
  - exists ParameterDescriptionPacket.
    unfold handleDatabasePacket, HandleDatabasePacket, handleParameterDescription,
      IsDataRow, IsRowDescription, IsParameterDescription.
    rewrite !hasType_arrived. run. simpl.
    destruct (sessionInContext proxy); [|done]. simpl.
    destruct (PlaceholderSettings (session proxy)); [|done]. by rewrite He.
Qed.

(** C5, as amended.  A RowDescription or ParameterDescription whose payload
    cannot be parsed makes its handler return nil: in [stateServe] the
    packet is forwarded to the client byte for byte (the client socket
    takes the write), no ErrorResponse is made, and the next state is
    [stateServe]. *)
Theorem malformed_description_is_forwarded_unchanged t payload rest proxy :
  incoming (dbConnection proxy) = framed t payload ++ rest ->
  len payload + 4 < 2 ^ 32 ->
  (t = RowDescriptionType /\
   exists e, GetRowDescriptionData (arrived t payload) = Err e) \/
  (t = ParameterDescriptionType /\
   exists e, GetParameterDescriptionData (arrived t payload) = Err e) ->
  accepts 1 (clientConnection proxy) ->
  exists proxy',
    ProxyDatabaseConnection_step stateServe proxy = (Continue stateServe, proxy') /\
    sent (clientConnection proxy') = sent (clientConnection proxy) ++ framed t payload /\
    incoming (dbConnection proxy') = rest.
Proof.
  intros Hstream Hlen Hbad Hacc.
  destruct (handleDatabasePacket_description _ _ (consumed rest proxy) Hbad)
    as [last Hhandle].
  unfold ProxyDatabaseConnection_step, iteration.
  unfold bind_M at 1. rewrite (ReadPacket_framed t payload rest) by done.
  unfold bind_M at 1, try. rewrite Hhandle.
  unfold sendPacket. unfold bind_M at 1, bind_M at 1.
  rewrite (write_accepts Client) by done.
  rewrite CheckReadWrite_same. simpl.
  eexists. split; [reflexivity|]. simpl. by rewrite Marshal_arrived.
Qed.



Lemma handleDatabasePacket_ReadyForQuery status proxy :
  handleDatabasePacket (arrived ReadyForQueryMessageType status) proxy =
    (Ok (arrived ReadyForQueryMessageType status), afterReadyForQuery proxy).
Proof.
  unfold handleDatabasePacket, HandleDatabasePacket,
    DeletePlaceholderSettingsFromClientSession,
    IsDataRow, IsRowDescription, IsParameterDescription, IsReadyForQuery.
  rewrite !hasType_arrived. reflexivity.
Qed.







(** ** The first packet and the TLS upgrade *)

(** [c] adds to the trace only events that satisfy [P], however it ends. *)
Definition emits {A} (P : Event -> Prop) (c : M A) : Prop :=
  forall proxy r proxy', c proxy = (r, proxy') ->
    exists events, trace proxy' = trace proxy ++ events /\ Forall P events.

Lemma emits_preserves {A} P (c : M A) : preserves trace c -> emits P c.
Proof.
  intros Hc proxy r proxy' H. exists []. rewrite app_nil_r.
  split; [by eapply Hc|constructor].
Qed.

Lemma emits_log P (f : PgProxy -> PgProxy) ev :
  P ev -> (forall proxy, trace (f proxy) = trace proxy ++ [ev]) -> emits P (modify f).
Proof.
  intros Hev Hf proxy r proxy' [= <- <-]. exists [ev]. split; [apply Hf|by constructor].
Qed.

Lemma emits_bind {A A'} P (c : M A) (k : A -> M A') :
  emits P c -> (forall a, emits P (k a)) -> emits P (bind_M c k).
Proof.
  intros Hc Hk proxy r proxy' H. unfold bind_M in H.
  destruct (c proxy) as [[a|e|why] proxy1] eqn:E;
    destruct (Hc _ _ _ E) as (events1 & Htrace1 & Hall1).
  - destruct (Hk _ _ _ _ H) as (events2 & Htrace2 & Hall2).
    exists (events1 ++ events2). rewrite Htrace2, Htrace1, app_assoc.
    split; [done|by apply Forall_app].
  - injection H as <- <-. by exists events1.
  - injection H as <- <-. by exists events1.
Qed.

Lemma emits_write_client P p :
  (forall b, P (EvClientWrite b)) -> emits P (write Client p).
Proof.
  intros Hc proxy r proxy' H. unfold write in H.
  destruct (Conn_Write (clientConnection proxy) p) as [c [n err]].
  injection H as <- <-. eexists [_]. split; [reflexivity|].
  constructor; [apply Hc|constructor].
Qed.

Lemma ownsClientSocket_handshake events :
  Forall handshake events -> ownsClientSocket true events.
Proof.
  induction 1 as [|ev events Hev _ IH]; simpl; [done|].
  destruct ev; try done; by split.
Qed.

Lemma SetDeadline_spec d proxy :
  SetDeadline d proxy =
    match deadlineError (clientConnection proxy) with
    | Some e => (Err e, log (EvSetDeadline d) proxy)
    | None =>
        (Ok tt, log (EvSetDeadline d)
                  (set_clientConnection (Conn_SetDeadline (clientConnection proxy) d).1 proxy))
    end.
Proof.
  unfold SetDeadline, Conn_SetDeadline.
  destruct (deadlineError (clientConnection proxy)) eqn:E; simpl; [|done].
  by destruct proxy.
Qed.

(** How [stopProxyClientConnection] ends: with the confirmation of the
    client goroutine, received before the timer fires; with the error of
    [SetDeadline]; or with the timer, and then with an error. *)
Lemma stopProxyClientConnection_spec proxy r proxy' :
  stopProxyClientConnection proxy = (r, proxy') ->
  exists events,
    trace proxy' = trace proxy ++ events /\
    sent (clientConnection proxy') = sent (clientConnection proxy) /\
    writes (clientConnection proxy') = writes (clientConnection proxy) /\
    dbConnection proxy' = dbConnection proxy /\
    ((r = Ok tt /\
      exists after, clientStopAfter proxy = Some after /\ after < ClientStopTimeout /\
        events = [EvStopFlag; EvSetDeadline DeadlineNow; EvClientStopped after;
                  EvSetDeadline NoDeadline]) \/
     (exists e, r = Err e /\ deadlineError (clientConnection proxy) = Some e /\
        events = [EvStopFlag; EvSetDeadline DeadlineNow]) \/
     (r = Err (ErrorString "can't stop background goroutine") /\
      (forall after, clientStopAfter proxy = Some after -> ClientStopTimeout <= after) /\
      events = [EvStopFlag; EvSetDeadline DeadlineNow; EvTimerFired ClientStopTimeout])).
Proof.
  unfold stopProxyClientConnection.
  unfold bind_M at 1, modify at 1. unfold bind_M at 1. rewrite SetDeadline_spec.
  cbn [clientConnection log set_stopClient].
  destruct (deadlineError (clientConnection proxy)) as [e|] eqn:Hdeadline.
  { intros [= <- <-]. eexists. split; [simpl; by rewrite <- app_assoc|].
    repeat split. right. left. by exists e. }
  unfold bind_M at 1, gets at 1. cbn [clientStopAfter log set_clientConnection set_stopClient].
  destruct (clientStopAfter proxy) as [after|] eqn:Hafter;
    [destruct (bool_decide (after < ClientStopTimeout)) eqn:Hlt|].
  - apply bool_decide_eq_true in Hlt.
    unfold bind_M at 1, modify at 1. unfold bind_M. rewrite SetDeadline_spec.
    unfold Conn_SetDeadline. simpl. rewrite Hdeadline. simpl.
    intros [= <- <-]. eexists. split; [simpl; by rewrite <- !app_assoc|].
    repeat split. left. split; [done|]. by exists after.
  - apply bool_decide_eq_false in Hlt.
    run. intros [= <- <-]. eexists. split; [simpl; by rewrite <- !app_assoc|].
    unfold Conn_SetDeadline. rewrite Hdeadline. repeat split.
    right. right. split; [done|]. split; [|done]. intros ? [= <-]. lia.
  - run. intros [= <- <-]. eexists. split; [simpl; by rewrite <- !app_assoc|].
    unfold Conn_SetDeadline. rewrite Hdeadline. repeat split.
    right. right. split; [done|]. split; [|done]. discriminate.
Qed.


Lemma emits_logged P ev : P ev -> emits P (modify (log ev)).
Proof. intros Hev. by apply (emits_log P _ ev). Qed.

Ltac emit :=
  repeat first
    [ apply emits_bind; [|intros ?]
    | progress cbv beta
    | apply emits_write_client; intros; exact I
    | apply emits_logged; exact I
    | apply emits_preserves; solve [preserve]
    | match goal with
      | |- emits _ (match ?x with _ => _ end) => destruct x
      | |- emits _ (if ?x then _ else _) => destruct x
      end ].

(** C9.  The TLS upgrade after an ['S'] first byte.  In whatever way
    [handleSSLRequest] ends, what it has done is in order: the byte is
    written to the client, and the handshakes are started, only after the
    client goroutine has confirmed on [ClientStopResponse] that it stopped.
    The wait for the confirmation is bounded by the timer of two seconds:
    a confirmation is received before that, and the timer fires at that.
    If the confirmation does not come in time, the upgrade returns the
    error, nothing has been written to the client and no handshake has
    been started; and an error of the upgrade ends the loop of
    [ProxyDatabaseConnection]. *)
Theorem TLS_upgrade_waits_for_the_client_to_stop packet proxy r proxy' :
  handleSSLRequest packet proxy = (r, proxy') ->
  exists events,
    trace proxy' = trace proxy ++ events /\
    ownsClientSocket false events /\
    (forall after, EvClientStopped after ∈ events -> after < 2 * 1000000000) /\
    (forall after, EvTimerFired after ∈ events -> after = 2 * 1000000000) /\
    (TLSConnectionWrapper <> None ->
     deadlineError (clientConnection proxy) = None ->
     (forall after, clientStopAfter proxy = Some after -> 2 * 1000000000 <= after) ->
     r = Err (ErrorString "can't stop background goroutine") /\
     events = [EvStopFlag; EvSetDeadline DeadlineNow; EvTimerFired (2 * 1000000000)] /\
     sent (clientConnection proxy') = sent (clientConnection proxy)) /\
    (forall proxy0 rest e,
       incoming (dbConnection proxy0) = char "S" :: rest ->
       proxy = consumed rest proxy0 ->
       packet = set_messageType [char "S"] Reset ->
       r = Err e ->
       ProxyDatabaseConnection_step stateFirstPacket proxy0 = (Exit (Some e), proxy')).
Proof.
  intros H.
  assert (Hfails : forall proxy0 rest e,
            incoming (dbConnection proxy0) = char "S" :: rest ->
            proxy = consumed rest proxy0 ->
            packet = set_messageType [char "S"] Reset ->
            r = Err e ->
            ProxyDatabaseConnection_step stateFirstPacket proxy0 = (Exit (Some e), proxy')).
  { intros proxy0 rest e Hin -> -> ->.
    unfold ProxyDatabaseConnection_step, iteration.
    unfold bind_M at 1. rewrite (readMessageType_cons _ _ _ _ Hin).
    change (IsSSLRequestDeny (set_messageType [char "S"] Reset)) with false.
    change (IsSSLRequestAllowed (set_messageType [char "S"] Reset)) with true.
    cbv iota. unfold bind_M at 1. by rewrite H. }
  revert H. unfold handleSSLRequest.
  destruct TLSConnectionWrapper as [wrapper|] eqn:Hwrapper.
  2:{ intros [= <- <-]. exists []. rewrite app_nil_r.
      repeat split; try done; try (intros ? Hin; by apply elem_of_nil in Hin). }
  unfold bind_M at 1.
  destruct (stopProxyClientConnection proxy) as [r1 proxy1] eqn:Hstop.
  destruct (stopProxyClientConnection_spec _ _ _ Hstop)
    as (events1 & Htrace1 & Hsent1 & Hwrites1 & Hdb1 &
        [[-> (after & Hafter & Hlt & ->)]|[(e & -> & Hdeadline & ->)|(-> & Hnone & ->)]]).
  - intros H.
    match type of H with ?rest proxy1 = _ => assert (Hrest : emits handshake rest) end.
    { unfold sendMessageType. emit. }
    destruct (Hrest _ _ _ H) as (events2 & Htrace2 & Hall2).
    eexists. split; [by rewrite Htrace2, Htrace1, <- app_assoc|].
    split; [simpl; split; [done|by apply ownsClientSocket_handshake]|].
    rewrite Forall_forall in Hall2.
    split; [|split; [|split; [|done]]].
    + intros a Ha. apply elem_of_app in Ha as [Ha|Ha].
      * repeat (apply elem_of_cons in Ha as [Ha|Ha]; try discriminate).
        -- injection Ha as ->. exact Hlt.
        -- by apply elem_of_nil in Ha.
      * destruct (Hall2 _ Ha).
    + intros a Ha. apply elem_of_app in Ha as [Ha|Ha].
      * repeat (apply elem_of_cons in Ha as [Ha|Ha]; try discriminate).
        by apply elem_of_nil in Ha.
      * destruct (Hall2 _ Ha).
    + intros _ _ Hlate. specialize (Hlate _ Hafter).
      unfold ClientStopTimeout, Second in Hlt. lia.
  - intros [= <- <-]. eexists. split; [exact Htrace1|]. split; [simpl; done|].
    split; [|split; [|split; [|done]]].
    + intros a Ha. repeat (apply elem_of_cons in Ha as [Ha|Ha]; try discriminate).
      by apply elem_of_nil in Ha.
    + intros a Ha. repeat (apply elem_of_cons in Ha as [Ha|Ha]; try discriminate).
      by apply elem_of_nil in Ha.
    + intros _ Hd. congruence.
  - intros [= <- <-]. eexists. split; [exact Htrace1|]. split; [simpl; done|].
    split; [|split; [|split; [|done]]].
    + intros a Ha. repeat (apply elem_of_cons in Ha as [Ha|Ha]; try discriminate).
      by apply elem_of_nil in Ha.
    + intros a Ha. repeat (apply elem_of_cons in Ha as [Ha|Ha]; try discriminate).
      * by injection Ha as ->.
      * by apply elem_of_nil in Ha.
    + intros _ _ _. done.
Qed.


(** When [c] returns a value, the value satisfies [Q]. *)
Definition returns {A} (Q : A -> Prop) (c : M A) : Prop :=
  forall proxy a proxy', c proxy = (Ok a, proxy') -> Q a.

Lemma returns_ret {A} (Q : A -> Prop) a : Q a -> returns Q (ret a).
Proof. intros Ha proxy a' proxy' [= <- <-]. exact Ha. Qed.

Lemma returns_bind {A A'} (Q : A' -> Prop) (c : M A) (k : A -> M A') :
  (forall a, returns Q (k a)) -> returns Q (bind_M c k).
Proof.
  intros Hk proxy a' proxy' H. unfold bind_M in H.
  destruct (c proxy) as [[a|e|why] proxy1]; try discriminate. by eapply Hk.
Qed.


Lemma stopProxyClientConnection_confirmed after proxy :
  clientStopAfter proxy = Some after ->
  after < ClientStopTimeout ->
  deadlineError (clientConnection proxy) = None ->
  exists proxy',
    stopProxyClientConnection proxy = (Ok tt, proxy') /\
    trace proxy' = trace proxy ++ [EvStopFlag; EvSetDeadline DeadlineNow;
                                   EvClientStopped after; EvSetDeadline NoDeadline] /\
    sent (clientConnection proxy') = sent (clientConnection proxy) /\
    writes (clientConnection proxy') = writes (clientConnection proxy) /\
    dbConnection proxy' = dbConnection proxy.
Proof.
  intros Hafter Hlt Hdeadline.
  destruct (stopProxyClientConnection proxy) as [r proxy'] eqn:Hstop.
  destruct (stopProxyClientConnection_spec _ _ _ Hstop)
    as (events & Htrace & Hsent & Hwrites & Hdb &
        [[-> (a & Ha & _ & ->)]|[(e & -> & He & ->)|(-> & Hnone & ->)]]).
  - rewrite Hafter in Ha. injection Ha as <-. by exists proxy'.
  - congruence.
  - specialize (Hnone _ Hafter). lia.
Qed.


(** ** More of the client side *)

Lemma sendPacket_accepts to packet proxy :
  accepts 1 (match to with Client => clientConnection proxy
                         | Database => dbConnection proxy end) ->
  sendPacket to packet proxy = (Ok tt, sentTo to (Marshal packet) proxy).
Proof.
  intros H. unfold sendPacket. unfold bind_M.
  rewrite (write_accepts to) by done. by rewrite CheckReadWrite_same.
Qed.

Lemma handleClientPacket_uninteresting packet proxy :
  uninteresting packet ->
  handleClientPacket packet proxy = (Ok (false, packet), set_lastPacketType OtherPacket proxy).
Proof.
  intros (Hq & Hp & Hb & He).
  unfold handleClientPacket, HandleClientPacket, LastPacketType. run. simpl.
  by rewrite Hq, Hp, Hb, He.
Qed.

Lemma step_uninteresting packet proxy :
  uninteresting packet ->
  accepts 1 (dbConnection proxy) ->
  ProxyClientConnection_step (inl packet) proxy =
    (if terminatePacket packet then Exit None else Continue tt,
     sentTo Database (Marshal packet) (set_lastPacketType OtherPacket proxy)).
Proof.
  intros Hu Hacc. unfold ProxyClientConnection_step.
  rewrite handleClientPacket_uninteresting by done.
  rewrite sendPacket_accepts by done.
  by destruct (terminatePacket packet).
Qed.

(** X1.  Client packets that are none of SimpleQuery, Parse, Bind and
    Execute, and not the last of the session, go to the database as they
    are and in the order they came, while the database socket takes the
    writes: after the loop has run over them the database has received the
    packets one after the other, nothing was written to the client, and
    the session data and the pending queries are as before. *)
Theorem uninteresting_packets_are_forwarded_in_order packets :
  forall proxy,
    Forall (fun packet => uninteresting packet /\ terminatePacket packet = false) packets ->
    accepts (length packets) (dbConnection proxy) ->
    exists proxy',
      ProxyClientConnection (inl <$> packets) proxy = (Continue tt, proxy') /\
      sent (dbConnection proxy') = sent (dbConnection proxy) ++ concat (Marshal <$> packets) /\
      clientConnection proxy' = clientConnection proxy /\
      session proxy' = session proxy /\
      pendingQueryPackets (protocolState proxy') = pendingQueryPackets (protocolState proxy).
Proof.
  induction packets as [|packet packets IH]; intros proxy Hall Hacc.
  - exists proxy. simpl. by rewrite app_nil_r.
  - apply Forall_cons in Hall as [[Hu Hterm] Hall].
    cbn [fmap list_fmap ProxyClientConnection].
    assert (Hacc1 : accepts 1 (dbConnection proxy))
      by (eapply accepts_le; [|exact Hacc]; simpl; lia).
    rewrite step_uninteresting by done. rewrite Hterm.
    destruct (IH (sentTo Database (Marshal packet) (set_lastPacketType OtherPacket proxy)) Hall)
      as (proxy' & Hrun & Hsent & Hclient & Hsession & Hqueue).
    { simpl. by apply accepts_wrote. }
    exists proxy'. split; [exact Hrun|]. rewrite Hsent, Hclient, Hsession, Hqueue. simpl.
    by rewrite <- app_assoc.
Qed.

(** X2.  The packet that ends the session is forwarded first: a packet
    marked as the termination packet is written to the database, then the
    loop ends and reports no error; what the client sends after it is not
    read. *)
Theorem terminate_packet_is_forwarded_before_the_loop_ends packet reads proxy :
  uninteresting packet ->
  terminatePacket packet = true ->
  accepts 1 (dbConnection proxy) ->
  exists proxy',
    ProxyClientConnection (inl packet :: reads) proxy = (Exit None, proxy') /\
    sent (dbConnection proxy') = sent (dbConnection proxy) ++ Marshal packet /\
    clientConnection proxy' = clientConnection proxy.
Proof.
  intros Hu Hterm Hacc. cbn [ProxyClientConnection].
  rewrite step_uninteresting, Hterm by done.
  eexists. split; [reflexivity|]. done.
Qed.

(** What [handleClientPacket] does with a simple query: the query is put
    in the queue first, then AcraCensor and the observers decide. *)
Lemma handleClientPacket_SimpleQuery packet query proxy :
  IsSimpleQuery packet = true ->
  GetSimpleQuery packet = Ok query ->
  handleClientPacket packet proxy =
    (match HandleQuery query with
     | Some _ => Ok (true, packet)
     | None =>
         match (OnQuery query).2 with
         | Some e => if IsKeyReadError e then Err e else Ok (false, observed packet query)
         | None => Ok (false, observed packet query)
         end
     end,
     set_pendingQueryPackets
       (pendingQueryPackets (protocolState proxy) ++ [newQueryPacket query])
       (set_lastPacketType SimpleQueryPacket proxy)).
Proof.
  intros Hq Hget.
  pose proof (hasType_other _ ParseMessageType _ Hq ltac:(discriminate)) as Hnp.
  change (hasType ParseMessageType packet) with (IsParse packet) in Hnp.
  unfold handleClientPacket, HandleClientPacket, handleQueryPacket, pendingQueryPackets_add,
    pendingQueryPackets_Add, LastPacketType, observed.
  run. simpl. rewrite Hq, Hget, Hnp. simpl.
  destruct LogDebug; [destruct (HandleRawSQLQuery query) as [hidden err];
    destruct (bool_decide (err = Some ErrQuerySyntaxError))|];
    simpl; destruct (HandleQuery query); try done;
    destruct (OnQuery query) as [[newQuery changed] [e|]]; simpl;
    try destruct (IsKeyReadError e); by destruct changed.
Qed.

(** X3.  A simple query is recorded as pending before AcraCensor is asked:
    when the censor denies it, the database receives nothing, and yet the
    queue of pending queries has grown by the entry of that query; on a
    queue that was empty it is the entry the next rows are attributed to. *)
Theorem censored_SimpleQuery_stays_pending packet query censorErr proxy :
  IsSimpleQuery packet = true ->
  GetSimpleQuery packet = Ok query ->
  HandleQuery query = Some censorErr ->
  accepts 2 (clientConnection proxy) ->
  exists proxy',
    ProxyClientConnection_step (inl packet) proxy = (Continue tt, proxy') /\
    dbConnection proxy' = dbConnection proxy /\
    pendingQueryPackets (protocolState proxy') =
      pendingQueryPackets (protocolState proxy) ++ [newQueryPacket query] /\
    (pendingQueryPackets (protocolState proxy) = [] ->
     GetPendingPacket (pendingQueryPackets (protocolState proxy')) = Ok (newQueryPacket query)).
Proof.
  intros Hq Hget Hcensor Hacc. unfold ProxyClientConnection_step.
  rewrite (handleClientPacket_SimpleQuery _ _ _ Hq Hget), Hcensor.
  rewrite sendClientError_accepts by done.
  eexists. split; [reflexivity|]. simpl. split; [done|]. split; [done|].
  by intros ->.
Qed.

(** X4.  An error of the query observers ends the session only when it is
    a key read error: then the loop ends with it and the query is not
    forwarded.  With any other error the query goes to the database, in
    the text the observers returned if they say they changed it. *)
Theorem query_observer_error_is_fatal_only_for_key_reads packet query e proxy :
  IsSimpleQuery packet = true ->
  GetSimpleQuery packet = Ok query ->
  HandleQuery query = None ->
  (OnQuery query).2 = Some e ->
  (IsKeyReadError e = true ->
   exists proxy',
     ProxyClientConnection_step (inl packet) proxy = (Exit (Some e), proxy') /\
     dbConnection proxy' = dbConnection proxy /\
     clientConnection proxy' = clientConnection proxy) /\
  (IsKeyReadError e = false ->
   accepts 1 (dbConnection proxy) ->
   exists proxy',
     ProxyClientConnection_step (inl packet) proxy =
       (if terminatePacket (observed packet query) then Exit None else Continue tt, proxy') /\
     sent (dbConnection proxy') =
       sent (dbConnection proxy) ++ Marshal (observed packet query) /\
     clientConnection proxy' = clientConnection proxy).
Proof.
  intros Hq Hget Hcensor He. split.
  - intros Hkey. unfold ProxyClientConnection_step.
    rewrite (handleClientPacket_SimpleQuery _ _ _ Hq Hget), Hcensor, He, Hkey.
    eexists. split; [reflexivity|]. done.
  - intros Hkey Hacc. unfold ProxyClientConnection_step.
    rewrite (handleClientPacket_SimpleQuery _ _ _ Hq Hget), Hcensor, He, Hkey.
    rewrite sendPacket_accepts by done.
    eexists. split; [by destruct (terminatePacket _)|]. done.
Qed.

(** What [handleQueryPacket] does with a Parse packet. *)
Lemma handleQueryPacket_Parse packet parsePacket proxy :
  IsParse packet = true ->
  GetParseData packet = Ok (Some parsePacket) ->
  handleQueryPacket packet proxy =
    (match HandleQuery (QueryString parsePacket) with
     | Some _ => Ok (true, packet)
     | None =>
         match (OnQuery (QueryString parsePacket)).2 with
         | Some e =>
             if IsKeyReadError e then Err e
             else Ok (false, observed packet (QueryString parsePacket))
         | None => Ok (false, observed packet (QueryString parsePacket))
         end
     end, proxy).
Proof.
  intros Hp Hget. unfold handleQueryPacket, observed. run. rewrite Hp, Hget.
  destruct LogDebug;
    [destruct (HandleRawSQLQuery (QueryString parsePacket)) as [hidden err];
     destruct (bool_decide (err = Some ErrQuerySyntaxError));
     [|destruct (bool_decide (LastPacketType proxy = ParseStatementPacket))]|];
    rewrite ?Hget; destruct (HandleQuery (QueryString parsePacket)); try done;
    destruct (OnQuery (QueryString parsePacket)) as [[newQuery changed] [e|]]; simpl;
    try destruct (IsKeyReadError e); by destruct changed.
Qed.




(** A Bind of a registered statement, to a portal name that is free or
    empty: the portal is registered, then the parameters are looked at. *)
Lemma handleClientPacket_Bind_registered packet bindPacket statement proxy :
  IsBind packet = true ->
  GetBindData packet = Ok (Some bindPacket) ->
  statements (sessionRegistry proxy) !! StatementName bindPacket = Some statement ->
  PortalName bindPacket = "" \/
    cursors (sessionRegistry proxy) !! PortalName bindPacket = None ->
  exists proxy1,
    cursors (sessionRegistry proxy1) !! PortalName bindPacket =
      Some (NewPortal bindPacket statement) /\
    dbConnection proxy1 = dbConnection proxy /\
    clientConnection proxy1 = clientConnection proxy /\
    handleClientPacket packet proxy =
      match GetParameters bindPacket with
      | Ok parameters =>
          match OnBind (Query statement) parameters with
          | (_, _, Some e) =>
              if IsKeyReadError e then (Err e, proxy1) else (Ok (false, packet), proxy1)
          | (newParameters, true, None) =>
              (Ok (false, (ReplaceBind packet (SetParameters bindPacket newParameters)).1),
               set_registry
                 (rebind bindPacket (SetParameters bindPacket newParameters)
                    (sessionRegistry proxy1)) proxy1)
          | (_, false, None) => (Ok (false, packet), proxy1)
          end
      | Err _ => (Ok (false, packet), proxy1)
      | Panic why => (Panic why, proxy1)
      end.
Proof.
  intros Hb Hget Hstmt Hfree.
  exists (set_registry
            {| statements := statements (sessionRegistry proxy);
               cursors := <[PortalName bindPacket := NewPortal bindPacket statement]>
                            (cursors (sessionRegistry proxy)) |}
            (set_lastPacketType BindStatementPacket proxy)).
  split; [simpl; apply lookup_insert_eq|]. split; [done|]. split; [done|].
  unfold handleClientPacket. unfold bind_M at 1. rewrite (classify_bind _ _ Hb).
  unfold bind_M at 1, gets at 1. cbn [LastPacketType protocolState set_lastPacketType
    set_protocolState lastPacketType].
  unfold handleBindPacket, registerCursor, StatementByName, AddCursor, PgPortal_Name.
  run. rewrite Hget. unfold sessionRegistry in *. simpl. rewrite Hstmt. simpl.
  rewrite bool_decide_eq_false_2.
  2:{ intros [Hne Hsome]. destruct Hfree as [Hempty|Hnone]; [done|].
      rewrite Hnone in Hsome. by destruct Hsome. }
  simpl. rewrite Hstmt.
  destruct (GetParameters bindPacket) as [parameters|e|why]; try done.
  destruct (OnBind (Query statement) parameters) as [[newParameters changed] [e|]].
  - by destruct changed, (IsKeyReadError e).
  - destruct changed; [|done]. simpl.
    by destruct (ReplaceBind packet (SetParameters bindPacket newParameters)).
Qed.

(** X7.  A Bind of a registered statement whose parameters cannot be
    processed goes to the database as it came: when the parameters cannot
    be extracted, or when the observers of bound values return an error
    that is not a key read error, the packet is forwarded unchanged, with
    its portal registered.  A key read error ends the loop and the packet
    is not forwarded. *)
Theorem Bind_is_forwarded_unchanged_when_its_parameters_cannot_be_processed
  packet bindPacket statement proxy :
  IsBind packet = true ->
  GetBindData packet = Ok (Some bindPacket) ->
  statements (sessionRegistry proxy) !! StatementName bindPacket = Some statement ->
  PortalName bindPacket = "" \/
    cursors (sessionRegistry proxy) !! PortalName bindPacket = None ->
  ((exists e, GetParameters bindPacket = Err e) \/
   (exists parameters e,
      GetParameters bindPacket = Ok parameters /\
      (OnBind (Query statement) parameters).2 = Some e /\ IsKeyReadError e = false) ->
   accepts 1 (dbConnection proxy) ->
   exists proxy',
     ProxyClientConnection_step (inl packet) proxy =
       (if terminatePacket packet then Exit None else Continue tt, proxy') /\
     sent (dbConnection proxy') = sent (dbConnection proxy) ++ Marshal packet /\
     cursors (sessionRegistry proxy') !! PortalName bindPacket =
       Some (NewPortal bindPacket statement)) /\
  (forall parameters e,
     GetParameters bindPacket = Ok parameters ->
     (OnBind (Query statement) parameters).2 = Some e ->
     IsKeyReadError e = true ->
     exists proxy',
       ProxyClientConnection_step (inl packet) proxy = (Exit (Some e), proxy') /\
       dbConnection proxy' = dbConnection proxy).
Proof.
  intros Hb Hget Hstmt Hfree.
  destruct (handleClientPacket_Bind_registered _ _ _ _ Hb Hget Hstmt Hfree)
    as (proxy1 & Hcursor & Hdb & Hclient & Hhandle).
  split.
  - intros Hbad Hacc.
    assert (Hok : handleClientPacket packet proxy = (Ok (false, packet), proxy1)).
    { rewrite Hhandle. destruct Hbad as [[e ->]|(parameters & e & -> & He & Hkey)]; [done|].
      destruct (OnBind (Query statement) parameters) as [[newParameters changed] err].
      simpl in He. subst err. rewrite Hkey. by destruct changed. }
    unfold ProxyClientConnection_step. rewrite Hok.
    rewrite sendPacket_accepts by (by rewrite Hdb).
    eexists. split; [by destruct (terminatePacket packet)|]. simpl.
    by rewrite Hdb.
  - intros parameters e Hparams He Hkey.
    unfold ProxyClientConnection_step. rewrite Hhandle, Hparams.
    destruct (OnBind (Query statement) parameters) as [[newParameters changed] err].
    simpl in He. subst err. rewrite Hkey. exists proxy1. by destruct changed.
Qed.

(** ** More of the database side *)

Lemma handleDatabasePacket_passing t payload proxy :
  passing (t, payload) ->
  handleDatabasePacket (arrived t payload) proxy =
    (Ok (arrived t payload), set_lastPacketType OtherPacket proxy).
Proof.
  intros (Hd & Hr & Hp & Hz & _). simpl in *.
  unfold handleDatabasePacket, HandleDatabasePacket,
    IsDataRow, IsRowDescription, IsParameterDescription, IsReadyForQuery.
  rewrite !hasType_arrived. by rewrite !bool_decide_eq_false_2.
Qed.

Lemma serve_iteration_passing t payload rest proxy :
  passing (t, payload) ->
  incoming (dbConnection proxy) = framed t payload ++ rest ->
  accepts 1 (clientConnection proxy) ->
  iteration stateServe proxy =
    (Ok stateServe,
     sentTo Client (framed t payload) (set_lastPacketType OtherPacket (consumed rest proxy))).
Proof.
  intros Hpass Hstream Hacc. pose proof Hpass as (_ & _ & _ & _ & Hlen). simpl in Hlen.
  unfold iteration. unfold bind_M at 1. rewrite (ReadPacket_framed t payload rest) by done.
  unfold bind_M at 1, try. rewrite handleDatabasePacket_passing by done.
  unfold bind_M. rewrite sendPacket_accepts by done.
  by rewrite Marshal_arrived.
Qed.

(** X8.  In [stateServe] the packets of the database that are not DataRow,
    RowDescription, ParameterDescription or ReadyForQuery reach the client
    byte for byte and in their order, while the client socket takes the
    writes: after as many iterations as packets the client has received
    the very bytes the database sent, the stream behind them is unread,
    the state is still [stateServe], and the session data and the pending
    queries are as before. *)
Theorem other_database_packets_pass_through packets :
  forall rest proxy,
    Forall passing packets ->
    incoming (dbConnection proxy) = framedAll packets ++ rest ->
    accepts (length packets) (clientConnection proxy) ->
    exists proxy',
      ProxyDatabaseConnection (length packets) stateServe proxy =
        (Continue stateServe, proxy') /\
      sent (clientConnection proxy') = sent (clientConnection proxy) ++ framedAll packets /\
      incoming (dbConnection proxy') = rest /\
      session proxy' = session proxy /\
      pendingQueryPackets (protocolState proxy') = pendingQueryPackets (protocolState proxy).
Proof.
  induction packets as [|[t payload] packets IH]; intros rest proxy Hall Hstream Hacc.
  - exists proxy. simpl in *. by rewrite app_nil_r.
  - apply Forall_cons in Hall as [Hpass Hall].
    cbn [length ProxyDatabaseConnection]. unfold ProxyDatabaseConnection_step.
    assert (Hstream1 : incoming (dbConnection proxy) =
                         framed t payload ++ framedAll packets ++ rest)
      by (simpl in Hstream; by rewrite Hstream, <- app_assoc).
    assert (Hacc1 : accepts 1 (clientConnection proxy))
      by (eapply accepts_le; [|exact Hacc]; simpl; lia).
    rewrite (serve_iteration_passing t payload (framedAll packets ++ rest)) by done.
    destruct (IH rest (sentTo Client (framed t payload)
                         (set_lastPacketType OtherPacket
                            (consumed (framedAll packets ++ rest) proxy))) Hall)
      as (proxy' & Hrun & Hsent & Hin & Hsession & Hqueue).
    { done. }
    { simpl. by apply accepts_wrote. }
    exists proxy'. split; [exact Hrun|]. rewrite Hsent, Hin, Hsession, Hqueue. simpl.
    by rewrite <- app_assoc.
Qed.

(** X9.  In [stateServe] an error of the handling that is not an
    [EncodingError] ends the loop: the error goes to [errCh], the packet
    is not forwarded, and the client is sent nothing, no packed error
    either. *)
Theorem handler_error_that_is_no_EncodingError_ends_the_loop
  t payload rest e proxy proxy1 :
  incoming (dbConnection proxy) = framed t payload ++ rest ->
  len payload + 4 < 2 ^ 32 ->
  handleDatabasePacket (arrived t payload) (consumed rest proxy) = (Err e, proxy1) ->
  asEncodingError e = None ->
  ProxyDatabaseConnection_step stateServe proxy = (Exit (Some e), proxy1) /\
  clientConnection proxy1 = clientConnection proxy /\
  forall n, ProxyDatabaseConnection (S n) stateServe proxy = (Exit (Some e), proxy1).
Proof.
  intros Hstream Hlen Hhandle Hno.
  pose proof (handleDatabasePacket_preserves clientConnection _
                ltac:(done) ltac:(done) ltac:(done) _ _ _ Hhandle) as Hclient.
  assert (Hstep : ProxyDatabaseConnection_step stateServe proxy = (Exit (Some e), proxy1)).
  { unfold ProxyDatabaseConnection_step, iteration.
    unfold bind_M at 1. rewrite (ReadPacket_framed t payload rest) by done.
    unfold bind_M at 1, try. rewrite Hhandle. by rewrite Hno. }
  split; [exact Hstep|]. split; [exact Hclient|].
  intros n. cbn [ProxyDatabaseConnection]. by rewrite Hstep.
Qed.

Lemma preserves_readMessageType {B} (f : PgProxy -> B) packet :
  (forall stream proxy, f (consumed stream proxy) = f proxy) ->
  preserves f (readMessageType packet).
Proof.
  intros Hf proxy r proxy' H. unfold readMessageType in H.
  destruct (incoming (dbConnection proxy)) as [|t rest]; injection H as <- <-;
    [done|apply Hf].
Qed.

Lemma preserves_readData {B} (f : PgProxy -> B) packet :
  (forall stream proxy, f (consumed stream proxy) = f proxy) ->
  preserves f (readData packet).
Proof.
  intros Hf proxy r proxy' H. unfold readData in H.
  repeat (destruct (bool_decide _) in H; [injection H as <- <-; done|]).
  injection H as <- <-. apply Hf.
Qed.

Lemma preserves_write_client {B} (f : PgProxy -> B) p :
  (forall c events proxy, f (logged events (set_clientConnection c proxy)) = f proxy) ->
  preserves f (write Client p).
Proof.
  intros Hf proxy r proxy' H. unfold write in H.
  destruct (Conn_Write (clientConnection proxy) p) as [c [n err]].
  injection H as <- <-. apply (Hf c [_]).
Qed.

Lemma preserves_sendClientError {B} (f : PgProxy -> B) msg :
  (forall c events proxy, f (logged events (set_clientConnection c proxy)) = f proxy) ->
  preserves f (sendClientError msg).
Proof.
  intros Hf. unfold sendClientError. destruct (NewPgError msg) as [errorMessage err].
  repeat first [ apply preserves_write_client; exact Hf | progress preserve ].
Qed.

(** The handling of a packet of the database changes, of the session, at
    most the placeholder settings. *)
Lemma handleDatabasePacket_keeps {B} (f : PgProxy -> B) packet :
  (forall events proxy, f (logged events proxy) = f proxy) ->
  (forall s proxy,
     PreparedStatementRegistry s = sessionRegistry proxy ->
     f (set_session s proxy) = f proxy) ->
  (forall s proxy, f (set_protocolState s proxy) = f proxy) ->
  preserves f (handleDatabasePacket packet).
Proof.
  intros Hlog Hsession Hstate.
  unfold handleDatabasePacket, HandleDatabasePacket, handleQueryDataPacket,
    handleRowDescription, handleParameterDescription,
    DeletePlaceholderSettingsFromClientSession.
  repeat first
    [ apply processColumns_preserves; exact Hlog
    | apply preserves_modify; intros;
      unfold set_lastPacketType, set_pendingQueryPackets;
      rewrite ?Hstate, ?Hsession by reflexivity; by rewrite ?Hstate
    | progress preserve ].
Qed.

Lemma serving_preserves {B} (f : PgProxy -> B) state :
  state <> stateFirstPacket ->
  (forall events proxy, f (logged events proxy) = f proxy) ->
  (forall s proxy,
     PreparedStatementRegistry s = sessionRegistry proxy ->
     f (set_session s proxy) = f proxy) ->
  (forall s proxy, f (set_protocolState s proxy) = f proxy) ->
  (forall c proxy, f (set_clientConnection c proxy) = f proxy) ->
  (forall stream proxy, f (consumed stream proxy) = f proxy) ->
  preserves f (iteration state).
Proof.
  intros Hstate Hlog Hsession Hprotocol Hclient Hconsumed.
  assert (Hwrite : forall c events proxy,
            f (logged events (set_clientConnection c proxy)) = f proxy)
    by (intros; by rewrite Hlog, Hclient).
  destruct state; [done| |]; unfold iteration, ReadPacket, sendPacket;
    repeat first
      [ apply preserves_readMessageType; exact Hconsumed
      | apply preserves_readData; exact Hconsumed
      | apply preserves_write_client; exact Hwrite
      | apply preserves_sendClientError; exact Hwrite
      | apply handleDatabasePacket_keeps; assumption
      | apply preserves_try
      | apply preserves_ret | apply preserves_fail | apply preserves_check
      | apply preserves_bind; [|intros ?]
      | match goal with
        | |- preserves _ (match ?x with _ => _ end) => destruct x
        | |- preserves _ (if ?x then _ else _) => destruct x
        end ].
Qed.

(** X10.  Past the first packet the loop of [ProxyDatabaseConnection]
    works in one direction only: whatever the database sends and however
    the iteration ends, in [stateServe] and in [stateSkipResponse] nothing
    is written to the database socket, and the registry of prepared
    statements and portals and the stop flag are left as they are. *)
Theorem serving_never_writes_to_the_database state proxy r proxy' :
  state <> stateFirstPacket ->
  iteration state proxy = (r, proxy') ->
  sent (dbConnection proxy') = sent (dbConnection proxy) /\
  writes (dbConnection proxy') = writes (dbConnection proxy) /\
  sessionRegistry proxy' = sessionRegistry proxy /\
  stopClient proxy' = stopClient proxy.
Proof.
  intros Hstate H. repeat split.
  - by apply (serving_preserves (fun proxy => sent (dbConnection proxy)) state Hstate
                ltac:(done) ltac:(done) ltac:(done) ltac:(done) ltac:(done) _ _ _ H).
  - by apply (serving_preserves (fun proxy => writes (dbConnection proxy)) state Hstate
                ltac:(done) ltac:(done) ltac:(done) ltac:(done) ltac:(done) _ _ _ H).
  - apply (serving_preserves sessionRegistry state Hstate
             ltac:(done) ltac:(by intros s p Hs; unfold sessionRegistry; simpl)
             ltac:(done) ltac:(done) ltac:(done) _ _ _ H).
  - by apply (serving_preserves stopClient state Hstate
                ltac:(done) ltac:(done) ltac:(done) ltac:(done) ltac:(done) _ _ _ H).
Qed.

(** [stopProxyClientConnection] when the timer fires first. *)
Lemma stopProxyClientConnection_late proxy :
  deadlineError (clientConnection proxy) = None ->
  (forall after, clientStopAfter proxy = Some after -> ClientStopTimeout <= after) ->
  exists proxy',
    stopProxyClientConnection proxy =
      (Err (ErrorString "can't stop background goroutine"), proxy') /\
    stopClient proxy' = true /\
    deadline (clientConnection proxy') = DeadlineNow /\
    sent (clientConnection proxy') = sent (clientConnection proxy) /\
    dbConnection proxy' = dbConnection proxy /\
    trace proxy' =
      trace proxy ++ [EvStopFlag; EvSetDeadline DeadlineNow; EvTimerFired ClientStopTimeout].
Proof.
  intros Hdeadline Hlate. unfold stopProxyClientConnection.
  unfold bind_M at 1, modify at 1. unfold bind_M at 1. rewrite SetDeadline_spec.
  cbn [clientConnection log set_stopClient]. rewrite Hdeadline.
  unfold bind_M at 1, gets at 1.
  cbn [clientStopAfter log set_clientConnection set_stopClient].
  unfold Conn_SetDeadline. rewrite Hdeadline.
  destruct (clientStopAfter proxy) as [after|] eqn:Hafter.
  - rewrite bool_decide_eq_false_2 by (specialize (Hlate _ eq_refl); lia).
    run. eexists. split; [reflexivity|]. simpl. by rewrite <- !app_assoc.
  - run. eexists. split; [reflexivity|]. simpl. by rewrite <- !app_assoc.
Qed.

(** X11.  How [stopProxyClientConnection] leaves the client connection.
    When the client goroutine confirms in time, the deadline set to stop
    its read is taken back and the stop flag, which that goroutine clears
    before it answers, is down again.  When the timer fires first, the
    function returns its error with the stop flag still up and the
    deadline of the client connection still at "now": the reset of the
    deadline is never reached. *)
Theorem stop_timeout_leaves_the_deadline_in_the_past proxy :
  deadlineError (clientConnection proxy) = None ->
  (forall after,
     clientStopAfter proxy = Some after -> after < ClientStopTimeout ->
     exists proxy',
       stopProxyClientConnection proxy = (Ok tt, proxy') /\
       stopClient proxy' = false /\
       deadline (clientConnection proxy') = NoDeadline) /\
  ((forall after, clientStopAfter proxy = Some after -> ClientStopTimeout <= after) ->
   exists proxy',
     stopProxyClientConnection proxy =
       (Err (ErrorString "can't stop background goroutine"), proxy') /\
     stopClient proxy' = true /\
     deadline (clientConnection proxy') = DeadlineNow /\
     sent (clientConnection proxy') = sent (clientConnection proxy)).
Proof.
  intros Hdeadline. split.
  - intros after Hafter Hlt. unfold stopProxyClientConnection.
    unfold bind_M at 1, modify at 1. unfold bind_M at 1. rewrite SetDeadline_spec.
    cbn [clientConnection log set_stopClient]. rewrite Hdeadline.
    unfold bind_M at 1, gets at 1.
    cbn [clientStopAfter log set_clientConnection set_stopClient]. rewrite Hafter.
    rewrite bool_decide_eq_true_2 by done.
    unfold bind_M at 1, modify at 1. unfold bind_M. rewrite SetDeadline_spec.
    unfold Conn_SetDeadline. simpl. rewrite Hdeadline. simpl.
    eexists. split; [reflexivity|]. done.
  - intros Hlate.
    destruct (stopProxyClientConnection_late proxy Hdeadline Hlate)
      as (proxy' & Hstop & Hflag & Hnow & Hsent & _).
    by exists proxy'.
Qed.

(** X12.  The TLS upgrade wraps the database connection only after the
    handshake with the client went through.  When the client goroutine
    has confirmed its stop and the handshake with the client fails,
    [handleSSLRequest] returns that error: by then the client has been
    sent the answer byte, and the database connection is as it was, with
    no handshake started on it and no client ID announced. *)
Theorem failed_client_handshake_leaves_the_database_connection
  wrapper packet after e proxy :
  TLSConnectionWrapper = Some wrapper ->
  clientStopAfter proxy = Some after ->
  after < ClientStopTimeout ->
  deadlineError (clientConnection proxy) = None ->
  accepts 1 (clientConnection proxy) ->
  (forall conn, WrapClientConnection wrapper conn = Err e) ->
  exists proxy',
    handleSSLRequest packet proxy = (Err e, proxy') /\
    trace proxy' =
      trace proxy ++ [EvStopFlag; EvSetDeadline DeadlineNow; EvClientStopped after;
                      EvSetDeadline NoDeadline; EvClientWrite (messageType packet);
                      EvWrapClient] /\
    sent (clientConnection proxy') = sent (clientConnection proxy) ++ messageType packet /\
    dbConnection proxy' = dbConnection proxy.
Proof.
  intros Hwrapper Hafter Hlt Hdeadline Hacc Hfail.
  unfold handleSSLRequest. rewrite Hwrapper.
  destruct (stopProxyClientConnection_confirmed after proxy)
    as (proxy1 & Hstop & Htrace & Hsent & Hwrites & Hdb); try done.
  unfold bind_M at 1. rewrite Hstop.
  unfold bind_M at 1, sendMessageType. unfold bind_M at 1.
  rewrite (write_accepts Client) by (unfold accepts in *; simpl; by rewrite Hwrites).
  rewrite CheckReadWrite_same. cbn [check ret].
  unfold bind_M at 1, modify at 1. unfold bind_M at 1, gets at 1.
  unfold bind_M at 1, call at 1. rewrite Hfail.
  eexists. split; [reflexivity|]. simpl. rewrite Htrace, Hsent, Hdb.
  by rewrite <- !app_assoc.
Qed.

Lemma handleBindPacket_never_censors packet :
  returns (fun r : bool * PacketHandler => r.1 = false) (handleBindPacket packet).
Proof.
  unfold handleBindPacket.
  repeat first
    [ apply returns_bind; intros ?
    | apply returns_ret; reflexivity
    | progress cbv beta
    | match goal with
      | |- returns _ (fail _) => intros ? ? ? [=]
      | |- returns _ (let (_, _) := ?x in _) => destruct x
      | |- returns _ (match ?x with _ => _ end) => destruct x
      | |- returns _ (if ?x then _ else _) => destruct x
      end ].
Qed.

(** A packet is held back only on the word of AcraCensor. *)
Lemma handleClientPacket_censors_on_denial packet packet' proxy proxy' :
  handleClientPacket packet proxy = (Ok (true, packet'), proxy') ->
  exists query censorErr, carriesQuery packet query /\ HandleQuery query = Some censorErr.
Proof.
  intros H.
  destruct (IsSimpleQuery packet) eqn:Hq; [|destruct (IsParse packet) eqn:Hp;
    [|destruct (IsBind packet) eqn:Hb; [|destruct (IsExecute packet) eqn:He]]].
  - destruct (GetSimpleQuery packet) as [query|e|why] eqn:Hget.
    + rewrite (handleClientPacket_SimpleQuery _ _ proxy Hq Hget) in H.
      exists query. destruct (HandleQuery query) as [censorErr|] eqn:Hcensor.
      * exists censorErr. split; [left; by split|done].
      * destruct ((OnQuery query).2) as [e|]; [destruct (IsKeyReadError e)|]; discriminate.
    + revert H. unfold handleClientPacket, HandleClientPacket, LastPacketType. run. simpl.
      rewrite Hq, Hget. discriminate.
    + revert H. unfold handleClientPacket, HandleClientPacket, LastPacketType. run. simpl.
      rewrite Hq, Hget. discriminate.
  - unfold handleClientPacket in H. unfold bind_M at 1 in H.
    rewrite (classify_parse _ _ Hp) in H.
    unfold bind_M at 1, gets at 1 in H.
    cbn [LastPacketType protocolState set_lastPacketType set_protocolState lastPacketType] in H.
    unfold bind_M at 1 in H.
    destruct (GetParseData packet) as [[parsePacket|]|e|why] eqn:Hget.
    + rewrite (handleQueryPacket_Parse _ _ _ Hp Hget) in H.
      exists (QueryString parsePacket).
      destruct (HandleQuery (QueryString parsePacket)) as [censorErr|] eqn:Hcensor.
      * exists censorErr. split; [right; split; [done|by exists parsePacket]|done].
      * exfalso. revert H.
        destruct ((OnQuery (QueryString parsePacket)).2) as [e|];
          [destruct (IsKeyReadError e); [discriminate|]|];
          unfold bind_M, call, ret, fail;
          repeat match goal with
          | |- context [match ?x with _ => _ end] => destruct x
          end; discriminate.
    + exfalso. revert H. unfold handleQueryPacket. run. rewrite Hp, Hget. discriminate.
    + exfalso. revert H. unfold handleQueryPacket. run. rewrite Hp, Hget. discriminate.
    + exfalso. revert H. unfold handleQueryPacket. run. rewrite Hp, Hget. discriminate.
  - unfold handleClientPacket in H. unfold bind_M at 1 in H.
    rewrite (classify_bind _ _ Hb) in H.
    unfold bind_M at 1, gets at 1 in H.
    cbn [LastPacketType protocolState set_lastPacketType set_protocolState lastPacketType] in H.
    by apply handleBindPacket_never_censors in H.
  - exfalso. revert H. unfold handleClientPacket. unfold bind_M at 1.
    rewrite (classify_execute _ _ He).
    unfold pendingQueryPackets_add, pendingQueryPackets_Add. run. simpl.
    repeat match goal with
    | |- context [match ?x with _ => _ end] => destruct x
    end; discriminate.
  - rewrite handleClientPacket_uninteresting in H by done. discriminate.
Qed.

Lemma preserves_write_database {B} (f : PgProxy -> B) p :
  (forall c events proxy, f (logged events (set_dbConnection c proxy)) = f proxy) ->
  preserves f (write Database p).
Proof.
  intros Hf proxy r proxy' H. unfold write in H.
  destruct (Conn_Write (dbConnection proxy) p) as [c [n err]].
  injection H as <- <-. apply (Hf c [_]).
Qed.

Lemma handleClientPacket_keeps_the_sockets packet :
  preserves (fun proxy => (clientConnection proxy, dbConnection proxy))
    (handleClientPacket packet).
Proof.
  unfold handleClientPacket, HandleClientPacket, handleQueryPacket, handleBindPacket,
    registerCursor, registerPreparedStatement, replaceOIDsInParsePackets,
    pendingQueryPackets_add.
  preserve.
Qed.

(** X13.  The client side writes to the client only to answer a query that
    AcraCensor denied.  When the censor denies no query that the packet
    read carries, the iteration leaves the client connection as it is,
    however it ends: with the packet forwarded, with an error, or with a
    failed read. *)
Theorem only_a_denied_query_is_answered_by_the_proxy read proxy r proxy' :
  (forall packet query,
     read = inl packet -> carriesQuery packet query -> HandleQuery query = None) ->
  ProxyClientConnection_step read proxy = (r, proxy') ->
  clientConnection proxy' = clientConnection proxy.
Proof.
  intros Hallowed. unfold ProxyClientConnection_step.
  destruct read as [packet|err].
  2:{ destruct (stopClient proxy); by intros [= <- <-]. }
  destruct (handleClientPacket packet proxy) as [[[censored packet1]|e|why] proxy1] eqn:Hhandle;
    pose proof (handleClientPacket_keeps_the_sockets _ _ _ _ Hhandle) as [= Hclient Hdb];
    try (intros [= <- <-]; exact Hclient).
  destruct censored.
  { destruct (handleClientPacket_censors_on_denial _ _ _ _ Hhandle)
      as (query & censorErr & Hcarries & Hdenied).
    rewrite (Hallowed _ _ eq_refl Hcarries) in Hdenied. discriminate. }
  destruct (sendPacket Database packet1 proxy1) as [sendResult proxy2] eqn:Hsend.
  assert (Hsame : clientConnection proxy2 = clientConnection proxy1).
  { revert Hsend. unfold sendPacket.
    apply (preserves_bind clientConnection);
      [by apply preserves_write_database|intros [n err]; apply preserves_check]. }
  destruct sendResult as [[]|e|why]; [destruct (terminatePacket packet1)|..];
    intros [= <- <-]; congruence.
Qed.

(** ** More of the column loop *)

(** One turn of the loop on a column that is not NULL: it ends the loop
    with an error or a panic, or it calls the observer with the setting at
    the index of the column and goes on with the data the observer
    returned. *)
Lemma processColumns_turn todo i columns bindPacket encryptionSettings column proxy r proxy' :
  columns !! i = Some column ->
  IsNull column = false ->
  processColumns (S todo) i columns bindPacket encryptionSettings proxy = (r, proxy') ->
  ((forall columns', r <> Ok columns') /\
   (exists events,
      proxy' = logged events proxy /\
      Forall (fun ev => exists d b,
                ev = EvColumnDecryption i d b (settingAt encryptionSettings i) /\
                (bindPacket = None -> b = false)) events) /\
   ((exists why, r = Panic why) ->
    (exists bp j why, bindPacket = Some bp /\
       GetParameterFormatByIndex j (resultFormats bp) = Panic why) \/
    (exists settings, encryptionSettings = Some settings /\ i = length settings))) \/
  (exists binaryFormat newData,
     OnColumnDecryption i (ColumnData_GetData column) binaryFormat
       (settingAt encryptionSettings i) = (newData, None) /\
     (bindPacket = None -> binaryFormat = false) /\
     processColumns todo (S i) (<[i := SetData column newData]> columns)
       bindPacket encryptionSettings
       (logged [EvColumnDecryption i (ColumnData_GetData column) binaryFormat
                  (settingAt encryptionSettings i)] proxy) = (r, proxy')).
Proof.
  intros Hc Hn. cbn [processColumns]. rewrite Hc, Hn.
  unfold bind_M at 1.
  assert (Hfmt : exists rf,
            match bindPacket with
            | Some bindPacket0 =>
                call (GetParameterFormatByIndex i (resultFormats bindPacket0))
            | None => ret 0
            end proxy = (rf, proxy) /\
            (bindPacket = None -> rf = Ok 0) /\
            (forall why, rf = Panic why ->
               exists bp j why, bindPacket = Some bp /\
                 GetParameterFormatByIndex j (resultFormats bp) = Panic why)).
  { destruct bindPacket as [bp|]; eexists; (split; [reflexivity|]); split; try done.
    intros why Hwhy. by exists bp, i, why. }
  destruct Hfmt as (rf & -> & Hnobind & Hfmtpanic).
  destruct rf as [format|e|why].
  2:{ intros [= <- <-]. left. split; [done|]. split.
      - exists []. rewrite logged_nil. split; [done|constructor].
      - intros [why [=]]. }
  2:{ intros [= <- <-]. left. split; [done|]. split.
      - exists []. rewrite logged_nil. split; [done|constructor].
      - intros _. left. by apply (Hfmtpanic why). }
  unfold bind_M at 1.
  assert (Hset : (exists settings,
                    encryptionSettings = Some settings /\ i = length settings /\
                    match encryptionSettings with
                    | Some settings =>
                        if bool_decide (i ≤ length settings)%nat then
                          match settings !! i with
                          | None => panic "index out of range"
                          | Some None => ret None
                          | Some (Some item) => ret (Some (Setting item))
                          end
                        else ret None
                    | None => ret None
                    end proxy = (Panic "index out of range", proxy)) \/
                 match encryptionSettings with
                 | Some settings =>
                     if bool_decide (i ≤ length settings)%nat then
                       match settings !! i with
                       | None => panic "index out of range"
                       | Some None => ret None
                       | Some (Some item) => ret (Some (Setting item))
                       end
                     else ret None
                 | None => ret None
                 end proxy = (Ok (settingAt encryptionSettings i), proxy)).
  { destruct encryptionSettings as [settings|]; [|by right].
    destruct (bool_decide (i ≤ length settings)%nat) eqn:Hle.
    - apply bool_decide_eq_true in Hle. simpl.
      destruct (settings !! i) as [[item|]|] eqn:Hi; [by right..|].
      left. exists settings. apply lookup_ge_None in Hi.
      split; [done|]. split; [lia|done].
    - apply bool_decide_eq_false in Hle. right. simpl.
      by rewrite (lookup_ge_None_2 settings i) by lia. }
  destruct Hset as [(settings & Hs & Hi & ->)| ->].
  { intros [= <- <-]. left. split; [done|]. split.
    - exists []. rewrite logged_nil. split; [done|constructor].
    - intros _. right. by exists settings. }
  unfold bind_M at 1, onColumnDecryption. run.
  change (log ?ev proxy) with (logged [ev] proxy).
  destruct (OnColumnDecryption i (ColumnData_GetData column)
              (bool_decide (format = dataFormatBinary)) (settingAt encryptionSettings i))
    as [newData [e|]] eqn:Hobs.
  - intros [= <- <-]. left. split; [done|]. split; [|intros [why [=]]].
    eexists [_]. split; [reflexivity|]. constructor; [|constructor].
    eexists _, _. split; [reflexivity|]. intros Hb. by specialize (Hnobind Hb) as [= ->].
  - intros H. right. exists (bool_decide (format = dataFormatBinary)), newData.
    split; [exact Hobs|]. split; [|exact H].
    intros Hb. by specialize (Hnobind Hb) as [= ->].
Qed.

(** The loop over the columns from index [i] on, within the row: the calls
    of the observer it makes, what alone can make it panic, and what it
    leaves in the columns that are not NULL. *)
Lemma processColumns_run bindPacket encryptionSettings todo :
  forall i columns proxy r proxy',
    (i + todo <= length columns)%nat ->
    processColumns todo i columns bindPacket encryptionSettings proxy = (r, proxy') ->
    (exists events,
       proxy' = logged events proxy /\
       Forall (fun ev => exists j d b,
                 ev = EvColumnDecryption j d b (settingAt encryptionSettings j) /\
                 (bindPacket = None -> b = false)) events) /\
    ((exists why, r = Panic why) ->
     (exists bp j why, bindPacket = Some bp /\
        GetParameterFormatByIndex j (resultFormats bp) = Panic why) \/
     (exists settings,
        encryptionSettings = Some settings /\ (i <= length settings < i + todo)%nat)) /\
    (forall columns',
       r = Ok columns' ->
       forall j column,
         columns !! j = Some column -> (i <= j < i + todo)%nat -> IsNull column = false ->
         exists binaryFormat newData,
           OnColumnDecryption j (ColumnData_GetData column) binaryFormat
             (settingAt encryptionSettings j) = (newData, None) /\
           (bindPacket = None -> binaryFormat = false) /\
           columns' !! j = Some (SetData column newData)).
Proof.
  induction todo as [|todo IH]; intros i columns proxy r proxy' Hbound H.
  { injection H as <- <-. split; [exists []; by rewrite logged_nil|].
    split; [intros [why [=]]|]. intros ? _ j column _ Hj. lia. }
  destruct (lookup_lt_is_Some_2 columns i ltac:(lia)) as [c Hc].
  destruct (IsNull c) eqn:Hnull.
  - cbn [processColumns] in H. rewrite Hc, Hnull in H.
    destruct (IH (S i) columns proxy r proxy' ltac:(lia) H) as (Hevents & Hpanic & Hdone).
    split; [exact Hevents|]. split.
    + intros Hwhy. destruct (Hpanic Hwhy) as [Hfmt|(settings & Hs & Hi)]; [by left|].
      right. exists settings. split; [done|lia].
    + intros columns' Hr j column Hj Hrange Hn.
      assert (j <> i) by (intros ->; congruence).
      apply (Hdone _ Hr); [done|lia|done].
  - destruct (processColumns_turn _ _ _ _ _ _ _ _ _ Hc Hnull H)
      as [(Hfail & (events & -> & Hevents) & Hpanic)
         |(binaryFormat & newData & Hobs & Hfmt & H')].
    + split.
      * exists events. split; [done|].
        eapply Forall_impl; [exact Hevents|]. intros ev (d & b & -> & Hb). by exists i, d, b.
      * split.
        -- intros Hwhy. destruct (Hpanic Hwhy) as [Hp|(settings & Hs & Hi)]; [by left|].
           right. exists settings. split; [done|lia].
        -- intros columns' Hr. by destruct (Hfail columns').
    + pose proof (processColumns_spec _ _ _ _ _ _ _ _ H') as (_ & _ & _ & Hkeep).
      apply IH in H' as ((events & -> & Hevents) & Hpanic & Hdone);
        [|rewrite length_insert; lia].
      split.
      * eexists (_ :: events). rewrite logged_app. split; [reflexivity|].
        constructor; [|exact Hevents]. by eexists i, _, _.
      * split.
        -- intros Hwhy. destruct (Hpanic Hwhy) as [Hp|(settings & Hs & Hi)]; [by left|].
           right. exists settings. split; [done|lia].
        -- intros columns' Hr j column Hj Hrange Hn.
           destruct (decide (j = i)) as [->|Hne].
           ++ rewrite Hc in Hj. injection Hj as <-.
              exists binaryFormat, newData. split; [done|]. split; [done|].
              destruct (Hkeep _ Hr) as [_ Hsame]. apply Hsame; [|right; lia].
              apply list_lookup_insert_eq. by apply lookup_lt_Some in Hc.
           ++ apply (Hdone _ Hr); [by rewrite list_lookup_insert_ne|lia|done].
Qed.

(** X14.  The one index at which the column loop can go out of range is
    the number of extracted settings.  Within the row, and with format
    lookups that do not panic themselves, a panic of the loop means that
    settings were extracted and that their number is the index of a column
    the loop was to visit; so with settings for every column of the row,
    or with none extracted, the loop does not panic. *)
Theorem processColumns_panics_only_at_the_number_of_settings
  todo i columns bindPacket encryptionSettings proxy why proxy' :
  (i + todo <= length columns)%nat ->
  (forall bp j why,
     bindPacket = Some bp -> GetParameterFormatByIndex j (resultFormats bp) <> Panic why) ->
  processColumns todo i columns bindPacket encryptionSettings proxy = (Panic why, proxy') ->
  exists settings,
    encryptionSettings = Some settings /\ (i <= length settings < i + todo)%nat.
Proof.
  intros Hbound Hformats H.
  destruct (processColumns_run _ _ _ _ _ _ _ _ Hbound H) as (_ & Hpanic & _).
  destruct Hpanic as [(bp & j & why' & Hbp & Hfmt)|Hsettings]; [by exists why| |done].
  by destruct (Hformats _ _ _ Hbp Hfmt).
Qed.

(** X15.  When the column loop gets through a row, every column that is
    not NULL holds what the observer returned for it: the observer was
    called with the index of the column, its data and the setting at that
    index, in text format when there is no Bind packet, it returned no
    error, and the column has been set to the data it returned.  The row
    has as many columns as before. *)
Theorem non_NULL_columns_hold_what_the_observer_returned
  columns bindPacket encryptionSettings proxy columns' proxy' :
  processColumns (length columns) 0 columns bindPacket encryptionSettings proxy =
    (Ok columns', proxy') ->
  length columns' = length columns /\
  forall j column,
    columns !! j = Some column -> IsNull column = false ->
    exists binaryFormat newData,
      OnColumnDecryption j (ColumnData_GetData column) binaryFormat
        (settingAt encryptionSettings j) = (newData, None) /\
      (bindPacket = None -> binaryFormat = false) /\
      columns' !! j = Some (SetData column newData).
Proof.
  intros H. split.
  - destruct (processColumns_spec _ _ _ _ _ _ _ _ H) as (_ & _ & _ & Hkeep).
    by destruct (Hkeep _ eq_refl).
  - intros j column Hj Hn.
    destruct (processColumns_run _ _ (length columns) 0%nat columns _ _ _
                ltac:(simpl; lia) H) as (_ & _ & Hdone).
    apply (Hdone _ eq_refl); [done| |done].
    apply lookup_lt_Some in Hj. lia.
Qed.


(** ** The description packets and the parameter types of a Parse *)

Lemma set_DataTypeOID_same field : set_DataTypeOID (DataTypeOID field) field = field.
Proof. by destruct field. Qed.

(** With a setting slot for every field the loop of [handleRowDescription]
    stays in range, and it is a map over the fields. *)
Lemma rewriteFields_run items fields :
  forall i,
    (i + length fields <= length items)%nat ->
    exists fields' changed,
      rewriteFields items i fields = Ok (fields', changed) /\
      length fields' = length fields /\
      (forall k field,
         fields !! k = Some field ->
         exists item,
           items !! (i + k)%nat = Some item /\
           fields' !! k =
             Some (set_DataTypeOID (typedOID (Setting <$> item) (DataTypeOID field)) field)) /\
      (changed = false -> fields' = fields).
Proof.
  induction fields as [|field fields IH]; intros i Hbound.
  { exists [], false. repeat split; try done. }
  cbn [rewriteFields]. cbn [length] in Hbound.
  destruct (lookup_lt_is_Some_2 items i ltac:(lia)) as [item Hitem]. rewrite Hitem.
  destruct (IH (S i) ltac:(lia)) as (fields' & changed & -> & Hlen & Hmap & Hsame).
  assert (Hrest : forall k f,
            fields !! k = Some f ->
            exists item0,
              items !! (i + S k)%nat = Some item0 /\
              fields' !! k =
                Some (set_DataTypeOID (typedOID (Setting <$> item0) (DataTypeOID f)) f)).
  { intros k f Hk. destruct (Hmap k f Hk) as (item0 & Hi & Hf). exists item0.
    split; [|done]. by replace (i + S k)%nat with (S i + k)%nat by lia. }
  assert (Hall : forall field' changed',
            field' = set_DataTypeOID (typedOID (Setting <$> item) (DataTypeOID field)) field ->
            (changed' = false -> field' = field /\ changed = false) ->
            exists fields'0 changed0,
              Ok (field' :: fields', changed') = Ok (fields'0, changed0) /\
              length fields'0 = length (field :: fields) /\
              (forall k f,
                 (field :: fields) !! k = Some f ->
                 exists item0,
                   items !! (i + k)%nat = Some item0 /\
                   fields'0 !! k =
                     Some (set_DataTypeOID (typedOID (Setting <$> item0) (DataTypeOID f)) f)) /\
              (changed0 = false -> fields'0 = field :: fields)).
  { intros field' changed' -> Hchanged. eexists _, _. split; [reflexivity|].
    split; [simpl; by rewrite Hlen|]. split.
    - intros [|k] f Hk.
      + injection Hk as <-. exists item. by rewrite Nat.add_0_r.
      + by apply Hrest.
    - intros Hc. destruct (Hchanged Hc) as [-> Hc']. by rewrite (Hsame Hc'). }
  destruct item as [item|]; simpl.
  - destruct (HasTypeAwareSupport (Setting item)) eqn:Haware.
    + destruct (mapEncryptedTypeToOID (GetDBDataTypeID (Setting item))) as [newOID ok] eqn:Hmapped.
      destruct ok.
      * apply Hall; [|done]. unfold typedOID. simpl. by rewrite Haware, Hmapped.
      * apply Hall.
        -- unfold typedOID. simpl. rewrite Haware, Hmapped.
           by rewrite set_DataTypeOID_same.
        -- done.
    + apply Hall; [|done]. unfold typedOID. simpl. rewrite Haware.
      by rewrite set_DataTypeOID_same.
  - apply Hall; [|done]. simpl. by rewrite set_DataTypeOID_same.
Qed.

(** X17.  [handleRowDescription] always returns nil, and leaves the proxy
    as it is; the index into the settings is in range because the counts
    are compared first.  The packet it returns is the one it was given,
    unless the context carries the session, the session has settings for
    the result columns, the payload parses and has as many fields as there
    are settings, and then possibly the re-encoding of the fields, each
    with its name and format and with the OID mapped from its type-aware
    setting or else its own.  The parse and the encoder are taken not to
    panic: the encoder writes at least the five bytes of type and length
    that are cut off. *)
Theorem RowDescription_gets_the_types_of_type_aware_settings packet proxy :
  (forall why, GetRowDescriptionData packet <> Panic why) ->
  (forall rowDescription, (5 <= length (RowDescription_Encode rowDescription []))%nat) ->
  exists packet',
    handleRowDescription packet proxy = (Ok packet', proxy) /\
    messageType packet' = messageType packet /\
    (forall items rowDescription,
       QueryDataItems (session proxy) = Some items ->
       GetRowDescriptionData packet = Ok rowDescription ->
       length items <> length (Fields rowDescription) ->
       packet' = packet) /\
    (packet' = packet \/
     exists items rowDescription fields',
       sessionInContext proxy = true /\
       QueryDataItems (session proxy) = Some items /\
       GetRowDescriptionData packet = Ok rowDescription /\
       length fields' = length (Fields rowDescription) /\
       (forall k field,
          Fields rowDescription !! k = Some field ->
          exists item,
            items !! k = Some item /\
            fields' !! k =
              Some (set_DataTypeOID (typedOID (Setting <$> item) (DataTypeOID field)) field)) /\
       descriptionBuf packet' =
         drop 5 (RowDescription_Encode {| Fields := fields' |} [])).
Proof.
  intros Hparse _. unfold handleRowDescription. run.
  destruct (sessionInContext proxy) eqn:Hctx; simpl;
    [|exists packet; repeat split; try done; by left].
  destruct (QueryDataItems (session proxy)) as [items|] eqn:Hitems;
    [|exists packet; repeat split; try done; by left].
  destruct (GetRowDescriptionData packet) as [rowDescription|e|why] eqn:Hget;
    [|exists packet; repeat split; try done; by left|by destruct (Hparse why)].
  destruct (bool_decide (len items ≠ len (Fields rowDescription))) eqn:Hcount.
  { exists packet. repeat split; try done. by left. }
  apply bool_decide_eq_false in Hcount.
  assert (Hsame : length items = length (Fields rowDescription)).
  { unfold len in Hcount. destruct (decide (length items = length (Fields rowDescription)));
      [done|]. exfalso. apply Hcount. lia. }
  destruct (rewriteFields_run items (Fields rowDescription) 0 ltac:(simpl; lia))
    as (fields' & changed & -> & Hlen & Hmap & Hunchanged).
  destruct changed.
  - eexists. split; [reflexivity|]. split; [done|]. split.
    + intros items0 rd [= <-] [= <-] Hne. done.
    + right. exists items, rowDescription, fields'. repeat split; try done.
  - exists packet. split; [done|]. split; [done|]. split; [done|]. by left.
Qed.

(** The loop of [handleParameterDescription] is a map over the OIDs. *)
Lemma rewriteParameterOIDs_run items oids :
  forall i,
    length (rewriteParameterOIDs items i oids).1 = length oids /\
    (forall k oid,
       oids !! k = Some oid ->
       (rewriteParameterOIDs items i oids).1 !! k =
         Some (typedOID (items !! (i + k)%nat) oid)) /\
    ((rewriteParameterOIDs items i oids).2 = false ->
     (rewriteParameterOIDs items i oids).1 = oids).
Proof.
  induction oids as [|oid oids IH]; intros i; [done|].
  cbn [rewriteParameterOIDs].
  destruct (IH (S i)) as (Hlen & Hmap & Hsame).
  destruct (rewriteParameterOIDs items (S i) oids) as [rest' changed]. simpl in *.
  assert (Hrest : forall k o,
            oids !! k = Some o ->
            rest' !! k = Some (typedOID (items !! (i + S k)%nat) o)).
  { intros k o Hk. rewrite (Hmap k o Hk). by replace (i + S k)%nat with (S i + k)%nat by lia. }
  assert (Hall : forall oid' changed',
            oid' = typedOID (items !! i) oid ->
            (changed' = false -> oid' = oid /\ changed = false) ->
            length (oid' :: rest') = S (length oids) /\
            (forall k o,
               (oid :: oids) !! k = Some o ->
               (oid' :: rest') !! k = Some (typedOID (items !! (i + k)%nat) o)) /\
            (changed' = false -> oid' :: rest' = oid :: oids)).
  { intros oid' changed' -> Hchanged. split; [simpl; by rewrite Hlen|]. split.
    - intros [|k] o Hk.
      + injection Hk as <-. by rewrite Nat.add_0_r.
      + by apply Hrest.
    - intros Hc. destruct (Hchanged Hc) as [-> Hc']. by rewrite (Hsame Hc'). }
  unfold typedOID in Hall.
  destruct (items !! i) as [setting0|]; [|by apply Hall].
  destruct (HasTypeAwareSupport setting0); [|by apply Hall].
  destruct (mapEncryptedTypeToOID (GetDBDataTypeID setting0)) as [newOID ok].
  destruct ok; by apply Hall.
Qed.

(** X18.  [handleParameterDescription] always returns nil and leaves the
    proxy as it is.  The settings of the placeholders are a map, so an
    index without a setting is no error: the packet it returns is the one
    it was given, or the re-encoding of as many OIDs as the database sent,
    each the OID mapped from the type-aware setting at its index or else
    its own.  The parse and the encoder are taken not to panic. *)
Theorem ParameterDescription_gets_the_types_of_type_aware_settings packet proxy :
  (forall why, GetParameterDescriptionData packet <> Panic why) ->
  (forall parameterDescription,
     (5 <= length (ParameterDescription_Encode parameterDescription []))%nat) ->
  exists packet',
    handleParameterDescription packet proxy = (Ok packet', proxy) /\
    messageType packet' = messageType packet /\
    (packet' = packet \/
     exists items parameterDescription oids,
       sessionInContext proxy = true /\
       PlaceholderSettings (session proxy) = Some items /\
       GetParameterDescriptionData packet = Ok parameterDescription /\
       length oids = length (ParameterOIDs parameterDescription) /\
       (forall k oid,
          ParameterOIDs parameterDescription !! k = Some oid ->
          oids !! k = Some (typedOID (items !! k) oid)) /\
       descriptionBuf packet' =
         drop 5 (ParameterDescription_Encode {| ParameterOIDs := oids |} [])).
Proof.
  intros Hparse _. unfold handleParameterDescription. run.
  destruct (sessionInContext proxy) eqn:Hctx; simpl;
    [|exists packet; repeat split; try done; by left].
  destruct (PlaceholderSettings (session proxy)) as [items|] eqn:Hitems;
    [|exists packet; repeat split; try done; by left].
  destruct (GetParameterDescriptionData packet) as [parameterDescription|e|why] eqn:Hget;
    [|exists packet; repeat split; try done; by left|by destruct (Hparse why)].
  destruct (rewriteParameterOIDs_run items (ParameterOIDs parameterDescription) 0)
    as (Hlen & Hmap & Hunchanged).
  destruct (rewriteParameterOIDs items 0 (ParameterOIDs parameterDescription))
    as [oids changed]. simpl in *.
  destruct changed.
  - eexists. split; [reflexivity|]. split; [done|].
    right. exists items, parameterDescription, oids. repeat split; try done.
  - exists packet. split; [done|]. split; [done|]. by left.
Qed.



(** X20.  The answer to a censored query is not retried: when the first
    write to the client fails or comes up short, [sendClientError] returns
    an error without writing ReadyForQuery, and the iteration that was
    answering a denied query ends the loop with that error.  The client
    holds the part of the packed error that the write took, and the
    database has received nothing. *)
Theorem censored_query_whose_answer_cannot_be_written_ends_the_loop
  packet query censorErr n err rest proxy :
  carriesQuery packet query ->
  HandleQuery query = Some censorErr ->
  writes (clientConnection proxy) = WriteCut n err :: rest ->
  is_Some err \/ (n < length (NewPgError AcraCensorBlockedThisQuery).1)%nat ->
  exists e proxy',
    ProxyClientConnection_step (inl packet) proxy = (Exit (Some e), proxy') /\
    (forall e0, err = Some e0 -> e = e0) /\
    sent (clientConnection proxy') =
      sent (clientConnection proxy) ++ take n (NewPgError AcraCensorBlockedThisQuery).1 /\
    writes (clientConnection proxy') = rest /\
    dbConnection proxy' = dbConnection proxy.
Proof.
  intros Hcarries Hcensor Hwrites Hbad.
  destruct (handleClientPacket_censored _ _ _ proxy Hcarries Hcensor)
    as (proxy1 & Hhandle & Hclient & Hdb & _).
  unfold ProxyClientConnection_step. rewrite Hhandle.
  unfold sendClientError.
  destruct (NewPgError AcraCensorBlockedThisQuery) as [errorMessage err0] eqn:E.
  assert (err0 = None) as -> by (unfold NewPgError in E; congruence).
  simpl in Hbad.
  unfold bind_M at 1. simpl check at 1. unfold ret at 1.
  unfold bind_M at 1. unfold write, Conn_Write. rewrite Hclient, Hwrites.
  unfold bind_M at 1.
  assert (Hcheck : exists e,
            CheckReadWrite (len (take n errorMessage)) (len errorMessage) err = Some e /\
            forall e0, err = Some e0 -> e = e0).
  { unfold CheckReadWrite. destruct err as [e0|].
    - exists e0. split; [done|]. by intros ? [= <-].
    - destruct Hbad as [[? [=]]|Hshort].
      rewrite decide_False; [by eexists|].
      unfold len. rewrite length_take. lia. }
  destruct Hcheck as (e & -> & He). simpl.
  exists e. eexists. split; [reflexivity|]. split; [exact He|]. simpl.
  by rewrite Hdb.
Qed.

(** ** The registry over the life of a session *)

Ltac preserve_step :=
  first
    [ apply preserves_ret | apply preserves_call | apply preserves_fail
    | apply preserves_panic | apply preserves_gets | apply preserves_check
    | apply preserves_try
    | apply preserves_bind; [|intros ?]
    | match goal with
      | |- preserves _ (match ?x with _ => _ end) => destruct x
      | |- preserves _ (if ?x then _ else _) => destruct x
      end ].

Lemma registerCursor_keeps_the_statements bindPacket :
  preserves (fun proxy => statements (sessionRegistry proxy)) (registerCursor bindPacket).
Proof.
  intros proxy r proxy'. unfold registerCursor, AddCursor. run.
  destruct (StatementByName _ _); [|by intros [= <- <-]..].
  destruct (bool_decide _); simpl; by intros [= <- <-].
Qed.

Lemma handleBindPacket_keeps_the_statements packet :
  preserves (fun proxy => statements (sessionRegistry proxy)) (handleBindPacket packet).
Proof.
  unfold handleBindPacket.
  repeat first
    [ apply registerCursor_keeps_the_statements
    | apply preserves_modify; intros proxy; unfold rebind, sessionRegistry; simpl;
      repeat match goal with
      | |- context [match ?x with _ => _ end] => destruct x; simpl
      end; reflexivity
    | preserve_step ].
Qed.

Lemma registerPreparedStatement_grows preparedStatement proxy r proxy' :
  registerPreparedStatement preparedStatement proxy = (r, proxy') ->
  dom (statements (sessionRegistry proxy)) ⊆ dom (statements (sessionRegistry proxy')).
Proof.
  unfold registerPreparedStatement, AddStatement. run. unfold sessionRegistry. simpl.
  destruct (Parse (QueryString preparedStatement)); [|by intros [= <- <-]..].
  destruct (bool_decide _); simpl; intros [= <- <-]; simpl; [done|].
  rewrite dom_insert. set_solver.
Qed.

Lemma handleClientPacket_grows packet proxy r proxy' :
  handleClientPacket packet proxy = (r, proxy') ->
  dom (statements (sessionRegistry proxy)) ⊆ dom (statements (sessionRegistry proxy')).
Proof.
  intros H.
  destruct (IsSimpleQuery packet) eqn:Hq; [|destruct (IsParse packet) eqn:Hp;
    [|destruct (IsBind packet) eqn:Hb; [|destruct (IsExecute packet) eqn:He]]].
  - revert H. unfold handleClientPacket, HandleClientPacket. run. simpl. rewrite Hq.
    unfold pendingQueryPackets_add, pendingQueryPackets_Add. run. simpl.
    destruct (GetSimpleQuery packet); [|by intros [= <- <-]..].
    destruct (handleQueryPacket packet _) as [r1 proxy1] eqn:Hquery.
    apply handleQueryPacket_pure in Hquery. unfold id in Hquery. subst proxy1.
    by destruct r1; intros [= <- <-].
  - unfold handleClientPacket in H. unfold bind_M at 1 in H.
    rewrite (classify_parse _ _ Hp) in H.
    unfold bind_M at 1, gets at 1 in H.
    cbn [LastPacketType protocolState set_lastPacketType set_protocolState lastPacketType] in H.
    unfold bind_M at 1 in H.
    destruct (handleQueryPacket packet _) as [r1 proxy1] eqn:Hquery.
    apply handleQueryPacket_pure in Hquery. unfold id in Hquery. subst proxy1.
    destruct r1 as [[censored packet1]|e|why]; [|by injection H as <- <-..].
    destruct censored; [by injection H as <- <-|].
    unfold bind_M at 1, call at 1 in H.
    destruct (GetParseData packet1) as [[pendingParse|]|e|why]; [|by injection H as <- <-..].
    unfold bind_M at 1 in H.
    destruct (registerPreparedStatement pendingParse _) as [r2 proxy2] eqn:Hregister.
    apply registerPreparedStatement_grows in Hregister.
    destruct r2 as [[]|e|why]; [|by injection H as <- <-..].
    unfold bind_M at 1 in H.
    destruct (replaceOIDsInParsePackets packet1 pendingParse proxy2) as [r3 proxy3] eqn:Hoids.
    apply replaceOIDsInParsePackets_pure in Hoids. unfold id in Hoids. subst proxy3.
    by destruct r3; injection H as <- <-.
  - unfold handleClientPacket in H. unfold bind_M at 1 in H.
    rewrite (classify_bind _ _ Hb) in H.
    unfold bind_M at 1, gets at 1 in H.
    cbn [LastPacketType protocolState set_lastPacketType set_protocolState lastPacketType] in H.
    by rewrite (handleBindPacket_keeps_the_statements _ _ _ _ H).
  - revert H. unfold handleClientPacket. unfold bind_M at 1.
    rewrite (classify_execute _ _ He).
    unfold pendingQueryPackets_add, pendingQueryPackets_Add, CursorByName. run. simpl.
    repeat match goal with
    | |- context [match ?x with _ => _ end] => destruct x; simpl
    end; by intros [= <- <-].
  - rewrite handleClientPacket_uninteresting in H by done. by injection H as <- <-.
Qed.

(** X21.  Nothing is ever taken out of the registry of prepared
    statements: over any run of the loop of [ProxyClientConnection],
    whatever the client sends and however the loop ends, every statement
    name that was registered before is registered after. *)
Theorem prepared_statements_are_never_dropped reads :
  forall proxy r proxy',
    ProxyClientConnection reads proxy = (r, proxy') ->
    dom (statements (sessionRegistry proxy)) ⊆ dom (statements (sessionRegistry proxy')).
Proof.
  induction reads as [|read reads IH]; intros proxy r proxy' H.
  { by injection H as <- <-. }
  cbn [ProxyClientConnection] in H.
  destruct (ProxyClientConnection_step read proxy) as [r1 proxy1] eqn:Hstep.
  assert (Hgrows : dom (statements (sessionRegistry proxy))
                     ⊆ dom (statements (sessionRegistry proxy1))).
  { revert Hstep. unfold ProxyClientConnection_step.
    destruct read as [packet|err]; [|destruct (stopClient proxy); by intros [= <- <-]].
    destruct (handleClientPacket packet proxy) as [r2 proxy2] eqn:Hhandle.
    apply handleClientPacket_grows in Hhandle.
    destruct r2 as [[censored packet2]|e|why]; [|by intros [= <- <-]..].
    destruct censored.
    - destruct (sendClientError _ proxy2) as [r3 proxy3] eqn:Hsend.
      apply (preserves_sendClientError sessionRegistry) in Hsend; [|done].
      destruct r3; intros [= <- <-]; by rewrite Hsend.
    - destruct (sendPacket Database packet2 proxy2) as [r3 proxy3] eqn:Hsend.
      assert (Hsame : sessionRegistry proxy3 = sessionRegistry proxy2).
      { revert Hsend. unfold sendPacket.
        apply (preserves_bind sessionRegistry);
          [by apply preserves_write_database|intros [n err]; apply preserves_check]. }
      destruct r3 as [[]|e|why]; [destruct (terminatePacket packet2)|..];
        intros [= <- <-]; by rewrite Hsame. }
  destruct r1 as [[]| | |]; try (injection H as <- <-; exact Hgrows).
  etrans; [exact Hgrows|]. by eapply IH.
Qed.

(** ** Three more runs of the loops *)

(** X27.  A denied SSLRequest is not passed on when the client goroutine
    cannot be stopped.  On the first byte ['N'], when the stop request is
    not confirmed before the timer fires, the loop of
    [ProxyDatabaseConnection] ends with the error of the stop: the byte is
    not written to the client and the client goroutine is not started
    again. *)
Theorem SSL_deny_is_not_forwarded_when_the_client_cannot_be_stopped rest proxy :
  incoming (dbConnection proxy) = char "N" :: rest ->
  deadlineError (clientConnection proxy) = None ->
  (forall after, clientStopAfter proxy = Some after -> ClientStopTimeout <= after) ->
  exists proxy',
    ProxyDatabaseConnection_step stateFirstPacket proxy =
      (Exit (Some (ErrorString "can't stop background goroutine")), proxy') /\
    sent (clientConnection proxy') = sent (clientConnection proxy) /\
    trace proxy' =
      trace proxy ++ [EvStopFlag; EvSetDeadline DeadlineNow; EvTimerFired ClientStopTimeout].
Proof.
  intros Hin Hdeadline Hlate.
  destruct (stopProxyClientConnection_late (consumed rest proxy) Hdeadline Hlate)
    as (proxy' & Hstop & _ & _ & Hsent & _ & Htrace).
  exists proxy'. split; [|done].
  unfold ProxyDatabaseConnection_step, iteration.
  unfold bind_M at 1. rewrite (readMessageType_cons _ _ _ _ Hin).
  change (IsSSLRequestDeny (set_messageType [char "N"] Reset)) with true.
  cbv iota. unfold bind_M at 1. by rewrite Hstop.
Qed.

(** X28.  The settings of the placeholders do not outlive ReadyForQuery.
    In [stateServe] a ReadyForQuery is forwarded to the client as it came
    and its handling deletes the placeholder settings of the session; so a
    ParameterDescription that follows it is forwarded byte for byte,
    whatever it holds and whatever settings there were. *)
Theorem placeholder_settings_end_with_ReadyForQuery status payload rest proxy :
  incoming (dbConnection proxy) =
    framed ReadyForQueryMessageType status
      ++ framed ParameterDescriptionType payload ++ rest ->
  len status + 4 < 2 ^ 32 ->
  len payload + 4 < 2 ^ 32 ->
  accepts 2 (clientConnection proxy) ->
  exists proxy',
    ProxyDatabaseConnection 2 stateServe proxy = (Continue stateServe, proxy') /\
    sent (clientConnection proxy') =
      sent (clientConnection proxy) ++ framed ReadyForQueryMessageType status
        ++ framed ParameterDescriptionType payload /\
    PlaceholderSettings (session proxy') = None /\
    incoming (dbConnection proxy') = rest.
Proof.
  intros Hstream Hstatus Hpayload Hacc.
  assert (Hacc1 : accepts 1 (clientConnection proxy))
    by (eapply accepts_le; [|exact Hacc]; lia).
  cbn [ProxyDatabaseConnection]. unfold ProxyDatabaseConnection_step at 1, iteration.
  unfold bind_M at 1. rewrite (ReadPacket_framed _ status _ _ Hstatus Hstream).
  unfold bind_M at 1, try. rewrite handleDatabasePacket_ReadyForQuery.
  unfold bind_M at 1. rewrite sendPacket_accepts by done.
  rewrite Marshal_arrived by done. cbn [ret].
  unfold ProxyDatabaseConnection_step, iteration.
  unfold bind_M at 1.
  rewrite (ReadPacket_framed ParameterDescriptionType payload rest) by done.
  unfold bind_M at 1, try.
  assert (Hhandle : forall p,
            PlaceholderSettings (session p) = None ->
            handleDatabasePacket (arrived ParameterDescriptionType payload) p =
              (Ok (arrived ParameterDescriptionType payload),
               set_lastPacketType ParameterDescriptionPacket p)).
  { intros p Hnone.
    unfold handleDatabasePacket, HandleDatabasePacket, handleParameterDescription,
      IsDataRow, IsRowDescription, IsParameterDescription.
    rewrite !hasType_arrived. run. simpl.
    destruct (sessionInContext p); [|done]. simpl. by rewrite Hnone. }
  rewrite Hhandle by done.
  unfold bind_M. rewrite sendPacket_accepts by (simpl; by apply accepts_wrote).
  rewrite Marshal_arrived by done.
  eexists. split; [reflexivity|]. simpl. by rewrite <- app_assoc.
Qed.

(** X29.  An Execute does not use up its portal.  For a portal that is in
    the registry, two Execute packets in a row are both forwarded, each
    adds to the pending queries an entry for the statement and the Bind of
    the portal, and the registry is as before. *)
Theorem Execute_does_not_consume_the_portal packet execute cursor proxy :
  IsExecute packet = true ->
  GetExecuteData packet = Ok execute ->
  cursors (sessionRegistry proxy) !! portal execute = Some cursor ->
  terminatePacket packet = false ->
  accepts 2 (dbConnection proxy) ->
  exists proxy',
    ProxyClientConnection [inl packet; inl packet] proxy = (Continue tt, proxy') /\
    pendingQueryPackets (protocolState proxy') =
      pendingQueryPackets (protocolState proxy)
        ++ [newExtendedQueryPacket (PreparedStatement cursor) (bind cursor) execute;
            newExtendedQueryPacket (PreparedStatement cursor) (bind cursor) execute] /\
    sent (dbConnection proxy') = sent (dbConnection proxy) ++ Marshal packet ++ Marshal packet /\
    sessionRegistry proxy' = sessionRegistry proxy.
Proof.
  intros He Hget Hcursor Hterm Hacc.
  assert (Hacc1 : accepts 1 (dbConnection proxy))
    by (eapply accepts_le; [|exact Hacc]; lia).
  assert (Hstep : forall p,
            cursors (sessionRegistry p) !! portal execute = Some cursor ->
            accepts 1 (dbConnection p) ->
            ProxyClientConnection_step (inl packet) p =
              (Continue tt,
               sentTo Database (Marshal packet)
                 (set_pendingQueryPackets
                    (pendingQueryPackets (protocolState p)
                       ++ [newExtendedQueryPacket (PreparedStatement cursor)
                             (bind cursor) execute])
                    (set_lastPacketType ExecutePacketType p)))).
  { intros p Hp Hp1. unfold ProxyClientConnection_step.
    rewrite (handleClientPacket_execute _ _ _ He Hget), Hp.
    rewrite sendPacket_accepts by done. by rewrite Hterm. }
  cbn [ProxyClientConnection]. rewrite Hstep by done.
  rewrite Hstep by (try done; simpl; by apply accepts_wrote).
  eexists. split; [reflexivity|]. simpl. by rewrite <- !app_assoc.
Qed.

End ProxyProofs.

(** ** The registry of key encryptor fabrics *)

Section FabricsProofs.

Import keyloader.

Context {FlagSet KeyEncryptor KeyStoreSuite : Type}.

Variable ParseCLIOptionsFromFlags : FlagSet -> string -> CLIOptions.

Abbreviation Fabric := (@KeyEncryptorFabric FlagSet KeyEncryptor KeyStoreSuite).

Lemma registered_snoc (registrations : list (string * Fabric)) registration :
  registered (registrations ++ [registration]) =
    RegisterKeyEncryptorFabric registration.1 registration.2 (registered registrations).
Proof. unfold registered. by rewrite foldl_snoc. Qed.

Lemma registered_unregistered (registrations : list (string * Fabric)) strategy :
  strategy ∉ registrations.*1 -> registered registrations !! strategy = None.
Proof.
  induction registrations as [|[strategy' fabric] registrations IH] using rev_ind;
    intros Hnot.
  - apply lookup_empty.
  - rewrite registered_snoc. unfold RegisterKeyEncryptorFabric. simpl.
    rewrite fmap_app, not_elem_of_app in Hnot. simpl in Hnot.
    destruct Hnot as [Hnot Hlast]. apply not_elem_of_cons in Hlast as [Hlast _].
    rewrite lookup_insert_ne by done. by apply IH.
Qed.

Lemma registered_latest (before after : list (string * Fabric)) strategy fabric :
  strategy ∉ after.*1 ->
  registered (before ++ (strategy, fabric) :: after) !! strategy = Some fabric.
Proof.
  induction after as [|[strategy' fabric'] after IH] using rev_ind; intros Hnot.
  - rewrite registered_snoc. apply lookup_insert_eq.
  - rewrite fmap_app, not_elem_of_app in Hnot. simpl in Hnot.
    destruct Hnot as [Hnot Hlast]. apply not_elem_of_cons in Hlast as [Hlast _].
    rewrite app_comm_cons, app_assoc, registered_snoc.
    unfold RegisterKeyEncryptorFabric. simpl.
    rewrite lookup_insert_ne by done. by apply IH.
Qed.

(** X22.  After any sequence of registrations, [CreateKeyEncryptor] and
    [CreateKeyEncryptorSuite] build with the fabric that was registered
    last for the strategy the command line selects: an earlier fabric of
    that strategy is replaced, and the registrations of other strategies,
    before and after, make no difference. *)
Theorem CreateKeyEncryptor_builds_with_the_latest_registration
  (before after : list (string * Fabric)) strategy fabric flags prefix :
  KeystoreEncryptorType (ParseCLIOptionsFromFlags flags prefix) = strategy ->
  strategy ∉ after.*1 ->
  CreateKeyEncryptor ParseCLIOptionsFromFlags
    (registered (before ++ (strategy, fabric) :: after)) flags prefix =
    NewKeyEncryptor fabric flags prefix /\
  CreateKeyEncryptorSuite ParseCLIOptionsFromFlags
    (registered (before ++ (strategy, fabric) :: after)) flags prefix =
    NewKeyEncryptorSuite fabric flags prefix.
Proof.
  intros Hstrategy Hnot. unfold CreateKeyEncryptor, CreateKeyEncryptorSuite.
  cbv zeta. rewrite Hstrategy. by rewrite registered_latest.
Qed.

(** X23.  A strategy that was never registered has no fabric: whatever
    else is registered, both constructors return
    [ErrKeyEncryptorFabricNotFound] for it, and no fabric is asked. *)
Theorem CreateKeyEncryptor_knows_only_registered_strategies
  (registrations : list (string * Fabric)) flags prefix :
  KeystoreEncryptorType (ParseCLIOptionsFromFlags flags prefix) ∉ registrations.*1 ->
  CreateKeyEncryptor ParseCLIOptionsFromFlags (registered registrations) flags prefix =
    Err ErrKeyEncryptorFabricNotFound /\
  CreateKeyEncryptorSuite ParseCLIOptionsFromFlags (registered registrations) flags prefix =
    Err ErrKeyEncryptorFabricNotFound.
Proof.
  intros Hnot. unfold CreateKeyEncryptor, CreateKeyEncryptorSuite.
  cbv zeta. by rewrite registered_unregistered.
Qed.

End FabricsProofs.

(** ** The destroy subcommand *)

Section DestroyKeyProofs.

Import keys.

Context {commandLine : CommandLine} {keyMaking : KeyMaking}.

(** [DestroyKey] on a kind it has a case for makes one call, chosen by the
    index. *)
Lemma DestroyKey_known {P} `{DestroyKeyParams P} (params : P) keyStore :
  DestroyKeyKind params ∈ knownKinds ->
  exists call,
    DestroyKey params keyStore = perform call keyStore /\
    rotatedIndex call =
      (if bool_decide (Index params > 1) then Some (Index params) else None) /\
    clientOf call =
      (if bool_decide (DestroyKeyKind params = KeyPoisonKeypair \/
                       DestroyKeyKind params = KeyPoisonSymmetric)
       then None else Some (ClientID params)).
Proof.
  intros Hknown. unfold DestroyKey. cbv zeta.
  destruct (bool_decide (DestroyKeyKind params = KeyPoisonKeypair)) eqn:H1.
  { apply bool_decide_eq_true in H1.
    rewrite (bool_decide_eq_true_2 (_ \/ _)) by (by left).
    destruct (bool_decide (Index params > 1)); by eexists. }
  apply bool_decide_eq_false in H1.
  destruct (bool_decide (DestroyKeyKind params = KeyPoisonSymmetric)) eqn:H2.
  { apply bool_decide_eq_true in H2.
    rewrite (bool_decide_eq_true_2 (_ \/ _)) by (by right).
    destruct (bool_decide (Index params > 1)); by eexists. }
  apply bool_decide_eq_false in H2.
  rewrite (bool_decide_eq_false_2 (_ \/ _)) by (by intros [|]).
  destruct (bool_decide (DestroyKeyKind params = KeyStorageKeypair)) eqn:H3.
  { destruct (bool_decide (Index params > 1)); by eexists. }
  apply bool_decide_eq_false in H3.
  destruct (bool_decide (DestroyKeyKind params = KeySymmetric)) eqn:H4.
  { destruct (bool_decide (Index params > 1)); by eexists. }
  apply bool_decide_eq_false in H4.
  destruct (bool_decide (DestroyKeyKind params = KeySearch)) eqn:H5.
  { destruct (bool_decide (Index params > 1)); by eexists. }
  apply bool_decide_eq_false in H5.
  unfold knownKinds in Hknown.
  repeat (apply elem_of_cons in Hknown as [Hknown|Hknown]; [done|]).
  by apply elem_of_nil in Hknown.
Qed.

(** X24.  [DestroyKey] does not check the index it is given.  For a kind
    it knows it makes exactly one call to the key store and returns what
    the call returns: with any index up to 1, zero and the negative ones
    included, the call destroys the current key, and with an index above 1
    the rotated key of that index; the poison kinds pass no client ID, the
    other kinds pass the one of the parameters.  For any other kind it
    returns [ErrUnknownKeyKind] and the key store is not called. *)
Theorem DestroyKey_destroys_the_current_key_for_any_index_up_to_one
  {P} `{DestroyKeyParams P} (params : P) keyStore :
  (DestroyKeyKind params ∈ knownKinds ->
   exists call,
     DestroyKey params keyStore = perform call keyStore /\
     (Index params <= 1 -> rotatedIndex call = None) /\
     (1 < Index params -> rotatedIndex call = Some (Index params)) /\
     (clientOf call = None \/ clientOf call = Some (ClientID params))) /\
  (DestroyKeyKind params ∉ knownKinds ->
   DestroyKey params keyStore = (keyStore, Some ErrUnknownKeyKind)).
Proof.
  split.
  - intros Hknown.
    destruct (DestroyKey_known params keyStore Hknown) as (call & Hcall & Hindex & Hclient).
    exists call. split; [exact Hcall|]. rewrite Hindex, Hclient. repeat split.
    + intros Hle. by rewrite bool_decide_eq_false_2 by lia.
    + intros Hgt. by rewrite bool_decide_eq_true_2 by lia.
    + case_bool_decide; [by left|by right].
  - intros Hunknown. unfold DestroyKey. cbv zeta. unfold knownKinds in Hunknown.
    rewrite !not_elem_of_cons in Hunknown.
    destruct Hunknown as (H1 & H2 & H3 & H4 & H5 & _).
    by rewrite !bool_decide_eq_false_2 by done.
Qed.

(** What [Parse] returns, case by case. *)
Lemma Parse_cases p arguments p' result :
  Parse p arguments = (p', result) ->
  index p' = (ParseFlagsWithConfig (index p) arguments).1.2 /\
  ((exists err, result = Some err /\
      destroyKeyKind p' = destroyKeyKind p /\ contextID p' = contextID p) \/
   (exists arg coarseKind id,
      result = None /\
      ParseFlagsWithConfig (index p) arguments = (None, index p', [arg]) /\
      0 < index p' /\
      ParseKeyKind arg = (coarseKind, id, None) /\
      destroyKeyKind p' = coarseKind /\
      coarseKind ∈ knownKinds /\
      contextID p' =
        (if bool_decide (coarseKind = KeyPoisonKeypair \/ coarseKind = KeyPoisonSymmetric)
         then contextID p else id))).
Proof.
  unfold Parse.
  destruct (ParseFlagsWithConfig (index p) arguments) as [[err i] args] eqn:Hflags.
  destruct err as [err|]; [intros [= <- <-]; split; [done|left; by eexists]|].
  destruct args as [|arg [|arg' args]];
    [intros [= <- <-]; split; [done|left; by eexists]|
    |intros [= <- <-]; split; [done|left; by eexists]].
  destruct (bool_decide (i <= 0)) eqn:Hindex;
    [intros [= <- <-]; split; [done|left; by eexists]|].
  apply bool_decide_eq_false in Hindex.
  destruct (ParseKeyKind arg) as [[coarseKind id] [err|]] eqn:Hkind;
    [intros [= <- <-]; split; [done|left; by eexists]|].
  destruct (bool_decide (coarseKind = KeyPoisonKeypair \/ coarseKind = KeyPoisonSymmetric))
    eqn:Hpoison.
  { intros [= <- <-]. split; [done|].
    right. exists arg, coarseKind, id. simpl. rewrite Hpoison.
    apply bool_decide_eq_true in Hpoison.
    split; [done|]. split; [done|]. split; [lia|]. split; [done|]. split; [done|].
    split; [|done]. unfold knownKinds.
    rewrite !elem_of_cons. destruct Hpoison as [->| ->]; auto 10. }
  destruct (bool_decide (coarseKind = KeySymmetric \/ _)) eqn:Hclient;
    [|intros [= <- <-]; split; [done|left; by eexists]].
  apply bool_decide_eq_true in Hclient. intros [= <- <-]. split; [done|].
  right. exists arg, coarseKind, id. simpl. rewrite Hpoison.
  split; [done|]. split; [done|]. split; [lia|]. split; [done|]. split; [done|].
  split; [|done]. unfold knownKinds.
  rewrite !elem_of_cons. destruct Hclient as [->|[->| ->]]; auto 10.
Qed.

(** X25.  A command line that [Parse] accepts is one that [DestroyKey] can
    carry out.  After a successful [Parse] there was exactly one
    positional argument, its kind is one [DestroyKey] has a case for, and
    the index is at least 1; so [DestroyKey] on the parsed subcommand
    never answers [ErrUnknownKeyKind] of its own but makes exactly one
    call to the key store: for the current key when the index is 1, for
    the rotated key of that index when it is above, with the ID that
    [ParseKeyKind] gave unless the kind is one of the poison kinds, which
    take none. *)
Theorem parsed_command_destroys_exactly_one_key p arguments p' keyStore :
  Parse p arguments = (p', None) ->
  exists arg coarseKind id call,
    ParseFlagsWithConfig (index p) arguments = (None, index p', [arg]) /\
    ParseKeyKind arg = (coarseKind, id, None) /\
    destroyKeyKind p' = coarseKind /\
    1 <= index p' /\
    DestroyKey p' keyStore = perform call keyStore /\
    rotatedIndex call = (if bool_decide (index p' = 1) then None else Some (index p')) /\
    clientOf call =
      (if bool_decide (coarseKind = KeyPoisonKeypair \/ coarseKind = KeyPoisonSymmetric)
       then None else Some id).
Proof.
  intros Hparse.
  destruct (Parse_cases _ _ _ _ Hparse)
    as [_ [(err & [=] & _)|(arg & coarseKind & id & _ & Hflags & Hindex & Hkind & Hsame &
                           Hknown & Hcontext)]].
  destruct (DestroyKey_known p' keyStore) as (call & Hcall & Hrotated & Hclient).
  { simpl. by rewrite Hsame. }
  exists arg, coarseKind, id, call. repeat split; try done; try lia.
  - rewrite Hrotated. simpl.
    destruct (decide (index p' = 1)) as [Hone|Hmore].
    + rewrite bool_decide_eq_false_2 by lia. by rewrite bool_decide_eq_true_2.
    + rewrite bool_decide_eq_true_2 by lia. by rewrite bool_decide_eq_false_2.
  - rewrite Hclient. simpl. rewrite Hsame.
    destruct (bool_decide _); [done|]. by rewrite Hcontext.
Qed.

(** X26.  [Parse] sets the kind and the context ID only when it succeeds:
    whenever it returns an error, for flags that do not parse, a missing
    or a second positional argument, an index below 1, a kind that does
    not parse or that [destroy] does not support, the subcommand keeps the
    kind and the context ID it had.  The index is the one the flag parsing
    left, in every case. *)
Theorem Parse_with_an_error_keeps_kind_and_context p arguments p' err :
  Parse p arguments = (p', Some err) ->
  destroyKeyKind p' = destroyKeyKind p /\
  contextID p' = contextID p /\
  index p' = (ParseFlagsWithConfig (index p) arguments).1.2.
Proof.
  intros Hparse.
  destruct (Parse_cases _ _ _ _ Hparse)
    as [Hindex [(err' & _ & Hkind & Hcontext)|(arg & coarseKind & id & [=] & _)]].
  done.
Qed.

End DestroyKeyProofs.

(** * The proxy on the demo sessions *)

Section Witnesses.

#[local] Existing Instances Demo.parser Demo.censor Demo.queryObserverManager
  Demo.decryptionObserver Demo.encryptor Demo.setting Demo.codec.

Import Scenarios.

Lemma accepts_nil n c : writes c = [] -> accepts n c.
Proof. unfold accepts. intros ->. by rewrite take_nil. Qed.

Lemma sendClientError_writes_ErrorResponse_witness :
  exists proxy',
    sendClientError "AcraCensor blocked this query" Demo.proxy = (Ok tt, proxy') /\
    sent (clientConnection proxy') =
      [] ++ ErrorResponse "AcraCensor blocked this query" ++ [0x5A; 0; 0; 0; 5; 0x49].
Proof.
  destruct (sendClientError_writes_ErrorResponse "AcraCensor blocked this query" Demo.proxy)
    as (proxy' & Hsend & Hsent & _).
  - vm_compute. reflexivity.
  - by apply accepts_nil.
  - exists proxy'. split; [exact Hsend|exact Hsent].
Defined.


Lemma bind_of_unknown_statement_witness :
  exists proxy',
    ProxyClientConnection_step
      (inl (Demo.packet "B" (cstr "p1" ++ cstr "s1"))) Demo.proxy
      = (Exit (Some ErrStatementNotFound), proxy') /\
    dbConnection proxy' = dbConnection Demo.proxy.
Proof.
  destruct (bind_of_unknown_statement_ends_session
              (Demo.packet "B" (cstr "p1" ++ cstr "s1"))
              {| PortalName := "p1"; StatementName := "s1"; paramFormats := [];
                 paramValues := []; resultFormats := [] |} Demo.proxy)
    as (proxy' & _ & Hstep & Hdb & _).
  - reflexivity.
  - reflexivity.
  - reflexivity.
  - exists proxy'. split; [exact Hstep|exact Hdb].
Defined.


Lemma malformed_description_witness :
  exists proxy',
    ProxyDatabaseConnection_step stateServe
      (answered (framed (char "T") cutDescription ++ []) withItems)
      = (Continue stateServe, proxy') /\
    sent (clientConnection proxy') = [] ++ framed (char "T") cutDescription.
Proof.
  destruct (malformed_description_is_forwarded_unchanged
              (char "T") cutDescription []
              (answered (framed (char "T") cutDescription ++ []) withItems))
    as (proxy' & Hstep & Hsent & _).
  - reflexivity.
  - vm_compute. reflexivity.
  - left. split; [reflexivity|]. by eexists.
  - by apply accepts_nil.
  - exists proxy'. split; [exact Hstep|exact Hsent].
Defined.

(** C5.  A RowDescription that cannot be parsed is not answered with an
    error: with the settings of one result column in the session, a
    RowDescription that announces a field and ends there goes to the
    client as it is, and the next state is [stateServe]. *)
Lemma malformed_RowDescription_is_not_answered_with_an_error :
  GetRowDescriptionData (arrived (char "T") cutDescription)
    = Err (ErrorString "can't parse RowDescription") /\
  ~ answersDecodeError (answered (framed (char "T") cutDescription ++ []) withItems).
Proof.
  split; [reflexivity|].
  intros (msg & proxy' & Hstep & _). vm_compute in Hstep. discriminate.
Qed.


(** The three packets on a fresh session: one extended query is pending,
    with the text of the Parse. *)
Example parse_bind_execute_run :
  GetSQLQuery <$> pendingQueryPackets
    (protocolState (handleClientPacket executeP1 bound).2) = ["SELECT 1"%string].
Proof. vm_compute. reflexivity. Qed.

Lemma DataRow_leaves_untouchable_columns_witness :
  exists columnFormats columns events,
    parseColumns withNull columnFormats = Ok columns /\
    (handleQueryDataPacket (arrived (char "D") withNull) (asked "SELECT a, b FROM u")).2
      = logged events (asked "SELECT a, b FROM u") /\
    Forall (decrypts 0 columns) events.
Proof.
  destruct (DataRow_leaves_untouchable_columns
              (arrived (char "D") withNull)
              match (handleQueryDataPacket (arrived (char "D") withNull)
                       (asked "SELECT a, b FROM u")).1 with
              | Ok packet' => packet'
              | _ => Reset
              end
              (asked "SELECT a, b FROM u")
              (handleQueryDataPacket (arrived (char "D") withNull)
                 (asked "SELECT a, b FROM u")).2)
    as (columnFormats & columns & events & Hparse & Hlogged & _ & _ & _ & Hevents).
  - vm_compute. reflexivity.
  - exists columnFormats, columns, events.
    split; [exact Hparse|]. split; [exact Hlogged|exact Hevents].
Defined.

(** The row ["a"], NULL after a simple query: the observer is called once,
    on the first column, and the row goes out as it came. *)
Example DataRow_with_NULL_run :
  let proxy := answered (framed (char "D") withNull) (asked "SELECT a, b FROM u") in
  let proxy' := (ProxyDatabaseConnection_step stateServe proxy).2 in
  trace proxy' =
    trace proxy ++ [EvColumnDecryption 0 [97] false None;
                    EvClientWrite (framed (char "D") withNull)].
Proof. vm_compute. reflexivity. Qed.


(** The first byte ['S'] on the demo session: the client goroutine stops
    after a millisecond, the byte is forwarded, both sockets are wrapped. *)
Example SSL_allowed_run :
  let proxy' :=
    (ProxyDatabaseConnection_step stateFirstPacket (answered [char "S"] Demo.proxy)).2 in
  (ProxyDatabaseConnection_step stateFirstPacket (answered [char "S"] Demo.proxy)).1
    = Continue stateServe /\
  trace proxy' =
    [EvStopFlag; EvSetDeadline DeadlineNow; EvClientStopped 1000000;
     EvSetDeadline NoDeadline; EvClientWrite [char "S"]; EvWrapClient; EvWrapDB;
     EvSpawnClient].
Proof. vm_compute. split; reflexivity. Qed.

Lemma TLS_upgrade_witness :
  exists events,
    trace (handleSSLRequest (set_messageType [char "S"] Reset) deaf).2
      = trace deaf ++ events /\
    ownsClientSocket false events.
Proof.
  destruct (TLS_upgrade_waits_for_the_client_to_stop
              (set_messageType [char "S"] Reset) deaf
              (handleSSLRequest (set_messageType [char "S"] Reset) deaf).1
              (handleSSLRequest (set_messageType [char "S"] Reset) deaf).2)
    as (events & Htrace & Howns & _).
  - vm_compute. reflexivity.
  - exists events. split; [exact Htrace|exact Howns].
Defined.

(** Without an answer of the client goroutine the upgrade fails when the
    timer fires, and the session ends. *)
Example SSL_timeout_run :
  let end_ := ProxyDatabaseConnection_step stateFirstPacket (answered [char "S"] deaf) in
  end_.1 = Exit (Some (ErrorString "can't stop background goroutine")) /\
  trace end_.2 = [EvStopFlag; EvSetDeadline DeadlineNow; EvTimerFired 2000000000] /\
  sent (clientConnection end_.2) = [].
Proof. vm_compute. repeat split; reflexivity. Qed.

Lemma processColumns_panics_witness :
  processColumns 1 1
    [ {| LengthBuf := [0; 0; 0; 1]; data := [97] |};
      {| LengthBuf := [0; 0; 0; 1]; data := [98] |} ]
    None (Some [None]) Demo.proxy
  = (Panic "index out of range", Demo.proxy).
Proof.
  apply (processColumns_panics_at_settings_length 0
           [ {| LengthBuf := [0; 0; 0; 1]; data := [97] |};
             {| LengthBuf := [0; 0; 0; 1]; data := [98] |} ]
           {| LengthBuf := [0; 0; 0; 1]; data := [98] |} None [None] Demo.proxy).
  - reflexivity.
  - reflexivity.
  - discriminate.
Defined.

(** A row of two columns that are not NULL, for a query with one extracted
    setting: the loop gets through column 0 and panics at column 1, the
    length of the settings. *)
Example settings_index_out_of_range_run :
  let proxy := answered (framed (char "D") twoColumns) (asked "SELECT * FROM t") in
  GetQueryEncryptionSettings "SELECT * FROM t" = Some [None] /\
  (ProxyDatabaseConnection_step stateServe proxy).1 = Crashed "index out of range" /\
  trace (ProxyDatabaseConnection_step stateServe proxy).2 =
    trace proxy ++ [EvColumnDecryption 0 [97] false None].
Proof. vm_compute. repeat split; reflexivity. Qed.

(** ** More runs on the demo sessions *)

Import Runs.

Lemma uninteresting_packets_witness :
  exists proxy',
    ProxyClientConnection (inl <$> syncFlush) Demo.proxy = (Continue tt, proxy') /\
    sent (dbConnection proxy') = [] ++ concat (Marshal <$> syncFlush).
Proof.
  destruct (uninteresting_packets_are_forwarded_in_order syncFlush Demo.proxy)
    as (proxy' & Hrun & Hsent & _).
  - repeat constructor.
  - by apply accepts_nil.
  - exists proxy'. split; [exact Hrun|exact Hsent].
Defined.

Lemma terminate_packet_witness :
  exists proxy',
    ProxyClientConnection [inl terminate; inl (Demo.packet "Q" (cstr "SELECT 1"))] Demo.proxy
      = (Exit None, proxy') /\
    sent (dbConnection proxy') = [] ++ Marshal terminate.
Proof.
  destruct (terminate_packet_is_forwarded_before_the_loop_ends
              terminate [inl (Demo.packet "Q" (cstr "SELECT 1"))] Demo.proxy)
    as (proxy' & Hrun & Hsent & _).
  - repeat constructor.
  - reflexivity.
  - by apply accepts_nil.
  - exists proxy'. split; [exact Hrun|exact Hsent].
Defined.

Lemma censored_SimpleQuery_witness :
  exists proxy',
    ProxyClientConnection_step (inl (Demo.packet "Q" (cstr "DROP TABLE users"))) Demo.proxy
      = (Continue tt, proxy') /\
    GetPendingPacket (pendingQueryPackets (protocolState proxy'))
      = Ok (newQueryPacket "DROP TABLE users").
Proof.
  destruct (censored_SimpleQuery_stays_pending
              (Demo.packet "Q" (cstr "DROP TABLE users")) "DROP TABLE users"
              (ErrorString "query is denied") Demo.proxy)
    as (proxy' & Hstep & _ & _ & Hhead).
  - reflexivity.
  - reflexivity.
  - reflexivity.
  - by apply accepts_nil.
  - exists proxy'. split; [exact Hstep|by apply Hhead].
Defined.


Lemma other_database_packets_witness :
  exists proxy',
    ProxyDatabaseConnection 2 stateServe
      (answered (framedAll [(char "C", cstr "SELECT 1"); (char "n", [])] ++ []) Demo.proxy)
      = (Continue stateServe, proxy') /\
    sent (clientConnection proxy') =
      [] ++ framedAll [(char "C", cstr "SELECT 1"); (char "n", [])].
Proof.
  destruct (other_database_packets_pass_through
              [(char "C", cstr "SELECT 1"); (char "n", [])] []
              (answered (framedAll [(char "C", cstr "SELECT 1"); (char "n", [])] ++ [])
                 Demo.proxy))
    as (proxy' & Hrun & Hsent & _).
  - repeat constructor; vm_compute; congruence.
  - reflexivity.
  - by apply accepts_nil.
  - exists proxy'. split; [exact Hrun|exact Hsent].
Defined.

(** A row that no query is pending for ends the loop, and the client is
    sent nothing. *)
Lemma handler_error_witness :
  ProxyDatabaseConnection_step stateServe
    (answered (framed (char "D") twoColumns ++ []) Demo.proxy)
    = (Exit (Some ErrNoPendingPacket),
       (handleDatabasePacket (arrived (char "D") twoColumns) (consumed [] Demo.proxy)).2) /\
  sent (clientConnection
          (handleDatabasePacket (arrived (char "D") twoColumns) (consumed [] Demo.proxy)).2)
    = [].
Proof.
  destruct (handler_error_that_is_no_EncodingError_ends_the_loop
              (char "D") twoColumns [] ErrNoPendingPacket
              (answered (framed (char "D") twoColumns ++ []) Demo.proxy)
              (handleDatabasePacket (arrived (char "D") twoColumns)
                 (consumed [] Demo.proxy)).2)
    as (Hstep & Hclient & _).
  - reflexivity.
  - vm_compute. reflexivity.
  - vm_compute. reflexivity.
  - reflexivity.
  - split; [exact Hstep|]. by rewrite Hclient.
Defined.

Lemma serving_never_writes_witness :
  sent (dbConnection
          (iteration stateServe
             (answered (framed (char "D") withNull) (asked "SELECT a, b FROM u"))).2)
    = sent (dbConnection (answered (framed (char "D") withNull) (asked "SELECT a, b FROM u"))).
Proof.
  destruct (serving_never_writes_to_the_database stateServe
              (answered (framed (char "D") withNull) (asked "SELECT a, b FROM u"))
              (iteration stateServe
                 (answered (framed (char "D") withNull) (asked "SELECT a, b FROM u"))).1
              (iteration stateServe
                 (answered (framed (char "D") withNull) (asked "SELECT a, b FROM u"))).2)
    as (Hsent & _).
  - discriminate.
  - by destruct (iteration _ _).
  - exact Hsent.
Defined.

Lemma stop_timeout_witness :
  exists proxy',
    stopProxyClientConnection deaf =
      (Err (ErrorString "can't stop background goroutine"), proxy') /\
    stopClient proxy' = true /\
    deadline (clientConnection proxy') = DeadlineNow.
Proof.
  destruct (stop_timeout_leaves_the_deadline_in_the_past deaf eq_refl) as [_ Hlate].
  destruct Hlate as (proxy' & Hstop & Hflag & Hdeadline & _); [discriminate|].
  exists proxy'. split; [exact Hstop|]. split; [exact Hflag|exact Hdeadline].
Defined.

Lemma only_a_denied_query_witness :
  clientConnection
    (ProxyClientConnection_step (inl (Demo.packet "Q" (cstr "SELECT 1"))) Demo.proxy).2
    = clientConnection Demo.proxy.
Proof.
  apply (only_a_denied_query_is_answered_by_the_proxy
           (inl (Demo.packet "Q" (cstr "SELECT 1"))) Demo.proxy
           (ProxyClientConnection_step (inl (Demo.packet "Q" (cstr "SELECT 1"))) Demo.proxy).1).
  - intros packet query [= <-] [[_ Hquery]|[Hparse _]].
    + injection Hquery as <-. reflexivity.
    + discriminate.
  - by destruct (ProxyClientConnection_step _ _).
Defined.

Lemma processColumns_panics_only_witness :
  exists settings : list (option QueryDataItem),
    Some [None] = Some settings /\ (1 <= length settings < 1 + 1)%nat.
Proof.
  apply (processColumns_panics_only_at_the_number_of_settings 1 1
           [ {| LengthBuf := [0; 0; 0; 1]; data := [97] |};
             {| LengthBuf := [0; 0; 0; 1]; data := [98] |} ]
           None (Some [None]) Demo.proxy "index out of range" Demo.proxy).
  - simpl. lia.
  - discriminate.
  - reflexivity.
Defined.

Lemma non_NULL_columns_witness :
  exists binaryFormat newData,
    OnColumnDecryption 0 [97] binaryFormat (settingAt None 0) = (newData, None) /\
    aAndNull !! 0%nat = Some (SetData {| LengthBuf := [0; 0; 0; 1]; data := [97] |} newData).
Proof.
  destruct (non_NULL_columns_hold_what_the_observer_returned
              aAndNull None None Demo.proxy aAndNull
              (logged [EvColumnDecryption 0 [97] false None] Demo.proxy))
    as [_ Hcolumns].
  - vm_compute. reflexivity.
  - destruct (Hcolumns 0%nat {| LengthBuf := [0; 0; 0; 1]; data := [97] |} eq_refl eq_refl)
      as (binaryFormat & newData & Hobserver & _ & Hcolumn).
    exists binaryFormat, newData. split; [exact Hobserver|exact Hcolumn].
Defined.


Lemma censored_query_failed_write_witness :
  exists e proxy',
    ProxyClientConnection_step (inl (Demo.packet "Q" (cstr "DROP TABLE users"))) stingy
      = (Exit (Some e), proxy') /\
    sent (clientConnection proxy') =
      [] ++ take 3 (NewPgError "AcraCensor blocked this query").1.
Proof.
  destruct (censored_query_whose_answer_cannot_be_written_ends_the_loop
              (Demo.packet "Q" (cstr "DROP TABLE users")) "DROP TABLE users"
              (ErrorString "query is denied") 3 None [] stingy)
    as (e & proxy' & Hstep & _ & Hsent & _).
  - left. split; reflexivity.
  - reflexivity.
  - reflexivity.
  - right. vm_compute. lia.
  - exists e, proxy'. split; [exact Hstep|exact Hsent].
Defined.

Lemma prepared_statements_witness :
  dom (statements (sessionRegistry parsed))
    ⊆ dom (statements
             (sessionRegistry (ProxyClientConnection [inl bindP1; inl executeP1] parsed).2)).
Proof.
  apply (prepared_statements_are_never_dropped [inl bindP1; inl executeP1] parsed
           (ProxyClientConnection [inl bindP1; inl executeP1] parsed).1).
  by destruct (ProxyClientConnection _ _).
Defined.

Lemma SSL_deny_not_forwarded_witness :
  exists proxy',
    ProxyDatabaseConnection_step stateFirstPacket (answered [char "N"] deaf) =
      (Exit (Some (ErrorString "can't stop background goroutine")), proxy') /\
    sent (clientConnection proxy') = [].
Proof.
  destruct (SSL_deny_is_not_forwarded_when_the_client_cannot_be_stopped
              [] (answered [char "N"] deaf))
    as (proxy' & Hrun & Hsent & _).
  - reflexivity.
  - reflexivity.
  - discriminate.
  - exists proxy'. split; [exact Hrun|exact Hsent].
Defined.

Lemma placeholder_settings_witness :
  exists proxy',
    ProxyDatabaseConnection 2 stateServe
      (answered (framed ReadyForQueryMessageType [73]
                   ++ framed ParameterDescriptionType [0; 1; 0; 0; 0; 23] ++ [])
         Demo.proxy)
      = (Continue stateServe, proxy') /\
    sent (clientConnection proxy') =
      [] ++ framed ReadyForQueryMessageType [73]
        ++ framed ParameterDescriptionType [0; 1; 0; 0; 0; 23].
Proof.
  destruct (placeholder_settings_end_with_ReadyForQuery
              [73] [0; 1; 0; 0; 0; 23] []
              (answered (framed ReadyForQueryMessageType [73]
                           ++ framed ParameterDescriptionType [0; 1; 0; 0; 0; 23] ++ [])
                 Demo.proxy))
    as (proxy' & Hrun & Hsent & _).
  - reflexivity.
  - reflexivity.
  - reflexivity.
  - by apply accepts_nil.
  - exists proxy'. split; [exact Hrun|exact Hsent].
Defined.

Lemma Execute_portal_witness :
  exists proxy',
    ProxyClientConnection [inl executeP1; inl executeP1] bound = (Continue tt, proxy') /\
    sessionRegistry proxy' = sessionRegistry bound.
Proof.
  edestruct (fun execute cursor =>
               Execute_does_not_consume_the_portal executeP1 execute cursor bound)
    as (proxy' & Hrun & _ & _ & Hregistry).
  - reflexivity.
  - reflexivity.
  - reflexivity.
  - reflexivity.
  - by apply accepts_nil.
  - exists proxy'. split; [exact Hrun|exact Hregistry].
Defined.

End Witnesses.

(** * The proxy with collaborators that fail *)

Section AdverseWitnesses.

#[local] Existing Instances Adverse.parser Demo.censor Adverse.queryObserverManager
  Demo.decryptionObserver Demo.encryptor Adverse.setting Adverse.codec.

Import Scenarios.

Lemma query_observer_error_witness :
  (exists proxy',
     ProxyClientConnection_step (inl (Demo.packet "Q" (cstr "SELECT secret"))) Adverse.proxy
       = (Exit (Some (KeyReadError "can't read key")), proxy') /\
     dbConnection proxy' = dbConnection Adverse.proxy) /\
  (exists proxy',
     ProxyClientConnection_step (inl (Demo.packet "Q" (cstr "SELECT broken"))) Adverse.proxy
       = (Continue tt, proxy') /\
     sent (dbConnection proxy') = framed (char "Q") (cstr "SELECT broken")).
Proof.
  split.
  - destruct (query_observer_error_is_fatal_only_for_key_reads
                (Demo.packet "Q" (cstr "SELECT secret")) "SELECT secret"
                (KeyReadError "can't read key") Adverse.proxy) as [Hkey _].
    + reflexivity.
    + vm_compute. reflexivity.
    + reflexivity.
    + reflexivity.
    + destruct (Hkey eq_refl) as (proxy' & Hstep & Hdb & _).
      exists proxy'. split; [exact Hstep|exact Hdb].
  - destruct (query_observer_error_is_fatal_only_for_key_reads
                (Demo.packet "Q" (cstr "SELECT broken")) "SELECT broken"
                (ErrorString "can't encrypt") Adverse.proxy) as [_ Hother].
    + reflexivity.
    + vm_compute. reflexivity.
    + reflexivity.
    + reflexivity.
    + destruct (Hother eq_refl) as (proxy' & Hstep & Hsent & _).
      * by apply accepts_nil.
      * exists proxy'. split; [exact Hstep|exact Hsent].
Defined.


Lemma Bind_forwarded_unchanged_witness :
  exists proxy',
    ProxyClientConnection_step (inl Adverse.bindP2) Adverse.prepared = (Continue tt, proxy') /\
    sent (dbConnection proxy') = [] ++ Marshal Adverse.bindP2.
Proof.
  destruct (Bind_is_forwarded_unchanged_when_its_parameters_cannot_be_processed
              Adverse.bindP2
              {| PortalName := "p2"; StatementName := "s2"; paramFormats := [];
                 paramValues := []; resultFormats := [] |}
              Adverse.broken Adverse.prepared)
    as [Hforward _].
  - reflexivity.
  - reflexivity.
  - reflexivity.
  - right. reflexivity.
  - destruct Hforward as (proxy' & Hstep & Hsent & _).
    + right. exists [], (ErrorString "can't encrypt"). repeat split.
    + by apply accepts_nil.
    + exists proxy'. split; [exact Hstep|exact Hsent].
Defined.

Lemma failed_client_handshake_witness :
  exists proxy',
    handleSSLRequest (set_messageType [char "S"] Reset) Adverse.proxy
      = (Err (ErrorString "tls: bad certificate"), proxy') /\
    sent (clientConnection proxy') = [] ++ [char "S"] /\
    dbConnection proxy' = dbConnection Adverse.proxy.
Proof.
  destruct (failed_client_handshake_leaves_the_database_connection
              Adverse.wrapper (set_messageType [char "S"] Reset) 1000000
              (ErrorString "tls: bad certificate") Adverse.proxy)
    as (proxy' & Hupgrade & _ & Hsent & Hdb).
  - reflexivity.
  - reflexivity.
  - reflexivity.
  - reflexivity.
  - by apply accepts_nil.
  - reflexivity.
  - exists proxy'. split; [exact Hupgrade|]. split; [exact Hsent|exact Hdb].
Defined.

Lemma RowDescription_types_witness :
  exists packet',
    handleRowDescription (Demo.packet "T" [25; 25]) Adverse.proxy = (Ok packet', Adverse.proxy) /\
    messageType packet' = [char "T"].
Proof.
  destruct (RowDescription_gets_the_types_of_type_aware_settings
              (Demo.packet "T" [25; 25]) Adverse.proxy)
    as (packet' & Hhandle & Htype & _).
  - discriminate.
  - intros rowDescription. simpl. rewrite length_fmap. lia.
  - exists packet'. split; [exact Hhandle|exact Htype].
Defined.

(** Two fields of type text, the first with a setting that is read as
    int4: the first OID goes out as 23. *)
Example RowDescription_types_run :
  (handleRowDescription (Demo.packet "T" [25; 25]) Adverse.proxy).1
    = Ok (Demo.packet "T" [23; 25]).
Proof. vm_compute. reflexivity. Qed.

Lemma ParameterDescription_types_witness :
  exists packet',
    handleParameterDescription (Demo.packet "t" [25; 25]) Adverse.proxy
      = (Ok packet', Adverse.proxy) /\
    messageType packet' = [char "t"].
Proof.
  destruct (ParameterDescription_gets_the_types_of_type_aware_settings
              (Demo.packet "t" [25; 25]) Adverse.proxy)
    as (packet' & Hhandle & Htype & _).
  - discriminate.
  - intros parameterDescription. simpl. lia.
  - exists packet'. split; [exact Hhandle|exact Htype].
Defined.


End AdverseWitnesses.

(** * The key commands on the demo key store *)

Section KeysWitnesses.

#[local] Existing Instances KeysDemo.commandLine KeysDemo.keyMaking.

Import keyloader keys.

Lemma CreateKeyEncryptor_latest_registration_witness :
  CreateKeyEncryptor KeysDemo.ParseCLIOptionsFromFlags
    (registered ([("vault"%string, KeysDemo.fabric "vault v1")]
                   ++ ("vault"%string, KeysDemo.fabric "vault v2")
                   :: [("kms"%string, KeysDemo.fabric "kms")]))
    "vault" "" = Ok "vault v2"%string.
Proof.
  destruct (CreateKeyEncryptor_builds_with_the_latest_registration
              KeysDemo.ParseCLIOptionsFromFlags
              [("vault"%string, KeysDemo.fabric "vault v1")]
              [("kms"%string, KeysDemo.fabric "kms")]
              "vault" (KeysDemo.fabric "vault v2") "vault"%string "")
    as [Hcreate _].
  - reflexivity.
  - simpl. rewrite list_elem_of_singleton. discriminate.
  - exact Hcreate.
Defined.

Lemma CreateKeyEncryptor_unregistered_witness :
  CreateKeyEncryptor KeysDemo.ParseCLIOptionsFromFlags
    (registered [("vault"%string, KeysDemo.fabric "vault")]) "kms" ""
    = Err ErrKeyEncryptorFabricNotFound.
Proof.
  destruct (CreateKeyEncryptor_knows_only_registered_strategies
              KeysDemo.ParseCLIOptionsFromFlags
              [("vault"%string, KeysDemo.fabric "vault")] "kms"%string "")
    as [Hcreate _].
  - simpl. rewrite list_elem_of_singleton. discriminate.
  - exact Hcreate.
Defined.

Lemma parsed_command_witness :
  exists call,
    DestroyKey (Parse KeysDemo.subcommand ["--index=2"; "symmetric:alice"]%string).1
      KeysDemo.emptyStore = perform call KeysDemo.emptyStore /\
    rotatedIndex call = Some 2 /\
    clientOf call = Some (bytes_of "alice").
Proof.
  destruct (parsed_command_destroys_exactly_one_key
              KeysDemo.subcommand ["--index=2"; "symmetric:alice"]%string
              (Parse KeysDemo.subcommand ["--index=2"; "symmetric:alice"]%string).1
              KeysDemo.emptyStore)
    as (arg & coarseKind & id & call & Hflags & Hkind & _ & _ & Hcall & Hrotated & Hclient).
  - reflexivity.
  - injection Hflags as <-. injection Hkind as <- <-.
    exists call. split; [exact Hcall|]. split; [exact Hrotated|exact Hclient].
Defined.

(** The command line [--index=2 symmetric:alice] on an empty key store:
    one call, for the rotated symmetric key 2 of client alice. *)
Example destroy_rotated_key_run :
  (DestroyKey (Parse KeysDemo.subcommand ["--index=2"; "symmetric:alice"]%string).1
     KeysDemo.emptyStore).1
    = [DestroyRotatedClientIDSymmetricKey (bytes_of "alice") 2].
Proof. vm_compute. reflexivity. Qed.

Lemma Parse_with_an_error_witness :
  (Parse KeysDemo.subcommand ["--index=0"; "poison-keypair"]%string).2 = Some ErrInvalidIndex /\
  destroyKeyKind (Parse KeysDemo.subcommand ["--index=0"; "poison-keypair"]%string).1
    = destroyKeyKind KeysDemo.subcommand.
Proof.
  destruct (Parse_with_an_error_keeps_kind_and_context
              KeysDemo.subcommand ["--index=0"; "poison-keypair"]%string
              (Parse KeysDemo.subcommand ["--index=0"; "poison-keypair"]%string).1
              ErrInvalidIndex)
    as (Hkind & _).
  - reflexivity.
  - split; [reflexivity|exact Hkind].
Defined.

(** A kind that parses and that [destroy] has no case for is refused by
    [Parse], and by [DestroyKey] without a call to the key store. *)
Example unsupported_kind_run :
  (Parse KeysDemo.subcommand ["storage-public:alice"]%string).2 = Some ErrUnknownKeyKind /\
  DestroyKey {| index := 1; destroyKeyKind := "storage-public"; contextID := [] |}
    KeysDemo.emptyStore = (KeysDemo.emptyStore, Some ErrUnknownKeyKind).
Proof. vm_compute. split; reflexivity. Qed.

End KeysWitnesses.
